(** * ai_tutor: session state, persistent store and handoff chain

    A shallow embedding of the session-orchestration and persistence core of
    the [ai_tutor] package:

    - [ai_tutor/tools/storage.py]   ([UserProgressStore], both backends),
    - [ai_tutor/tools/context.py]   ([TutorContext]),
    - [ai_tutor/tools/user_tools.py] ([save_study_plan], [save_quiz_results]),
    - [ai_tutor/tutor_system.py]    ([process_agent_handoff_chain],
                                     [complete_learning_objective]).

    Python floats are IEEE binary64 values, modelled by Rocq's primitive
    floats; a [dict] keeps its insertion order, so the dictionaries the code
    iterates over are association lists with Python's update discipline;
    the set of visited agents is a [gset]; the file system is a [gmap] from
    paths to files and a [gset] of directories. The clock, [uuid4] and the
    agent runner are inputs of the functions that call them. *)

From Stdlib Require Import Floats ZArith Ascii String Uint63.
From stdpp Require Import gmap strings list pretty.

Set Warnings "-inexact-float".
Open Scope string_scope.

(** ** Python values *)

(** Truthiness of an [Optional[str]]: [None] and the empty string are falsy. *)
Definition truthy (o : option string) : bool :=
  match o with
  | Some s => negb (String.eqb s "")
  | None => false
  end.

(** [o.get(key, default)] on an optional entry. *)
Definition get_or {A : Type} (o : option A) (d : A) : A := default d o.

(** Insertion-ordered dictionaries with string keys. *)
Module PyDict.
Section dict.
Context {V : Type}.

Fixpoint get (k : string) (d : list (string * V)) : option V :=
  match d with
  | [] => None
  | (k', v) :: r => if String.eqb k k' then Some v else get k r
  end.

(** [d[k] = v]: an existing key keeps its position, a new one goes last. *)
Fixpoint set (k : string) (v : V) (d : list (string * V)) : list (string * V) :=
  match d with
  | [] => [(k, v)]
  | (k', v') :: r =>
      if String.eqb k k' then (k', v) :: r else (k', v') :: set k v r
  end.

Definition mem (k : string) (d : list (string * V)) : bool :=
  match get k d with Some _ => true | None => false end.

(** The dictionary built by assigning the pairs from left to right. *)
Definition of_pairs (l : list (string * V)) : list (string * V) :=
  fold_left (fun d kv => set kv.1 kv.2 d) l [].

End dict.
End PyDict.

(** Python's [in] on a list of strings. *)
Definition str_in (s : string) (l : list string) : bool :=
  existsb (String.eqb s) l.

(** [needle in hay] on strings. *)
Fixpoint contains (needle hay : string) : bool :=
  String.prefix needle hay ||
  match hay with
  | EmptyString => false
  | String _ rest => contains needle rest
  end.

(** The character [c] occurs in [s]. *)
Fixpoint occurs (c : ascii) (s : string) : bool :=
  match s with
  | EmptyString => false
  | String x r => Ascii.eqb c x || occurs c r
  end.

(** ** Agent models ([ai_tutor/agents]) *)

(** [planner_agent.StudyPlan]: the two optional fields may hold [None]. *)
Record StudyPlan := mkStudyPlan {
  topics : list string;
  learning_path : list string;
  estimated_time : option (gmap string string);
  prerequisites : option (gmap string (list string))
}.

(** [quiz_agent.QuizQuestion]. *)
Record QuizQuestion := mkQuizQuestion {
  text : string;
  correct_answer : string;
  explanation : string;
  difficulty : string;
  options : option (list string)
}.

(** [quiz_agent.Quiz]. *)
Record Quiz := mkQuiz {
  quiz_topic : string;
  questions : list QuizQuestion;
  time_limit : string
}.

(** ** The stored document

    The record a user's file holds, as [save_progress] builds it and
    [load_progress] reads it. A field of type [option _] is a dictionary key
    that may be absent. *)

(** A key of the answers dictionary: [int] in a running session, [str] once
    it has been through JSON. *)
Inductive AnswerKey :=
  | KInt (z : Z)
  | KStr (s : string).

(** The [questions] value of a quiz: a list of [QuizQuestion] objects in a
    running session, a list of plain dictionaries in a loaded document. *)
Inductive Questions :=
  | ModelQuestions (qs : list QuizQuestion)
  | PlainQuestions (qs : list QuizQuestion).

Record PlanDoc := mkPlanDoc {
  pd_topics : option (list string);
  pd_learning_path : option (list string);
  pd_estimated_time : option (option (gmap string string));
  pd_prerequisites : option (option (gmap string (list string)));
  pd_created_at : option string;
  pd_updated_at : option string
}.

Record ProgressDoc := mkProgressDoc {
  pg_mastery_level : option float;
  pg_completed : option bool;
  pg_last_studied : option string
}.

Record ResultsDoc := mkResultsDoc {
  rd_answers : option (list (AnswerKey * string));
  rd_score : option float;
  rd_feedback : option (list (string * string));
  rd_created_at : option string
}.

Record QuizDoc := mkQuizDoc {
  qd_topic : option string;
  qd_questions : option Questions;
  qd_time_limit : option string;
  qd_created_at : option string;
  qd_results : option ResultsDoc
}.

Record ObjectiveDoc := mkObjectiveDoc {
  od_title : option (option string);
  od_description : option (option string);
  od_created_at : option string;
  od_completed_at : option (option string);
  od_study_plan : option PlanDoc;
  od_topic_progress : option (list (string * ProgressDoc));
  od_quizzes : option (list (string * QuizDoc))
}.

Record UserData := mkUserData {
  ud_user_id : option string;
  ud_created_at : option string;
  ud_learning_objectives : option (list (string * ObjectiveDoc));
  ud_last_updated : option string
}.

(** The empty dictionary [{}]. *)
Definition empty_plan : PlanDoc := mkPlanDoc None None None None None None.
Definition empty_data : UserData := mkUserData None None None None.

(** [not user_data]: a dictionary is falsy when it has no key. *)
Definition data_is_empty (d : UserData) : bool :=
  match ud_user_id d, ud_created_at d, ud_learning_objectives d, ud_last_updated d with
  | None, None, None, None => true
  | _, _, _, _ => false
  end.

(** ** JSON encoding ([json.dump] followed by [json.load])

    [json.dump] raises [TypeError] on an object it cannot encode: here, a
    [QuizQuestion]. It turns an [int] key into its decimal string; reading
    the text back keeps, for a repeated key, the last value at the first
    position. Floats, strings, booleans and lists come back as written. *)

Definition json_key (k : AnswerKey) : string :=
  match k with
  | KInt z => pretty z
  | KStr s => s
  end.

Definition json_answers (l : list (AnswerKey * string)) : list (AnswerKey * string) :=
  map (fun kv => (KStr kv.1, kv.2))
      (PyDict.of_pairs (map (fun kv => (json_key kv.1, kv.2)) l)).

Definition json_questions (q : Questions) : option Questions :=
  match q with
  | ModelQuestions [] => Some (PlainQuestions [])
  | ModelQuestions (_ :: _) => None
  | PlainQuestions qs => Some (PlainQuestions qs)
  end.

(** Encode the value under an optional key. *)
Definition json_field {A B : Type} (f : A → option B) (o : option A) : option (option B) :=
  match o with
  | None => Some None
  | Some a => Some <$> f a
  end.

(** Encode the values of a dictionary, keeping keys and order. *)
Definition json_values {A B : Type} (f : A → option B) (d : list (string * A))
    : option (list (string * B)) :=
  mapM (fun kv => pair kv.1 <$> f kv.2) d.

Definition json_results (r : ResultsDoc) : option ResultsDoc :=
  Some (mkResultsDoc (json_answers <$> rd_answers r) (rd_score r)
                     (rd_feedback r) (rd_created_at r)).

Definition json_quiz (q : QuizDoc) : option QuizDoc :=
  qs ← json_field json_questions (qd_questions q);
  rs ← json_field json_results (qd_results q);
  Some (mkQuizDoc (qd_topic q) qs (qd_time_limit q) (qd_created_at q) rs).

Definition json_objective (o : ObjectiveDoc) : option ObjectiveDoc :=
  qz ← json_field (json_values json_quiz) (od_quizzes o);
  Some (mkObjectiveDoc (od_title o) (od_description o) (od_created_at o)
          (od_completed_at o) (od_study_plan o) (od_topic_progress o) qz).

Definition json_data (d : UserData) : option UserData :=
  los ← json_field (json_values json_objective) (ud_learning_objectives d);
  Some (mkUserData (ud_user_id d) (ud_created_at d) los (ud_last_updated d)).

(** ** The outside world: the clock, the files, the databases *)

(** The clock, as one call sees it. [strftime_now] is what [time.strftime]
    returns with the format [%Y-%m-%dT%H:%M:%S]; no call reads it twice.
    [datetime.now().isoformat()] is read again for every row that is
    written: [iso_reading k] is what the reading number [k] of the call
    returns, counted from 0. *)
Record Clock := mkClock {
  strftime_now : string;
  iso_reading : nat → string
}.

(** The first reading of [datetime.now().isoformat()] in a call. *)
Definition iso_now (clk : Clock) : string := iso_reading clk 0.

(** The clock as the rest of a call sees it after [k] readings. *)
Definition later (k : nat) (clk : Clock) : Clock :=
  mkClock (strftime_now clk) (fun n => iso_reading clk (k + n)).

(** What a user's file holds: the text of a document, or the truncated text
    left behind by a [json.dump] that raised part-way (the file is opened
    with mode [w] before anything is encoded). *)
Inductive FileContent :=
  | JsonText (d : UserData)
  | Truncated.

(** Rows of the six tables of [_init_sqlite_db]. Columns that hold JSON text
    are given by the value the text decodes to; a [REAL] column holds a
    float or [NULL]. *)
Record UserRow := mkUserRow {
  ur_user_id : string;
  ur_created_at : string
}.

Record ObjectiveRow := mkObjectiveRow {
  or_objective_id : string;
  or_user_id : string;
  or_title : option string;
  or_description : option string;
  or_created_at : string;
  or_completed_at : option string
}.

Record PlanRow := mkPlanRow {
  pr_plan_id : string;
  pr_objective_id : string;
  pr_topics : list string;
  pr_learning_path : list string;
  pr_estimated_time : option (gmap string string);
  pr_prerequisites : option (gmap string (list string));
  pr_created_at : string;
  pr_updated_at : string
}.

Record ProgressRow := mkProgressRow {
  tr_progress_id : string;
  tr_user_id : string;
  tr_objective_id : string;
  tr_topic : string;
  tr_mastery_level : option float;
  tr_completed : bool;
  tr_last_studied : string
}.

Record QuizRow := mkQuizRow {
  qr_quiz_id : string;
  qr_user_id : string;
  qr_objective_id : string;
  qr_topic : string;
  qr_questions : Questions;
  qr_created_at : string
}.

Record ResultRow := mkResultRow {
  rr_result_id : string;
  rr_quiz_id : string;
  rr_user_id : string;
  rr_answers : list (AnswerKey * string);
  rr_score : option float;
  rr_feedback : list (string * string);
  rr_created_at : string
}.

Record Db := mkDb {
  tbl_users : list UserRow;
  tbl_learning_objectives : list ObjectiveRow;
  tbl_study_plans : list PlanRow;
  tbl_topic_progress : list ProgressRow;
  tbl_quizzes : list QuizRow;
  tbl_quiz_results : list ResultRow
}.

Definition empty_db : Db := mkDb [] [] [] [] [] [].

(** [INSERT OR REPLACE]: the row with the same primary key goes, the new
    row is added. *)
Definition insert_or_replace {R : Type} (key : R → string) (row : R) (table : list R) : list R :=
  filter (fun r => key r ≠ key row) table ++ [row].

(** [SELECT * ... WHERE]. *)
Definition select {R : Type} (cond : R → bool) (table : list R) : list R :=
  List.filter cond table.

(** [cursor.fetchone()]. *)
Definition fetchone {R : Type} (rows : list R) : option R := head rows.

(** A float bound to a [REAL] column: SQLite stores NaN as [NULL], and a
    zero without its sign; every other float is stored as it is. *)
Definition sqlite_real (x : float) : option float :=
  if PrimFloat.is_nan x then None
  else if PrimFloat.is_zero x then Some 0%float
  else Some x.

(** A [REAL] column read back. [NULL] is read as [None], which is not a
    float: the documents here show it as NaN, the float that was stored
    as [NULL]. *)
Definition real_value (v : option float) : float := get_or v nan.

(** The file system: the files of the users, the databases, and the
    directories that exist. Paths are compared as they are written. *)
Record World := mkWorld {
  files : gmap string FileContent;
  dbs : gmap string Db;
  dirs : gset string
}.

Definition empty_world : World := mkWorld ∅ ∅ ∅.

(** [os.path.join] on two components (POSIX). *)
Definition ends_with_slash (a : string) : bool :=
  match last (String.list_ascii_of_string a) with
  | Some c => Ascii.eqb c "/"%char
  | None => false
  end.

Definition path_join (a b : string) : string :=
  if String.prefix "/" b then b
  else if String.eqb a "" then b
  else if ends_with_slash a then a ++ b
  else a ++ "/" ++ b.

(** [s] without its prefix [p]. *)
Fixpoint strip_prefix (p s : string) : option string :=
  match p, s with
  | EmptyString, _ => Some s
  | String a p', String b s' => if Ascii.eqb a b then strip_prefix p' s' else None
  | String _ _, EmptyString => None
  end.

(** [path] names an entry of the directory [d]: it is [d], a separator if
    [d] needs one, and a name without separator. *)
Definition entry_of (path d : string) : bool :=
  match strip_prefix (path_join d "") path with
  | Some name => negb (String.eqb name "") && negb (occurs "/" name)
  | None => false
  end.

(** [open(path, 'w')] opens a file that exists and creates a file in a
    directory that exists; otherwise it raises [FileNotFoundError]. *)
Definition can_open_w (w : World) (path : string) : bool :=
  match files w !! path with
  | Some _ => true
  | None => existsb (entry_of path) (elements (dirs w))
  end.

(** [os.makedirs(d, exist_ok=True)]: [d] is a directory afterwards. The
    missing directories above [d], which it creates as well, are not
    entered: a file of the store lies in [d] or below it. *)
Definition makedirs (d : string) (w : World) : World :=
  mkWorld (files w) (dbs w) ({[d]} ∪ dirs w).

(** ** [UserProgressStore] ([ai_tutor/tools/storage.py]) *)

Record UserProgressStore := mkStore {
  storage_dir : string;
  use_sqlite : bool
}.

(** [self.db_path]. *)
Definition db_path (st : UserProgressStore) : string :=
  path_join (storage_dir st) "user_progress.db".

(** [_init_sqlite_db]: [CREATE TABLE IF NOT EXISTS] leaves an existing
    database as it is. *)
Definition _init_sqlite_db (st : UserProgressStore) (w : World) : World :=
  match dbs w !! db_path st with
  | Some _ => w
  | None => mkWorld (files w) (<[db_path st := empty_db]> (dbs w)) (dirs w)
  end.

(** [UserProgressStore.__init__]; [default_dir] is the expansion of
    [~/.ai_tutor]. *)
Definition UserProgressStore_init (default_dir : string) (dir : option string)
    (sqlite : bool) (w : World) : UserProgressStore * World :=
  let st := mkStore (get_or dir default_dir) sqlite in
  let w := makedirs (storage_dir st) w in
  (st, if sqlite then _init_sqlite_db st w else w).

Definition _get_user_json_path (st : UserProgressStore) (user_id : string) : string :=
  path_join (storage_dir st) ("user_" ++ user_id ++ ".json").

Definition set_last_updated (d : UserData) (t : string) : UserData :=
  mkUserData (ud_user_id d) (ud_created_at d) (ud_learning_objectives d) (Some t).

Definition _save_to_json (st : UserProgressStore) (clk : Clock) (user_id : string)
    (data : UserData) (w : World) : bool * World :=
  let data := set_last_updated data (iso_now clk) in
  let file_path := _get_user_json_path st user_id in
  if can_open_w w file_path then
    match json_data data with
    | Some text =>
        (true, mkWorld (<[file_path := JsonText text]> (files w)) (dbs w) (dirs w))
    | None => (false, mkWorld (<[file_path := Truncated]> (files w)) (dbs w) (dirs w))
    end
  else (false, w).

Definition _load_from_json (st : UserProgressStore) (user_id : string) (w : World) : UserData :=
  match files w !! _get_user_json_path st user_id with
  | None => empty_data
  | Some Truncated => empty_data
  | Some (JsonText d) => d
  end.

Definition with_users (db : Db) (t : list UserRow) : Db :=
  mkDb t (tbl_learning_objectives db) (tbl_study_plans db) (tbl_topic_progress db) (tbl_quizzes db) (tbl_quiz_results db).
Definition with_objectives (db : Db) (t : list ObjectiveRow) : Db :=
  mkDb (tbl_users db) t (tbl_study_plans db) (tbl_topic_progress db) (tbl_quizzes db) (tbl_quiz_results db).
Definition with_plans (db : Db) (t : list PlanRow) : Db :=
  mkDb (tbl_users db) (tbl_learning_objectives db) t (tbl_topic_progress db) (tbl_quizzes db) (tbl_quiz_results db).
Definition with_progress (db : Db) (t : list ProgressRow) : Db :=
  mkDb (tbl_users db) (tbl_learning_objectives db) (tbl_study_plans db) t (tbl_quizzes db) (tbl_quiz_results db).
Definition with_quizzes (db : Db) (t : list QuizRow) : Db :=
  mkDb (tbl_users db) (tbl_learning_objectives db) (tbl_study_plans db) (tbl_topic_progress db) t (tbl_quiz_results db).
Definition with_results (db : Db) (t : list ResultRow) : Db :=
  mkDb (tbl_users db) (tbl_learning_objectives db) (tbl_study_plans db) (tbl_topic_progress db) (tbl_quizzes db) t.

(** The loops of [_save_to_sqlite] carry the database and the number of
    readings of the clock taken so far. A default [datetime.now().isoformat()]
    of [dict.get] is evaluated whether or not the key is there. *)

(** The row of [topic_progress] written for a topic, when [now] is the
    reading of the clock taken for it. *)
Definition progress_row (now : string) (user_id obj_id : string) (kv : string * ProgressDoc)
    : ProgressRow :=
  mkProgressRow (user_id ++ "_" ++ obj_id ++ "_" ++ kv.1) user_id obj_id kv.1
    (sqlite_real (get_or (pg_mastery_level kv.2) 0%float))
    (get_or (pg_completed kv.2) false)
    (get_or (pg_last_studied kv.2) now).

(** The body of [for topic, progress in obj_data['topic_progress'].items()]. *)
Definition save_progress_row (clk : Clock) (user_id obj_id : string) (s : Db * nat)
    (kv : string * ProgressDoc) : Db * nat :=
  (with_progress s.1
     (insert_or_replace tr_progress_id
        (progress_row (iso_reading clk s.2) user_id obj_id kv)
        (tbl_topic_progress s.1)),
   S s.2).

(** The rows of [quizzes] and [quiz_results] written for a quiz; [qs] is
    what the text of [json.dumps(questions)] decodes to. *)
Definition quiz_row (now : string) (user_id obj_id : string) (kv : string * QuizDoc)
    (qs : Questions) : QuizRow :=
  mkQuizRow kv.1 user_id obj_id (get_or (qd_topic kv.2) "") qs
    (get_or (qd_created_at kv.2) now).

Definition result_row (now : string) (user_id quiz_id : string) (result : ResultsDoc)
    : ResultRow :=
  mkResultRow (quiz_id ++ "_result") quiz_id user_id
    (json_answers (get_or (rd_answers result) []))
    (sqlite_real (get_or (rd_score result) 0%float))
    (get_or (rd_feedback result) [])
    (get_or (rd_created_at result) now).

(** The body of [for quiz_id, quiz_data in obj_data['quizzes'].items()];
    [None] when [json.dumps] raises. *)
Definition save_quiz_rows (clk : Clock) (user_id obj_id : string) (s : Db * nat)
    (kv : string * QuizDoc) : option (Db * nat) :=
  qs ← json_questions (get_or (qd_questions kv.2) (PlainQuestions []));
  let db := with_quizzes s.1
    (insert_or_replace qr_quiz_id (quiz_row (iso_reading clk s.2) user_id obj_id kv qs)
       (tbl_quizzes s.1)) in
  match qd_results kv.2 with
  | None => Some (db, S s.2)
  | Some result =>
      Some (with_results db
              (insert_or_replace rr_result_id
                 (result_row (iso_reading clk (S s.2)) user_id kv.1 result)
                 (tbl_quiz_results db)),
            S (S s.2))
  end.

(** A loop whose body may raise. *)
Fixpoint for_each {A S : Type} (body : S → A → option S) (s : S) (l : list A) : option S :=
  match l with
  | [] => Some s
  | a :: r => s' ← body s a; for_each body s' r
  end.

(** The row of [learning_objectives] written for an objective, when [now]
    is the reading of the clock taken for it. *)
Definition objective_row (now : string) (user_id : string) (kv : string * ObjectiveDoc)
    : ObjectiveRow :=
  mkObjectiveRow kv.1 user_id
    (get_or (od_title kv.2) (Some ""))
    (get_or (od_description kv.2) (Some ""))
    (get_or (od_created_at kv.2) now)
    (get_or (od_completed_at kv.2) None).

(** The row of [study_plans] written for the plan of objective [obj_id],
    when [now] and [next] are the two readings of the clock taken for it. *)
Definition plan_row (now next : string) (obj_id : string) (plan : PlanDoc) : PlanRow :=
  mkPlanRow (obj_id ++ "_plan") obj_id
    (get_or (pd_topics plan) [])
    (get_or (pd_learning_path plan) [])
    (get_or (pd_estimated_time plan) (Some ∅))
    (get_or (pd_prerequisites plan) (Some ∅))
    (get_or (pd_created_at plan) now)
    next.

(** The body of [for obj_id, obj_data in data['learning_objectives'].items()]. *)
Definition save_objective_rows (clk : Clock) (user_id : string) (s : Db * nat)
    (kv : string * ObjectiveDoc) : option (Db * nat) :=
  let obj_id := kv.1 in
  let obj_data := kv.2 in
  let s := (with_objectives s.1
              (insert_or_replace or_objective_id
                 (objective_row (iso_reading clk s.2) user_id kv)
                 (tbl_learning_objectives s.1)),
            S s.2) in
  let s :=
    match od_study_plan obj_data with
    | None => s
    | Some plan =>
        (with_plans s.1
           (insert_or_replace pr_plan_id
              (plan_row (iso_reading clk s.2) (iso_reading clk (S s.2)) obj_id plan)
              (tbl_study_plans s.1)),
         S (S s.2))
    end in
  let s :=
    match od_topic_progress obj_data with
    | None => s
    | Some tp => fold_left (save_progress_row clk user_id obj_id) tp s
    end in
  match od_quizzes obj_data with
  | None => Some s
  | Some qz => for_each (save_quiz_rows clk user_id obj_id) s qz
  end.

(** [_save_to_sqlite]. A database that was never initialised has no tables:
    the first statement raises. An exception leaves the transaction
    uncommitted, so the database keeps its rows. *)
Definition _save_to_sqlite (st : UserProgressStore) (clk : Clock) (user_id : string)
    (data : UserData) (w : World) : bool * World :=
  match dbs w !! db_path st with
  | None => (false, w)
  | Some db =>
      let s :=
        match fetchone (select (fun r => String.eqb (ur_user_id r) user_id) (tbl_users db)) with
        | Some _ => (db, 0)
        | None => (with_users db (tbl_users db ++ [mkUserRow user_id (iso_reading clk 0)]), 1)
        end in
      let saved :=
        match ud_learning_objectives data with
        | None => Some s
        | Some los => for_each (save_objective_rows clk user_id) s los
        end in
      match saved with
      | Some s' => (true, mkWorld (files w) (<[db_path st := s'.1]> (dbs w)) (dirs w))
      | None => (false, w)
      end
  end.

Definition save_user_progress (st : UserProgressStore) (clk : Clock) (user_id : string)
    (data : UserData) (w : World) : bool * World :=
  if use_sqlite st then _save_to_sqlite st clk user_id data w
  else _save_to_json st clk user_id data w.

(** The quiz dictionary [_load_from_sqlite] builds from a row of [quizzes]. *)
Definition load_quiz (db : Db) (quiz : QuizRow) : QuizDoc :=
  mkQuizDoc (Some (qr_topic quiz)) (Some (qr_questions quiz)) None
    (Some (qr_created_at quiz))
    (match fetchone (select (fun r => String.eqb (rr_quiz_id r) (qr_quiz_id quiz)) (tbl_quiz_results db)) with
     | None => None
     | Some row =>
         Some (mkResultsDoc (Some (rr_answers row)) (Some (real_value (rr_score row)))
                 (Some (rr_feedback row)) (Some (rr_created_at row)))
     end).

(** The objective dictionary [_load_from_sqlite] builds from a row of
    [learning_objectives]. *)
Definition load_objective (db : Db) (user_id : string) (obj : ObjectiveRow) : ObjectiveDoc :=
  let obj_id := or_objective_id obj in
  mkObjectiveDoc (Some (or_title obj)) (Some (or_description obj))
    (Some (or_created_at obj)) (Some (or_completed_at obj))
    (match fetchone (select (fun r => String.eqb (pr_objective_id r) obj_id) (tbl_study_plans db)) with
     | None => None
     | Some plan =>
         Some (mkPlanDoc (Some (pr_topics plan)) (Some (pr_learning_path plan))
                 (Some (pr_estimated_time plan)) (Some (pr_prerequisites plan))
                 (Some (pr_created_at plan)) (Some (pr_updated_at plan)))
     end)
    (Some (fold_left
       (fun d topic =>
          PyDict.set (tr_topic topic)
            (mkProgressDoc (Some (real_value (tr_mastery_level topic)))
               (Some (tr_completed topic))
               (Some (tr_last_studied topic))) d)
       (select (fun r => String.eqb (tr_user_id r) user_id && String.eqb (tr_objective_id r) obj_id)
          (tbl_topic_progress db))
       []))
    (Some (fold_left
       (fun d quiz => PyDict.set (qr_quiz_id quiz) (load_quiz db quiz) d)
       (select (fun r => String.eqb (qr_user_id r) user_id && String.eqb (qr_objective_id r) obj_id)
          (tbl_quizzes db))
       [])).

Definition _load_from_sqlite (st : UserProgressStore) (user_id : string) (w : World) : UserData :=
  match dbs w !! db_path st with
  | None => empty_data
  | Some db =>
      match fetchone (select (fun r => String.eqb (ur_user_id r) user_id) (tbl_users db)) with
      | None => empty_data
      | Some user =>
          mkUserData (Some user_id) (Some (ur_created_at user))
            (Some (fold_left
               (fun d obj => PyDict.set (or_objective_id obj) (load_objective db user_id obj) d)
               (select (fun r => String.eqb (or_user_id r) user_id) (tbl_learning_objectives db))
               []))
            None
      end
  end.

Definition load_user_progress (st : UserProgressStore) (user_id : string) (w : World) : UserData :=
  if use_sqlite st then _load_from_sqlite st user_id w
  else _load_from_json st user_id w.

(** ** [TutorContext] ([ai_tutor/tools/context.py]) *)

(** A value of [quiz_results]: [{'quiz': ..., 'user_answers': ...}]. *)
Record QuizEntry := mkQuizEntry {
  qe_quiz : option Quiz;
  qe_user_answers : option (list (AnswerKey * string))
}.

(** The [learning_session] dictionary of [complete_learning_objective]. *)
Record LearningSession := mkLearningSession {
  ls_learning_objective : option string;
  ls_initial_plan : option StudyPlan;
  ls_topics_covered : list string;
  ls_quiz_results : list (string * QuizEntry)
}.

Record TutorContext := mkContext {
  user_id : string;
  learning_objective : option string;
  study_plan : option StudyPlan;
  current_topic : option string;
  vector_store_id : option string;
  mastery_levels : gmap string float;
  completed_topics : list string;
  current_quiz : option Quiz;
  current_user_answers : option (list (AnswerKey * string));
  quiz_results : list (string * QuizEntry);
  learning_session : option LearningSession;
  objective_id : option string;
  _progress_store : option UserProgressStore
}.

Definition with_objective_id (c : TutorContext) (v : option string) : TutorContext :=
  mkContext (user_id c) (learning_objective c) (study_plan c) (current_topic c)
    (vector_store_id c) (mastery_levels c) (completed_topics c) (current_quiz c)
    (current_user_answers c) (quiz_results c) (learning_session c) v (_progress_store c).
Definition with_learning_objective (c : TutorContext) (v : option string) : TutorContext :=
  mkContext (user_id c) v (study_plan c) (current_topic c)
    (vector_store_id c) (mastery_levels c) (completed_topics c) (current_quiz c)
    (current_user_answers c) (quiz_results c) (learning_session c) (objective_id c)
    (_progress_store c).
Definition with_study_plan (c : TutorContext) (v : option StudyPlan) : TutorContext :=
  mkContext (user_id c) (learning_objective c) v (current_topic c)
    (vector_store_id c) (mastery_levels c) (completed_topics c) (current_quiz c)
    (current_user_answers c) (quiz_results c) (learning_session c) (objective_id c)
    (_progress_store c).
Definition with_mastery_levels (c : TutorContext) (v : gmap string float) : TutorContext :=
  mkContext (user_id c) (learning_objective c) (study_plan c) (current_topic c)
    (vector_store_id c) v (completed_topics c) (current_quiz c)
    (current_user_answers c) (quiz_results c) (learning_session c) (objective_id c)
    (_progress_store c).
Definition with_completed_topics (c : TutorContext) (v : list string) : TutorContext :=
  mkContext (user_id c) (learning_objective c) (study_plan c) (current_topic c)
    (vector_store_id c) (mastery_levels c) v (current_quiz c)
    (current_user_answers c) (quiz_results c) (learning_session c) (objective_id c)
    (_progress_store c).
Definition with_quiz_results (c : TutorContext) (v : list (string * QuizEntry)) : TutorContext :=
  mkContext (user_id c) (learning_objective c) (study_plan c) (current_topic c)
    (vector_store_id c) (mastery_levels c) (completed_topics c) (current_quiz c)
    (current_user_answers c) v (learning_session c) (objective_id c) (_progress_store c).
Definition with_learning_session (c : TutorContext) (v : option LearningSession) : TutorContext :=
  mkContext (user_id c) (learning_objective c) (study_plan c) (current_topic c)
    (vector_store_id c) (mastery_levels c) (completed_topics c) (current_quiz c)
    (current_user_answers c) (quiz_results c) v (objective_id c) (_progress_store c).

(** [TutorContext(user_id=..., storage_dir=..., use_sqlite=...)] as
    [TutorSystem.__init__] builds it, with [__post_init__]: every other
    field has its default, so no objective id is generated. *)
Definition TutorContext_init (default_dir : string) (uid : string) (dir : option string)
    (sqlite : bool) (w : World) : TutorContext * World :=
  let (st, w') := UserProgressStore_init default_dir dir sqlite w in
  (mkContext uid None None None None ∅ [] None None [] None None (Some st), w').

(** The objective id [save_progress] goes on with: the active one, or
    [uuid4] when there is a learning objective, or none. *)
Definition objective_id_to_save (uuid4 : string) (c : TutorContext) : option string :=
  if truthy (objective_id c) then objective_id c
  else if truthy (learning_objective c) then Some uuid4
  else None.

Definition study_plan_data (c : TutorContext) : PlanDoc :=
  match study_plan c with
  | Some p =>
      mkPlanDoc (Some (topics p)) (Some (learning_path p)) (Some (estimated_time p))
        (Some (prerequisites p)) None None
  | None => empty_plan
  end.

Definition topic_progress_data (c : TutorContext) : list (string * ProgressDoc) :=
  fold_left
    (fun d topic =>
       PyDict.set topic
         (mkProgressDoc (Some (get_or (mastery_levels c !! topic) 0%float))
            (Some (str_in topic (completed_topics c))) None) d)
    (match study_plan c with Some p => topics p | None => [] end)
    [].

Definition quizzes_data (c : TutorContext) : list (string * QuizDoc) :=
  fold_left
    (fun d kv =>
       match qe_quiz kv.2 with
       | None => d
       | Some quiz =>
           PyDict.set (user_id c ++ "_" ++ kv.1 ++ "_quiz")
             (mkQuizDoc (Some kv.1) (Some (ModelQuestions (questions quiz))) None None
                (Some (mkResultsDoc (Some (get_or (qe_user_answers kv.2) []))
                         (mastery_levels c !! kv.1) None None)))
             d
       end)
    (quiz_results c)
    [].

Definition user_data_of (clk : Clock) (oid : string) (c : TutorContext) : UserData :=
  mkUserData None None
    (Some [(oid,
            mkObjectiveDoc (Some (learning_objective c)) (Some (learning_objective c))
              (Some (strftime_now clk)) None (Some (study_plan_data c))
              (Some (topic_progress_data c)) (Some (quizzes_data c)))])
    None.

(** [TutorContext.save_progress]; [uuid4] is what [uuid.uuid4()] returns if
    it is called. *)
Definition save_progress (clk : Clock) (uuid4 : string) (c : TutorContext) (w : World)
    : bool * TutorContext * World :=
  match _progress_store c with
  | None => (false, c, w)
  | Some store =>
      match objective_id_to_save uuid4 c with
      | None => (false, c, w)
      | Some oid =>
          let c := with_objective_id c (Some oid) in
          let (ok, w') :=
            save_user_progress store clk (user_id c) (user_data_of clk oid c) w in
          (ok, c, w')
      end
  end.

(** [sorted(..., key=created_at, reverse=True)]: descending, and stable. *)
Definition created_key (kv : string * ObjectiveDoc) : string :=
  get_or (od_created_at kv.2) "".

Fixpoint insert_desc (x : string * ObjectiveDoc) (l : list (string * ObjectiveDoc))
    : list (string * ObjectiveDoc) :=
  match l with
  | [] => [x]
  | y :: r =>
      if String.ltb (created_key x) (created_key y) then y :: insert_desc x r
      else x :: y :: r
  end.

Definition sorted_desc (l : list (string * ObjectiveDoc)) : list (string * ObjectiveDoc) :=
  foldr insert_desc [] l.

(** The [StudyPlan] of a stored plan with its four required fields. *)
Definition plan_of_doc (plan : PlanDoc) : option StudyPlan :=
  match pd_topics plan, pd_learning_path plan, pd_estimated_time plan, pd_prerequisites plan with
  | Some t, Some lp, Some et, Some pr => Some (mkStudyPlan t lp et pr)
  | _, _, _, _ => None
  end.

Definition questions_list (q : Questions) : list QuizQuestion :=
  match q with
  | ModelQuestions qs => qs
  | PlainQuestions qs => qs
  end.

(** The body of [for topic, progress in obj_data['topic_progress'].items()]. *)
Definition load_topic (c : TutorContext) (kv : string * ProgressDoc) : TutorContext :=
  let c := with_mastery_levels c
             (<[kv.1 := get_or (pg_mastery_level kv.2) 0%float]> (mastery_levels c)) in
  if get_or (pg_completed kv.2) false
  then with_completed_topics c (completed_topics c ++ [kv.1])
  else c.

(** The body of [for quiz_id, quiz_data in obj_data['quizzes'].items()]. *)
Definition load_quiz_entry (c : TutorContext) (kv : string * QuizDoc) : TutorContext :=
  let topic := get_or (qd_topic kv.2) "" in
  match qd_results kv.2 with
  | Some results =>
      if negb (String.eqb topic "") then
        with_quiz_results c
          (PyDict.set topic
             (mkQuizEntry
                (Some (mkQuiz topic
                         (questions_list (get_or (qd_questions kv.2) (PlainQuestions [])))
                         (get_or (qd_time_limit kv.2) "10 minutes")))
                (Some (get_or (rd_answers results) [])))
             (quiz_results c))
      else c
  | None => c
  end.

(** [not d] for a dictionary or a list. *)
Definition dict_is_empty {A : Type} (d : list A) : bool :=
  match d with [] => true | _ :: _ => false end.

(** [TutorContext.load_progress]. *)
Definition load_progress (c : TutorContext) (w : World) : bool * TutorContext :=
  match _progress_store c with
  | None => (false, c)
  | Some store =>
      let user_data := load_user_progress store (user_id c) w in
      if data_is_empty user_data || dict_is_empty (get_or (ud_learning_objectives user_data) [])
      then (false, c)
      else
      let learning_objectives := get_or (ud_learning_objectives user_data) [] in
      match hd_error (sorted_desc learning_objectives) with
      | None => (false, c)
      | Some (obj_id, obj_data) =>
          let c := with_objective_id c (Some obj_id) in
          let c := with_learning_objective c (get_or (od_title obj_data) (Some "")) in
          let loaded_plan :=
            match od_study_plan obj_data with
            | None => Some c
            | Some plan =>
                match plan_of_doc plan with
                | Some p => Some (with_study_plan c (Some p))
                | None => None
                end
            end in
          match loaded_plan with
          | None => (false, c)
          | Some c =>
              let c := fold_left load_topic (get_or (od_topic_progress obj_data) []) c in
              let c := fold_left load_quiz_entry (get_or (od_quizzes obj_data) []) c in
              (true, c)
          end
      end
  end.

Definition default_topics : list string :=
  ["Introduction"; "Key Concepts"; "Applications"; "Advanced Topics"].

(** [TutorContext.create_default_study_plan]. *)
Definition create_default_study_plan (c : TutorContext) : TutorContext * StudyPlan :=
  let plan :=
    mkStudyPlan default_topics default_topics
      (Some (list_to_map (map (fun topic => (topic, "30 minutes")) default_topics)))
      (Some ∅) in
  (with_study_plan c (Some plan), plan).

(** [TutorContext.update_mastery_level]. *)
Definition update_mastery_level (clk : Clock) (uuid4 : string) (c : TutorContext)
    (topic : string) (mastery_level : float) (completed : bool) (w : World)
    : TutorContext * World :=
  let c := with_mastery_levels c (<[topic := mastery_level]> (mastery_levels c)) in
  let c :=
    if completed && negb (str_in topic (completed_topics c))
    then with_completed_topics c (completed_topics c ++ [topic])
    else c in
  let '(_, c, w) := save_progress clk uuid4 c w in
  (c, w).

Definition set_completed_at (o : ObjectiveDoc) (t : string) : ObjectiveDoc :=
  mkObjectiveDoc (od_title o) (od_description o) (od_created_at o) (Some (Some t))
    (od_study_plan o) (od_topic_progress o) (od_quizzes o).

(** [TutorContext.mark_learning_complete]. *)
Definition mark_learning_complete (clk : Clock) (c : TutorContext) (w : World) : World :=
  match objective_id c, _progress_store c with
  | Some oid, Some store =>
      if negb (truthy (Some oid)) then w
      else
        let user_data := load_user_progress store (user_id c) w in
        match ud_learning_objectives user_data with
        | None => w
        | Some los =>
            match PyDict.get oid los with
            | None => w
            | Some o =>
                let data :=
                  mkUserData (ud_user_id user_data) (ud_created_at user_data)
                    (Some (PyDict.set oid (set_completed_at o (strftime_now clk)) los))
                    (ud_last_updated user_data) in
                (save_user_progress store clk (user_id c) data w).2
            end
        end
  | _, _ => w
  end.

(** ** The tools the agents call ([ai_tutor/tools/user_tools.py]) *)



(** The pass mark of [save_quiz_results]. *)
Definition pass_mark : float := 0.7%float.

(** [str(b)] for a boolean. *)
Definition str_bool (b : bool) : string := if b then "True" else "False".

(** [save_quiz_results]; [percent1] renders a float with the format [.1%].
    The function returns its message, the flag [completed] it computed, and
    the new state. *)
Definition save_quiz_results (percent1 : float → string) (clk : Clock) (uuid4 : string)
    (c : TutorContext) (topic : string) (score : float) (feedback : list string) (w : World)
    : string * bool * TutorContext * World :=
  let completed := PrimFloat.leb pass_mark score in
  let (c, w) := update_mastery_level clk uuid4 c topic score completed w in
  ("Quiz results for '" ++ topic ++ "' saved. Mastery level: " ++ percent1 score
     ++ ", Completed: " ++ str_bool completed,
   completed, c, w).

(** ** [TutorSystem] ([ai_tutor/tutor_system.py]) *)

(** An agent object; [agent_id] is what [id(agent)] returns. *)
Record Agent := mkAgent {
  agent_id : nat;
  agent_name : string
}.

Record HandoffInfo := mkHandoffInfo {
  target_agent : Agent;
  handoff_message : string
}.

(** A [RunResult]: the handoff it asks for, and the text [repr] gives. *)
Record RunResult := mkRunResult {
  result_repr : string;
  handoff_info : option HandoffInfo
}.

(** The dictionary [all_results]. *)
Record AllResults := mkAllResults {
  initial_result : RunResult;
  handoff_results : list RunResult
}.

(** [str(all_results)]. *)
Definition str_all_results (a : AllResults) : string :=
  "{'initial_result': " ++ result_repr (initial_result a)
    ++ ", 'handoff_results': ["
    ++ String.concat ", " (map result_repr (handoff_results a)) ++ "]}".

Definition completion_marker : string := "LEARNING_COMPLETE".

(** The local variables of the loop of [process_agent_handoff_chain], the
    session and the world the agents act on, and the agents run so far. *)
Record ChainState := mkChain {
  all_results : AllResults;
  current_result : RunResult;
  agent_ids_seen : gset nat;
  chain_context : TutorContext;
  chain_world : World;
  agents_run : list Agent
}.

Inductive LoopStep :=
  | Continue (s : ChainState)
  | Exit (s : ChainState)
  | Raise.

Inductive ChainOutcome :=
  | Returned (s : ChainState)
  | Raised
  | OutOfFuel.

(** What [complete_learning_objective] returns. *)
Record LearningResult := mkLearningResult {
  lr_learning_objective : option string;
  lr_session_details : option LearningSession;
  lr_final_results : AllResults;
  lr_completed : bool
}.

Inductive Outcome :=
  | Finished (r : LearningResult) (c : TutorContext) (w : World)
  | Failed
  | NoFuel.

Record TutorSystem := mkTutorSystem {
  context : TutorContext;
  planner_with_tools : option Agent
}.

Section Orchestrator.

(** [Runner.run(starting_agent, input, context, max_turns)]: the result, and
    the session and the world as the agent's tool calls leave them; [None]
    when the run raises. *)
Variable Runner_run :
  Agent → string → TutorContext → nat → World → option (RunResult * TutorContext * World).

(** The prompt [complete_learning_objective] gives the planner, from the
    learning objective, the study plan and the first topic. *)
Variable planner_prompt : option string → StudyPlan → string → string.

Variable clk : Clock.

(** One test of the loop condition and, if it holds, one run of the body. *)
Definition chain_step (max_turns : nat) (s : ChainState) : LoopStep :=
  match handoff_info (current_result s) with
  | None => Exit s
  | Some h =>
      let target := target_agent h in
      let target_agent_id := agent_id target in
      if bool_decide (target_agent_id ∈ agent_ids_seen s) then Exit s
      else
        match Runner_run target (handoff_message h) (chain_context s) max_turns
                (chain_world s) with
        | None => Raise
        | Some (next_result, c, w) =>
            Continue
              (mkChain
                 (mkAllResults (initial_result (all_results s))
                    (handoff_results (all_results s) ++ [next_result]))
                 next_result
                 ({[target_agent_id]} ∪ agent_ids_seen s)
                 c w
                 (agents_run s ++ [target]))
        end
  end.

Fixpoint chain_loop (fuel : nat) (max_turns : nat) (s : ChainState) : ChainOutcome :=
  match fuel with
  | O => OutOfFuel
  | S fuel =>
      match chain_step max_turns s with
      | Continue s' => chain_loop fuel max_turns s'
      | Exit s' => Returned s'
      | Raise => Raised
      end
  end.

Definition chain_start (initial : RunResult) (c : TutorContext) (w : World) : ChainState :=
  mkChain (mkAllResults initial []) initial ∅ c w [].

(** [TutorSystem.process_agent_handoff_chain]. *)
Definition process_agent_handoff_chain (fuel : nat) (initial : RunResult) (max_turns : nat)
    (c : TutorContext) (w : World) : ChainOutcome :=
  chain_loop fuel max_turns (chain_start initial c w).

(** The first part of [complete_learning_objective], up to the learning
    session: [None] is the [ValueError]. *)
Definition prepare_learning_session (c : TutorContext) : option TutorContext :=
  if negb (truthy (learning_objective c)) then None
  else
    let c := match study_plan c with
             | None => (create_default_study_plan c).1
             | Some _ => c
             end in
    let c := match study_plan c with
             | Some p => if dict_is_empty (topics p) then (create_default_study_plan c).1 else c
             | None => c
             end in
    let c := match study_plan c with
             | Some p =>
                 if dict_is_empty (learning_path p)
                 then with_study_plan c
                        (Some (mkStudyPlan (topics p) (topics p) (estimated_time p)
                                 (prerequisites p)))
                 else c
             | None => c
             end in
    Some (with_learning_session c
            (Some (mkLearningSession (learning_objective c) (study_plan c) [] []))).

(** [TutorSystem.complete_learning_objective]. *)
Definition complete_learning_objective (fuel : nat) (sys : TutorSystem) (max_turns : nat)
    (w : World) : Outcome :=
  match prepare_learning_session (context sys) with
  | None => Failed
  | Some c =>
      match study_plan c, planner_with_tools sys with
      | Some plan, Some planner =>
          let first_topic := get_or (head (learning_path plan)) "Introduction" in
          match Runner_run planner (planner_prompt (learning_objective c) plan first_topic)
                  c max_turns w with
          | None => Failed
          | Some (initial, c, w) =>
              match process_agent_handoff_chain fuel initial max_turns c w with
              | Returned s =>
                  let learning_complete :=
                    contains completion_marker (str_all_results (all_results s)) in
                  let w := if learning_complete
                           then mark_learning_complete clk (chain_context s) (chain_world s)
                           else chain_world s in
                  Finished
                    (mkLearningResult (learning_objective (chain_context s))
                       (learning_session (chain_context s)) (all_results s) learning_complete)
                    (chain_context s) w
              | Raised => Failed
              | OutOfFuel => NoFuel
              end
          end
      | _, _ => Failed
      end
  end.

End Orchestrator.

(** The states the loop of [process_agent_handoff_chain] goes through. *)
Inductive chain_reaches
    (run : Agent → string → TutorContext → nat → World → option (RunResult * TutorContext * World))
    (max_turns : nat) (s : ChainState) : ChainState → Prop :=
  | reaches_here : chain_reaches run max_turns s s
  | reaches_next s' s'' :
      chain_reaches run max_turns s s' →
      chain_step run max_turns s' = Continue s'' →
      chain_reaches run max_turns s s''.


(** The store holds nothing for [u]: no file, and no row of [users]. *)
Definition no_data_for (st : UserProgressStore) (u : string) (w : World) : Prop :=
  files w !! _get_user_json_path st u = None
  ∧ ∀ db, dbs w !! db_path st = Some db → Forall (fun r => ur_user_id r ≠ u) (tbl_users db).


Definition set_topic_progress (o : ObjectiveDoc) (tp : list (string * ProgressDoc))
    : ObjectiveDoc :=
  mkObjectiveDoc (od_title o) (od_description o) (od_created_at o) (od_completed_at o)
    (od_study_plan o) (Some tp) (od_quizzes o).

(** [UserProgressStore.update_topic_mastery]. *)
Definition update_topic_mastery (st : UserProgressStore) (clk : Clock)
    (user_id objective_id topic : string) (mastery_level : float) (completed : bool)
    (w : World) : bool * World :=
  let data := load_user_progress st user_id w in
  let learning_objectives := get_or (ud_learning_objectives data) [] in
  match PyDict.get objective_id learning_objectives with
  | None => (false, w)
  | Some o =>
      let topic_progress := get_or (od_topic_progress o) [] in
      let o :=
        set_topic_progress o
          (PyDict.set topic
             (mkProgressDoc (Some mastery_level) (Some completed) (Some (iso_now clk)))
             topic_progress) in
      save_user_progress st (later 1 clk) user_id
        (mkUserData (ud_user_id data) (ud_created_at data)
           (Some (PyDict.set objective_id o learning_objectives))
           (ud_last_updated data))
        w
  end.

(** A summary of [get_user_learning_history]. *)
Record HistoryEntry := mkHistoryEntry {
  he_objective_id : string;
  he_title : option string;
  he_created_at : option string;
  he_completed_at : option string;
  he_total_topics : nat;
  he_completed_topics : nat;
  he_average_mastery : float;
  he_quiz_count : nat;
  he_average_quiz_score : float
}.

(** [float(n)] for the length of a list. *)
Definition float_of_nat (n : nat) : float :=
  PrimFloat.of_uint63 (Uint63.of_Z (Z.of_nat n)).

(** The summary of one objective; [float_sum] is Python's [sum] on floats,
    whose rounding depends on the version of the interpreter. *)
Definition history_entry (float_sum : list float → float) (kv : string * ObjectiveDoc)
    : HistoryEntry :=
  let topic_progress := get_or (od_topic_progress kv.2) [] in
  let total_topics := length topic_progress in
  let completed_topics :=
    length (List.filter (fun t => get_or (pg_completed t.2) false) topic_progress) in
  let avg_mastery :=
    if Nat.ltb 0 total_topics
    then PrimFloat.div
           (float_sum (map (fun t => get_or (pg_mastery_level t.2) 0%float) topic_progress))
           (float_of_nat total_topics)
    else 0%float in
  let quizzes := get_or (od_quizzes kv.2) [] in
  let quiz_count := length quizzes in
  let scores :=
    omap (fun q => match qd_results q.2 with
                   | Some r => Some (get_or (rd_score r) 0%float)
                   | None => None
                   end) quizzes in
  let avg_score :=
    if Nat.ltb 0 quiz_count && negb (dict_is_empty scores)
    then PrimFloat.div (float_sum scores) (float_of_nat (length scores))
    else 0%float in
  mkHistoryEntry kv.1 (get_or (od_title kv.2) (Some "Unnamed Objective"))
    (od_created_at kv.2) (get_or (od_completed_at kv.2) None)
    total_topics completed_topics avg_mastery quiz_count avg_score.

(** [UserProgressStore.get_user_learning_history]. *)
Definition get_user_learning_history (float_sum : list float → float)
    (st : UserProgressStore) (user_id : string) (w : World) : list HistoryEntry :=
  let data := load_user_progress st user_id w in
  match ud_learning_objectives data with
  | None => []
  | Some los => map (history_entry float_sum) los
  end.

(** ** Conditions under which a save reaches the store *)


(** A condition on the database of a store on the relational backend. *)
Definition on_database (st : UserProgressStore) (w : World) (P : Db → Prop) : Prop :=
  use_sqlite st = true → ∀ db, dbs w !! db_path st = Some db → P db.


(** The rows of [study_plans] have the key that [_save_to_sqlite] gives
    them. *)
Definition plans_keyed (db : Db) : Prop :=
  Forall (fun r => pr_plan_id r = pr_objective_id r ++ "_plan") (tbl_study_plans db).

(** ** What the relational backend gives back

    The objective that [_load_from_sqlite] builds from the rows that
    [_save_to_sqlite] writes for an objective, starting at the reading [n]
    of the clock: every key is there, with the default of the save for a
    key the saved objective did not have. *)

Definition quiz_readings (q : QuizDoc) : nat :=
  match qd_results q with Some _ => 2 | None => 1 end.

Definition plan_readings (o : ObjectiveDoc) : nat :=
  match od_study_plan o with Some _ => 2 | None => 0 end.

Fixpoint quizzes_readings (qz : list (string * QuizDoc)) : nat :=
  match qz with
  | [] => 0
  | kv :: r => quiz_readings kv.2 + quizzes_readings r
  end.

(** The number of readings of the clock taken for an objective. *)
Definition objective_readings (o : ObjectiveDoc) : nat :=
  quizzes_readings (get_or (od_quizzes o) [])
  + (length (get_or (od_topic_progress o) []) + (plan_readings o + 1)).

Definition stored_progress (now : string) (p : ProgressDoc) : ProgressDoc :=
  mkProgressDoc (Some (real_value (sqlite_real (get_or (pg_mastery_level p) 0%float))))
    (Some (get_or (pg_completed p) false))
    (Some (get_or (pg_last_studied p) now)).

Fixpoint stored_topics (clk : Clock) (n : nat) (tp : list (string * ProgressDoc))
    : list (string * ProgressDoc) :=
  match tp with
  | [] => []
  | kv :: r => (kv.1, stored_progress (iso_reading clk n) kv.2) :: stored_topics clk (S n) r
  end.

(** What the text of [json.dumps(questions)] decodes to, for questions
    that can be written. *)
Definition encoded_questions (q : QuizDoc) : Questions :=
  get_or (json_questions (get_or (qd_questions q) (PlainQuestions []))) (PlainQuestions []).

Definition stored_results (now : string) (r : ResultsDoc) : ResultsDoc :=
  mkResultsDoc (Some (json_answers (get_or (rd_answers r) [])))
    (Some (real_value (sqlite_real (get_or (rd_score r) 0%float))))
    (Some (get_or (rd_feedback r) []))
    (Some (get_or (rd_created_at r) now)).

Definition stored_quiz (clk : Clock) (n : nat) (q : QuizDoc) : QuizDoc :=
  mkQuizDoc (Some (get_or (qd_topic q) "")) (Some (encoded_questions q)) None
    (Some (get_or (qd_created_at q) (iso_reading clk n)))
    (stored_results (iso_reading clk (S n)) <$> qd_results q).

Fixpoint stored_quizzes (clk : Clock) (n : nat) (qz : list (string * QuizDoc))
    : list (string * QuizDoc) :=
  match qz with
  | [] => []
  | kv :: r =>
      (kv.1, stored_quiz clk n kv.2) :: stored_quizzes clk (quiz_readings kv.2 + n) r
  end.

Definition stored_plan (now next : string) (plan : PlanDoc) : PlanDoc :=
  mkPlanDoc (Some (get_or (pd_topics plan) []))
    (Some (get_or (pd_learning_path plan) []))
    (Some (get_or (pd_estimated_time plan) (Some ∅)))
    (Some (get_or (pd_prerequisites plan) (Some ∅)))
    (Some (get_or (pd_created_at plan) now))
    (Some next).

Definition stored_objective (clk : Clock) (n : nat) (o : ObjectiveDoc) : ObjectiveDoc :=
  let tp := get_or (od_topic_progress o) [] in
  mkObjectiveDoc
    (Some (get_or (od_title o) (Some "")))
    (Some (get_or (od_description o) (Some "")))
    (Some (get_or (od_created_at o) (iso_reading clk n)))
    (Some (get_or (od_completed_at o) None))
    (stored_plan (iso_reading clk (S n)) (iso_reading clk (S (S n))) <$> od_study_plan o)
    (Some (stored_topics clk (plan_readings o + S n) tp))
    (Some (stored_quizzes clk (length tp + (plan_readings o + S n))
             (get_or (od_quizzes o) []))).

(** The rows written for the topics and the quizzes of an objective. *)
Fixpoint progress_rows (clk : Clock) (n : nat) (u oid : string)
    (tp : list (string * ProgressDoc)) : list ProgressRow :=
  match tp with
  | [] => []
  | kv :: r => progress_row (iso_reading clk n) u oid kv :: progress_rows clk (S n) u oid r
  end.

Fixpoint quiz_rows (clk : Clock) (n : nat) (u oid : string)
    (qz : list (string * QuizDoc)) : list QuizRow :=
  match qz with
  | [] => []
  | kv :: r =>
      quiz_row (iso_reading clk n) u oid kv (encoded_questions kv.2)
        :: quiz_rows clk (quiz_readings kv.2 + n) u oid r
  end.

Fixpoint result_rows (clk : Clock) (n : nat) (u : string)
    (qz : list (string * QuizDoc)) : list ResultRow :=
  match qz with
  | [] => []
  | kv :: r =>
      match qd_results kv.2 with
      | Some res =>
          result_row (iso_reading clk (S n)) u kv.1 res
            :: result_rows clk (quiz_readings kv.2 + n) u r
      | None => result_rows clk (quiz_readings kv.2 + n) u r
      end
  end.

(** The primary keys of the rows of [topic_progress] and of [quizzes] that
    a save of the objectives [los] of [u] writes. *)
Definition progress_ids (u : string) (los : list (string * ObjectiveDoc)) : list string :=
  kv ← los;
  (fun t => u ++ "_" ++ kv.1 ++ "_" ++ t) <$> (get_or (od_topic_progress kv.2) []).*1.

Definition quiz_ids (los : list (string * ObjectiveDoc)) : list string :=
  kv ← los; (get_or (od_quizzes kv.2) []).*1.

(** The database has no row of the user [u], no plan of the objectives
    [ids] and no result of the quizzes [qids]. *)
Definition no_rows_for (u : string) (ids qids : list string) (db : Db) : Prop :=
  Forall (fun r => or_user_id r ≠ u) (tbl_learning_objectives db)
  ∧ Forall (fun r => pr_objective_id r ∉ ids) (tbl_study_plans db)
  ∧ Forall (fun r => tr_user_id r ≠ u) (tbl_topic_progress db)
  ∧ Forall (fun r => qr_user_id r ≠ u) (tbl_quizzes db)
  ∧ Forall (fun r => rr_quiz_id r ∉ qids) (tbl_quiz_results db).

(** The mastery levels and the scores of an objective are numbers. A NaN
    is stored as [NULL] and read back as [None]: what is said here of the
    levels and scores that are loaded from a database is said of numbers. *)
Definition reals_storable (o : ObjectiveDoc) : Prop :=
  Forall (fun kv => PrimFloat.is_nan (get_or (pg_mastery_level kv.2) 0%float) = false)
    (get_or (od_topic_progress o) [])
  ∧ Forall (fun kv => ∀ r, qd_results kv.2 = Some r →
                           PrimFloat.is_nan (get_or (rd_score r) 0%float) = false)
      (get_or (od_quizzes o) []).

(** ** The rows of a save, and the entries of a load

    The states and the rows that the proofs about the relational backend
    name. *)

(** The questions of a quiz can be written as JSON. *)
Definition encodable (kv : string * QuizDoc) : Prop :=
  is_Some (json_questions (get_or (qd_questions kv.2) (PlainQuestions []))).

(** The state in which the loop of [_save_to_sqlite] starts: the user has
    a row of [users], written at the first reading of the clock if it was
    not there. *)
Definition user_ensured (clk : Clock) (u : string) (db : Db) : Db * nat :=
  match fetchone (select (fun r => String.eqb (ur_user_id r) u) (tbl_users db)) with
  | Some _ => (db, 0)
  | None => (with_users db (tbl_users db ++ [mkUserRow u (iso_reading clk 0)]), 1)
  end.

(** The row of [study_plans] written for an objective, if it has a plan. *)
Definition plan_rows (clk : Clock) (n : nat) (oid : string) (o : ObjectiveDoc)
    : list PlanRow :=
  match od_study_plan o with
  | Some plan => [plan_row (iso_reading clk (S n)) (iso_reading clk (S (S n))) oid plan]
  | None => []
  end.

(** The tables after the rows of an objective are written. *)
Definition objective_written (clk : Clock) (u : string) (db : Db) (n : nat)
    (kv : string * ObjectiveDoc) : Db :=
  let tp := get_or (od_topic_progress kv.2) [] in
  let qz := get_or (od_quizzes kv.2) [] in
  mkDb (tbl_users db)
    (insert_or_replace or_objective_id (objective_row (iso_reading clk n) u kv)
       (tbl_learning_objectives db))
    (match od_study_plan kv.2 with
     | Some plan =>
         insert_or_replace pr_plan_id
           (plan_row (iso_reading clk (S n)) (iso_reading clk (S (S n))) kv.1 plan)
           (tbl_study_plans db)
     | None => tbl_study_plans db
     end)
    (fold_left (fun T r => insert_or_replace tr_progress_id r T)
       (progress_rows clk (plan_readings kv.2 + S n) u kv.1 tp) (tbl_topic_progress db))
    (fold_left (fun T r => insert_or_replace qr_quiz_id r T)
       (quiz_rows clk (length tp + (plan_readings kv.2 + S n)) u kv.1 qz) (tbl_quizzes db))
    (fold_left (fun T r => insert_or_replace rr_result_id r T)
       (result_rows clk (length tp + (plan_readings kv.2 + S n)) u qz)
       (tbl_quiz_results db)).

(** The entry of the [learning_objectives] dictionary that
    [_load_from_sqlite] builds from a row of [learning_objectives]. *)
Definition objective_pair (db : Db) (u : string) (obj : ObjectiveRow)
    : string * ObjectiveDoc :=
  (or_objective_id obj, load_objective db u obj).

(** The entries it builds from a row of [topic_progress], of [quizzes] and
    of [study_plans]. *)
Definition progress_pair (r : ProgressRow) : string * ProgressDoc :=
  (tr_topic r,
   mkProgressDoc (Some (real_value (tr_mastery_level r))) (Some (tr_completed r))
     (Some (tr_last_studied r))).

Definition quiz_pair (db : Db) (r : QuizRow) : string * QuizDoc :=
  (qr_quiz_id r, load_quiz db r).

Definition plan_doc (plan : PlanRow) : PlanDoc :=
  mkPlanDoc (Some (pr_topics plan)) (Some (pr_learning_path plan))
    (Some (pr_estimated_time plan)) (Some (pr_prerequisites plan))
    (Some (pr_created_at plan)) (Some (pr_updated_at plan)).


(** The primary keys of the six tables are unique. *)
Definition keys_unique (db : Db) : Prop :=
  NoDup (ur_user_id <$> tbl_users db)
  ∧ NoDup (or_objective_id <$> tbl_learning_objectives db)
  ∧ NoDup (pr_plan_id <$> tbl_study_plans db)
  ∧ NoDup (tr_progress_id <$> tbl_topic_progress db)
  ∧ NoDup (qr_quiz_id <$> tbl_quizzes db)
  ∧ NoDup (rr_result_id <$> tbl_quiz_results db).

(** ** Histories and sample data *)

(** A call of [save_user_progress]: the clock, the user and the data. *)
Record SaveCall := mkSaveCall {
  sc_clock : Clock;
  sc_user : string;
  sc_data : UserData
}.

(** The world after a sequence of calls of [save_user_progress]. *)
Definition run_saves (st : UserProgressStore) (calls : list SaveCall) (w : World) : World :=
  fold_left
    (fun w call => (save_user_progress st (sc_clock call) (sc_user call) (sc_data call) w).2)
    calls w.

Module Sample.

(** A clock whose readings are one microsecond apart. *)
Definition clock : Clock :=
  mkClock "2025-03-01T10:00:00"
    (fun k => "2025-03-01T10:00:00.00" ++ pretty (1001 + k)).

Definition uuid : string := "3f2b8c1e-0000-4000-8000-000000000001".

(** A session at its start, on the flat-file backend, and the world it
    starts in. *)
Definition fresh : TutorContext * World :=
  TutorContext_init "/home/u/.ai_tutor" "alice" (Some "/data") false empty_world.

Definition store : UserProgressStore := mkStore "/data" false.

Definition algebra_plan : StudyPlan :=
  mkStudyPlan ["Vectors"; "Matrices"] ["Vectors"; "Matrices"]
    (Some (<["Vectors" := "1 hour"]> (<["Matrices" := "2 hours"]> ∅)))
    (Some (<["Matrices" := ["Vectors"]]> ∅)).

(** An objective as an earlier session left it in the user's record. *)
Definition old_objective : ObjectiveDoc :=
  mkObjectiveDoc (Some (Some "Geometry")) (Some (Some "Geometry"))
    (Some "2025-01-15T09:30:00") None (Some empty_plan) (Some []) (Some []).

(** The world in which the record of [alice] holds that objective. *)
Definition world_before : World :=
  (save_user_progress store clock "alice"
     (mkUserData None None (Some [("old-1", old_objective)]) None) fresh.2).2.

(** A session of [alice] with a learning objective and a study plan. *)
Definition started : TutorContext :=
  with_study_plan (with_learning_objective fresh.1 (Some "Linear algebra"))
    (Some algebra_plan).

(** A later objective, and a record with the two, the later one first. *)
Definition new_objective : ObjectiveDoc :=
  mkObjectiveDoc (Some (Some "Linear algebra")) (Some (Some "Linear algebra"))
    (Some "2025-02-20T18:05:00") None (Some empty_plan) (Some []) (Some []).

Definition two_objectives : UserData :=
  mkUserData None None (Some [("new-2", new_objective); ("old-1", old_objective)]) None.

(** An objective whose stored plan has no [estimated_time], and the world
    in which it is the record of [alice]. *)
Definition broken_objective : ObjectiveDoc :=
  mkObjectiveDoc (Some (Some "Calculus")) (Some (Some "Calculus"))
    (Some "2025-02-01T08:00:00") None
    (Some (mkPlanDoc (Some ["Limits"; "Derivatives"]) (Some ["Limits"; "Derivatives"])
             None (Some (Some ∅)) None None))
    (Some [("Limits", mkProgressDoc (Some 0.9%float) (Some true) None)]) (Some []).

Definition world_broken : World :=
  (save_user_progress store clock "alice"
     (mkUserData None None (Some [("obj-7", broken_objective)]) None) fresh.2).2.

(** A store on the relational backend, and the world once it is opened. *)
Definition sql_store : UserProgressStore :=
  (UserProgressStore_init "/home/u/.ai_tutor" (Some "/data") true empty_world).1.
Definition sql_world : World :=
  (UserProgressStore_init "/home/u/.ai_tutor" (Some "/data") true empty_world).2.

(** A session of [alice] on the relational backend, with a learning
    objective and a study plan, and the world in which the database holds
    an objective of an earlier session of hers. *)
Definition sql_fresh : TutorContext * World :=
  TutorContext_init "/home/u/.ai_tutor" "alice" (Some "/data") true empty_world.

Definition sql_started : TutorContext :=
  with_study_plan (with_learning_objective sql_fresh.1 (Some "Linear algebra"))
    (Some algebra_plan).

Definition sql_world_before : World :=
  (save_user_progress sql_store clock "alice"
     (mkUserData None None (Some [("old-1", old_objective)]) None) sql_world).2.

(** An objective created in the very second that [clock] shows, and the
    world in which the database holds it for [alice]. *)
Definition same_second_objective : ObjectiveDoc :=
  mkObjectiveDoc (Some (Some "Geometry")) (Some (Some "Geometry"))
    (Some "2025-03-01T10:00:00") None (Some empty_plan) (Some []) (Some []).

Definition sql_world_same_second : World :=
  (save_user_progress sql_store clock "alice"
     (mkUserData None None (Some [("old-1", same_second_objective)]) None) sql_world).2.

(** An objective with a topic that was studied and a quiz that was taken,
    with no timestamp of its own, and a record with it and
    [new_objective]. *)
Definition quizzed_objective : ObjectiveDoc :=
  mkObjectiveDoc (Some (Some "Calculus")) (Some (Some "Calculus")) None None
    (Some (mkPlanDoc (Some ["Limits"]) (Some ["Limits"]) (Some (Some ∅)) (Some (Some ∅))
             None None))
    (Some [("Limits", mkProgressDoc (Some 0.9%float) (Some true) None)])
    (Some [("alice_Limits_quiz",
            mkQuizDoc (Some "Limits") (Some (PlainQuestions [])) None None
              (Some (mkResultsDoc (Some [(KInt 0, "B")]) (Some 0.9%float) None None)))]).

Definition quizzed_record : UserData :=
  mkUserData None None (Some [("obj-7", quizzed_objective); ("new-2", new_objective)]) None.



Definition planner : Agent := mkAgent 1 "Study Planner".
Definition teacher : Agent := mkAgent 2 "Teacher".

(** What the planner and the teacher return: each hands off to the other,
    and the planner's text ends with the completion marker. *)
Definition planner_result : RunResult :=
  mkRunResult "RunResult(final_output='LEARNING_COMPLETE: The learning objective has been achieved.')"
    (Some (mkHandoffInfo teacher "Teach the topic: Vectors")).
Definition teacher_result : RunResult :=
  mkRunResult "RunResult(final_output='Vectors are elements of a vector space.')"
    (Some (mkHandoffInfo planner "The topic Vectors has been taught")).

(** Two agents that hand off to each other for ever. *)
Definition run_cycle (a : Agent) (input : string) (c : TutorContext) (max_turns : nat)
    (w : World) : option (RunResult * TutorContext * World) :=
  if Nat.eqb (agent_id a) 1 then Some (planner_result, c, w)
  else Some (teacher_result, c, w).

(** A teacher that hands off to itself, and never writes the marker. *)
Definition self_result : RunResult :=
  mkRunResult "RunResult(final_output='Let us go over Vectors again.')"
    (Some (mkHandoffInfo teacher "Teach the topic: Vectors")).
Definition run_self (a : Agent) (input : string) (c : TutorContext) (max_turns : nat)
    (w : World) : option (RunResult * TutorContext * World) :=
  Some (self_result, c, w).

Definition prompt (objective : option string) (plan : StudyPlan) (first_topic : string)
    : string :=
  "Begin by handing off to the Teacher agent to teach: " ++ first_topic.

Definition system : TutorSystem := mkTutorSystem started (Some planner).

End Sample.

(** * Properties *)

(** ** The pass mark *)

(** C3. [save_quiz_results] computes [completed] as [score >= 0.7]:
    the flag it passes on is true exactly when the score is at least 0.7;
    it is false for 0.0 and 0.69 and true for 0.7 and 1.0. A score that is
    not a number does not pass. *)
Theorem save_quiz_results_completed_iff :
  (∀ percent1 clk uuid4 c topic score feedback w,
     (save_quiz_results percent1 clk uuid4 c topic score feedback w).1.1.2 = true
     ↔ (0.7 <=? score)%float = true)
  ∧ (∀ percent1 clk uuid4 c topic feedback w,
       (save_quiz_results percent1 clk uuid4 c topic 0.0%float feedback w).1.1.2 = false
       ∧ (save_quiz_results percent1 clk uuid4 c topic 0.69%float feedback w).1.1.2 = false
       ∧ (save_quiz_results percent1 clk uuid4 c topic 0.7%float feedback w).1.1.2 = true
       ∧ (save_quiz_results percent1 clk uuid4 c topic 1.0%float feedback w).1.1.2 = true
       ∧ (save_quiz_results percent1 clk uuid4 c topic nan feedback w).1.1.2 = false).
Proof.
  assert (Hflag : ∀ percent1 clk uuid4 c topic score feedback w,
             (save_quiz_results percent1 clk uuid4 c topic score feedback w).1.1.2
             = (0.7 <=? score)%float).
  { intros. unfold save_quiz_results.
    destruct (update_mastery_level _ _ _ _ _ _ _) as [c' w']. reflexivity. }
  split.
  - intros. by rewrite Hflag.
  - intros. rewrite !Hflag. repeat split; vm_compute; reflexivity.
Qed.

(** ** [save_progress]: what reaches the store *)

(** C10. A session with neither an objective id nor a learning objective
    saves nothing: [save_progress] returns [False], and the session and the
    world (every file, every database) are as they were. *)
Theorem save_progress_without_objective clk uuid4 c w :
  truthy (objective_id c) = false →
  truthy (learning_objective c) = false →
  save_progress clk uuid4 c w = (false, c, w)
  ∧ ∀ st u, load_user_progress st u (save_progress clk uuid4 c w).2 = load_user_progress st u w.
Proof.
  intros Hid Hlo.
  assert (E : save_progress clk uuid4 c w = (false, c, w)).
  { unfold save_progress, objective_id_to_save.
    rewrite Hid, Hlo. by destruct (_progress_store c). }
  split; [exact E|]. intros st u. by rewrite E.
Qed.

Lemma save_progress_without_objective_witness :
  save_progress Sample.clock Sample.uuid Sample.fresh.1 Sample.fresh.2
  = (false, Sample.fresh.1, Sample.fresh.2).
Proof.
  apply (save_progress_without_objective Sample.clock Sample.uuid
           Sample.fresh.1 Sample.fresh.2); reflexivity.
Defined.


Lemma existing_file_opens w path content :
  files w !! path = Some content → can_open_w w path = true.
Proof. intros H. unfold can_open_w. by rewrite H. Qed.

Lemma loaded_file_opens st u w los :
  use_sqlite st = false →
  ud_learning_objectives (load_user_progress st u w) = Some los →
  can_open_w w (_get_user_json_path st u) = true.
Proof.
  intros Hjs. unfold load_user_progress, _load_from_json, can_open_w. rewrite Hjs.
  by destruct (files w !! _get_user_json_path st u) as [[d|]|].
Qed.

Lemma save_json_opens st clk u data w :
  use_sqlite st = false →
  (save_user_progress st clk u data w).1 = true →
  can_open_w (save_user_progress st clk u data w).2 (_get_user_json_path st u) = true.
Proof.
  intros Hjs. unfold save_user_progress. rewrite Hjs. unfold _save_to_json.
  destruct (can_open_w w _); [|done].
  destruct (json_data _); cbn [fst snd]; [|done].
  intros _. apply (existing_file_opens _ _ (JsonText u0)). cbn [files].
  by rewrite lookup_insert_eq.
Qed.

Lemma load_after_save_json st clk u data w :
  use_sqlite st = false →
  (save_user_progress st clk u data w).1 = true →
  ∃ text, json_data (set_last_updated data (iso_now clk)) = Some text
          ∧ load_user_progress st u (save_user_progress st clk u data w).2 = text.
Proof.
  intros Hjs. unfold save_user_progress, load_user_progress. rewrite Hjs.
  unfold _save_to_json, _load_from_json.
  destruct (can_open_w _ _); [|done].
  destruct (json_data _) as [text|] eqn:Hj; cbn; [|done].
  intros _. exists text. by rewrite lookup_insert_eq.
Qed.



(** The record of [alice] held the objective [old-1] before that save, and
    holds only the new objective after it. *)
Example save_progress_drops_old_objective :
  PyDict.mem "old-1"
    (get_or (ud_learning_objectives
               (load_user_progress Sample.store "alice" Sample.world_before)) []) = true
  ∧ (map fst
       (get_or (ud_learning_objectives
                  (load_user_progress Sample.store "alice"
                     (save_progress Sample.clock Sample.uuid Sample.started
                        Sample.world_before).2)) []))
    = [Sample.uuid].
Proof. split; vm_compute; reflexivity. Qed.

(** ** The handoff chain *)

Section Chain.

Variable run :
  Agent → string → TutorContext → nat → World → option (RunResult * TutorContext * World).
Variable max_turns : nat.

Lemma chain_loop_exit fuel s s' :
  chain_step run max_turns s = Exit s' →
  chain_loop run (S fuel) max_turns s = Returned s'.
Proof. intros H. cbn. by rewrite H. Qed.

Lemma chain_loop_continue fuel s s' :
  chain_step run max_turns s = Continue s' →
  chain_loop run (S fuel) max_turns s = chain_loop run fuel max_turns s'.
Proof. intros H. cbn. by rewrite H. Qed.

Lemma chain_step_continue_inv s s' :
  chain_step run max_turns s = Continue s' →
  ∃ h next c w,
    handoff_info (current_result s) = Some h
    ∧ (agent_id (target_agent h) ∉ agent_ids_seen s)
    ∧ run (target_agent h) (handoff_message h) (chain_context s) max_turns (chain_world s)
      = Some (next, c, w)
    ∧ s' = mkChain
             (mkAllResults (initial_result (all_results s))
                (handoff_results (all_results s) ++ [next]))
             next ({[agent_id (target_agent h)]} ∪ agent_ids_seen s) c w
             (agents_run s ++ [target_agent h]).
Proof.
  unfold chain_step. destruct (handoff_info (current_result s)) as [h|]; [|done].
  case_bool_decide as Hseen; [done|].
  destruct (run _ _ _ _ _) as [[[next c] w]|] eqn:Hrun; [|done].
  intros [= <-]. by exists h, next, c, w.
Qed.

(** Along a chain the set of seen identities is the set of identities of
    the agents run so far, and every run has left one result. *)
Lemma chain_reaches_invariant initial c w s :
  chain_reaches run max_turns (chain_start initial c w) s →
  initial_result (all_results s) = initial
  ∧ (∀ i, i ∈ agent_ids_seen s ↔ i ∈ (agent_id <$> agents_run s))
  ∧ length (handoff_results (all_results s)) = length (agents_run s)
  ∧ NoDup (agent_id <$> agents_run s).
Proof.
  induction 1 as [|s' s'' _ IH Hstep].
  - cbn. split; [done|]. split; [|split; [done | constructor]].
    intros i. set_solver.
  - destruct IH as (Hinit & Hseen & Hlen & Hnd).
    apply chain_step_continue_inv in Hstep
      as (h & next & c' & w' & Hh & Hfresh & Hrun & ->).
    cbn. split; [done|]. split; [|split].
    + intros i. rewrite fmap_app, elem_of_app, elem_of_union, Hseen. cbn.
      rewrite elem_of_singleton, list_elem_of_singleton. tauto.
    + rewrite !length_app. cbn. lia.
    + rewrite fmap_app. cbn. apply NoDup_app. split; [done|]. split.
      * intros i Hi Hi'. apply list_elem_of_singleton in Hi'. subst i.
        by apply Hfresh, Hseen.
      * apply NoDup_singleton.
Qed.

(** With fuel for one more test than the agents run so far, the loop gets
    from the start to any state of the chain. *)
Lemma chain_loop_reaches s0 s :
  chain_reaches run max_turns s0 s →
  ∃ k, k + length (agents_run s0) = length (agents_run s)
       ∧ ∀ fuel, chain_loop run (k + fuel) max_turns s0 = chain_loop run fuel max_turns s.
Proof.
  induction 1 as [|s' s'' _ IH Hstep].
  - exists 0. split; [done|]. done.
  - destruct IH as (k & Hk & IH). exists (S k).
    pose proof Hstep as Hinv.
    apply chain_step_continue_inv in Hinv as (h & next & c' & w' & _ & _ & _ & ->).
    split.
    + cbn [agents_run]. rewrite length_app. cbn [length]. lia.
    + intros fuel. replace (S k + fuel) with (k + S fuel) by lia.
      rewrite IH. by apply chain_loop_continue.
Qed.

(** C7. A chain whose first result asks for no handoff stops at once: no
    agent is run, the results are the initial result and an empty list of
    handoff results, and the session and the world are untouched. *)
Theorem chain_without_handoff fuel initial c w :
  handoff_info initial = None →
  ∃ s, process_agent_handoff_chain run (S fuel) initial max_turns c w = Returned s
       ∧ all_results s = mkAllResults initial []
       ∧ agents_run s = []
       ∧ chain_context s = c
       ∧ chain_world s = w.
Proof.
  intros Hnone. exists (chain_start initial c w).
  split; [|done]. unfold process_agent_handoff_chain.
  apply chain_loop_exit. unfold chain_step. cbn. by rewrite Hnone.
Qed.

End Chain.

(** ** The completion marker in the text of the results *)

Lemma append_cons x (a b : string) : String x a ++ b = String x (a ++ b).
Proof. reflexivity. Qed.

Lemma append_assoc (a b c : string) : (a ++ b) ++ c = a ++ (b ++ c).
Proof.
  induction a as [|x a IH]; [reflexivity|].
  rewrite !append_cons. by f_equal.
Qed.

Lemma prefix_app_sep m a c b :
  occurs c m = false → String.prefix m (a ++ String c b) = String.prefix m a.
Proof.
  revert m. induction a as [|x a IH]; intros m Hc.
  - change ("" ++ String c b) with (String c b).
    destruct m as [|y m]; [reflexivity|]. cbn in *.
    apply orb_false_elim in Hc as [Hcy _].
    destruct (ascii_dec y c) as [->|]; [|done].
    by rewrite Ascii.eqb_refl in Hcy.
  - rewrite append_cons. destruct m as [|y m]; [reflexivity|]. cbn in *.
    apply orb_false_elim in Hc as [_ Hm].
    destruct (ascii_dec y x); [by apply IH | done].
Qed.

(** An occurrence of [m] cannot lie across a character that [m] does not
    have. *)
Lemma contains_app_sep m a c b :
  occurs c m = false →
  contains m (a ++ String c b) = contains m a || contains m b.
Proof.
  intros Hc. induction a as [|x a IH].
  - change ("" ++ String c b) with (String c b).
    change (contains m (String c b))
      with (String.prefix m ("" ++ String c b) || contains m b).
    rewrite prefix_app_sep by done.
    change (contains m "") with (String.prefix m "" || false).
    by rewrite orb_false_r.
  - change (contains m (String x a ++ String c b))
      with (String.prefix m (String x a ++ String c b) || contains m (a ++ String c b)).
    rewrite prefix_app_sep, IH by done.
    change (contains m (String x a)) with (String.prefix m (String x a) || contains m a).
    by rewrite orb_assoc.
Qed.

Lemma marker_in_joined (l : list string) :
  contains completion_marker (String.concat ", " l)
  = existsb (contains completion_marker) l.
Proof.
  induction l as [|x [|y l] IH].
  - reflexivity.
  - cbn [String.concat existsb]. by rewrite orb_false_r.
  - change (String.concat ", " (x :: y :: l))
      with (x ++ String "," ("" ++ String " " (String.concat ", " (y :: l)))).
    rewrite !contains_app_sep by reflexivity.
    rewrite IH. reflexivity.
Qed.

Lemma existsb_fmap {A B : Type} (f : B → bool) (g : A → B) (l : list A) :
  existsb f (map g l) = existsb (fun a => f (g a)) l.
Proof. induction l as [|a l IH]; cbn; [done | by rewrite IH]. Qed.

(** [LEARNING_COMPLETE in str(all_results)] holds exactly when the marker is
    in the text of one of the results. *)
Lemma marker_in_all_results (a : AllResults) :
  contains completion_marker (str_all_results a)
  = existsb (fun r => contains completion_marker (result_repr r))
      (initial_result a :: handoff_results a).
Proof.
  unfold str_all_results.
  change ("{'initial_result': " ++ ?x) with ("{'initial_result':" ++ String " " x).
  rewrite contains_app_sep by reflexivity.
  change (", 'handoff_results': [" ++ ?x)
    with (String "," (" 'handoff_results': " ++ String "[" x)).
  change (?x ++ "]}") with (x ++ String "]" "}").
  rewrite !contains_app_sep by reflexivity.
  rewrite marker_in_joined, existsb_fmap.
  change (contains completion_marker "{'initial_result':") with false.
  change (contains completion_marker " 'handoff_results': ") with false.
  change (contains completion_marker "}") with false.
  cbn [existsb orb]. by rewrite orb_false_r.
Qed.

Section CycleGuard.

Variable run :
  Agent → string → TutorContext → nat → World → option (RunResult * TutorContext * World).
Variable planner_prompt : option string → StudyPlan → string → string.
Variable clk : Clock.
Variable max_turns : nat.

(** At a state of the chain whose current result hands off to an agent that
    was already run, the loop exits without another run. *)
Lemma chain_halts_on_seen initial c w s h fuel :
  chain_reaches run max_turns (chain_start initial c w) s →
  handoff_info (current_result s) = Some h →
  agent_id (target_agent h) ∈ (agent_id <$> agents_run s) →
  length (agents_run s) < fuel →
  process_agent_handoff_chain run fuel initial max_turns c w = Returned s.
Proof.
  intros Hreach Hh Hin Hfuel.
  destruct (chain_reaches_invariant run max_turns initial c w s Hreach)
    as (_ & Hseen & _ & _).
  destruct (chain_loop_reaches run max_turns _ _ Hreach) as (k & Hk & Hloop).
  cbn in Hk. unfold process_agent_handoff_chain.
  replace fuel with (k + S (fuel - k - 1)) by lia.
  rewrite Hloop. apply chain_loop_exit.
  unfold chain_step. rewrite Hh.
  by rewrite bool_decide_eq_true_2 by by apply Hseen.
Qed.

(** C2, as the code has it. When a result hands off to an agent that the
    chain has already handed off to, the chain stops there: that agent is
    not run again, no agent has been run twice, and the results are those
    gathered so far, one for each agent run. The flag [completed] does not
    depend on how the chain stopped: it is true exactly when the text of one
    of the results has the marker [LEARNING_COMPLETE]. The agent that
    produced the initial result is not among the agents seen. *)
Theorem cycle_guard_halts sys w c0 plan planner initial c1 w1 s h fuel :
  prepare_learning_session (context sys) = Some c0 →
  study_plan c0 = Some plan →
  planner_with_tools sys = Some planner →
  run planner
      (planner_prompt (learning_objective c0) plan
         (get_or (head (learning_path plan)) "Introduction"))
      c0 max_turns w = Some (initial, c1, w1) →
  chain_reaches run max_turns (chain_start initial c1 w1) s →
  handoff_info (current_result s) = Some h →
  agent_id (target_agent h) ∈ (agent_id <$> agents_run s) →
  length (agents_run s) < fuel →
  process_agent_handoff_chain run fuel initial max_turns c1 w1 = Returned s
  ∧ length (handoff_results (all_results s)) = length (agents_run s)
  ∧ NoDup (agent_id <$> agents_run s)
  ∧ ∃ r c' w',
      complete_learning_objective run planner_prompt clk fuel sys max_turns w
      = Finished r c' w'
      ∧ lr_final_results r = all_results s
      ∧ (lr_completed r = true
         ↔ ∃ x, x ∈ initial :: handoff_results (all_results s)
                ∧ contains completion_marker (result_repr x) = true).
Proof.
  intros Hprep Hplan Hplanner Hrun Hreach Hh Hin Hfuel.
  pose proof (chain_halts_on_seen _ _ _ _ _ _ Hreach Hh Hin Hfuel) as Hchain.
  destruct (chain_reaches_invariant run max_turns initial c1 w1 s Hreach)
    as (Hinit & _ & Hlen & Hnd).
  split; [done|]. split; [done|]. split; [done|].
  unfold complete_learning_objective.
  rewrite Hprep, Hplan, Hplanner, Hrun, Hchain.
  eexists _, _, _. split; [reflexivity|]. cbn [lr_final_results lr_completed].
  split; [done|].
  rewrite marker_in_all_results, Hinit, existsb_exists.
  split; intros (x & Hx & Hm); exists x; (split; [by apply list_elem_of_In | done]).
Qed.

End CycleGuard.

Lemma cycle_guard_halts_witness :
  ∃ c1 w1 s,
    process_agent_handoff_chain Sample.run_self 5 Sample.self_result 30 c1 w1 = Returned s
    ∧ length (handoff_results (all_results s)) = length (agents_run s)
    ∧ NoDup (agent_id <$> agents_run s)
    ∧ ∃ r c' w',
        complete_learning_objective Sample.run_self Sample.prompt Sample.clock 5
          Sample.system 30 Sample.world_before
        = Finished r c' w'
        ∧ lr_final_results r = all_results s
        ∧ (lr_completed r = true
           ↔ ∃ x, x ∈ Sample.self_result :: handoff_results (all_results s)
                  ∧ contains completion_marker (result_repr x) = true).
Proof.
  eexists _, _, _.
  eapply (cycle_guard_halts Sample.run_self Sample.prompt Sample.clock 30
            Sample.system Sample.world_before).
  - reflexivity.
  - reflexivity.
  - reflexivity.
  - reflexivity.
  - eapply reaches_next; [apply reaches_here | reflexivity].
  - reflexivity.
  - simpl. left.
  - simpl. lia.
Defined.

(** A teacher that hands off to itself: the teacher is run once, the second
    handoff to the teacher stops the chain, and no text has the marker. *)
Example self_handoff_chain :
  match complete_learning_objective Sample.run_self Sample.prompt Sample.clock 5
          Sample.system 30 Sample.world_before with
  | Finished r _ _ =>
      handoff_results (lr_final_results r) = [Sample.self_result]
      ∧ lr_completed r = false
  | _ => False
  end.
Proof. vm_compute. split; reflexivity. Qed.

(** C2 as stated fails on the chain planner, teacher, planner.
    The teacher's result hands off to the planner, whose run produced the
    initial result, and the planner is run again: the chain stops only when
    that second run hands off to the teacher. The chain has been stopped by
    the guard, and yet [completed] is true, because the planner's text has
    the marker. *)
Lemma cycle_guard_counterexample :
  match process_agent_handoff_chain Sample.run_cycle 5 Sample.planner_result 30
          Sample.started Sample.world_before with
  | Returned s =>
      agents_run s = [Sample.teacher; Sample.planner]
      ∧ handoff_results (all_results s) = [Sample.teacher_result; Sample.planner_result]
  | _ => False
  end
  ∧ match complete_learning_objective Sample.run_cycle Sample.prompt Sample.clock 5
            Sample.system 30 Sample.world_before with
    | Finished r _ _ =>
        handoff_results (lr_final_results r) = [Sample.teacher_result; Sample.planner_result]
        ∧ lr_completed r ≠ false
    | _ => False
    end.
Proof. vm_compute. repeat split; discriminate. Qed.

Lemma chain_without_handoff_witness :
  ∃ s, process_agent_handoff_chain Sample.run_cycle 1
         (mkRunResult "RunResult(final_output='No handoff.')" None) 30
         Sample.started Sample.world_before
       = Returned s
       ∧ all_results s = mkAllResults (mkRunResult "RunResult(final_output='No handoff.')" None) []
       ∧ agents_run s = []
       ∧ chain_context s = Sample.started
       ∧ chain_world s = Sample.world_before.
Proof.
  apply (chain_without_handoff Sample.run_cycle 30 0
           (mkRunResult "RunResult(final_output='No handoff.')" None)
           Sample.started Sample.world_before).
  reflexivity.
Defined.

(** ** Loading a user the store has never seen *)

Lemma length_append (a b : string) :
  String.length (a ++ b) = String.length a + String.length b.
Proof.
  induction a as [|x a IH]; [reflexivity|].
  rewrite append_cons. cbn. by rewrite IH.
Qed.

Lemma append_inj_l (a a' b : string) : a ++ b = a' ++ b → a = a'.
Proof.
  revert a'. induction a as [|x a IH]; intros [|x' a'] H.
  - done.
  - apply (f_equal String.length) in H.
    change ("" ++ b) with b in H.
    rewrite append_cons in H. cbn in H. rewrite length_append in H. lia.
  - apply (f_equal String.length) in H.
    change ("" ++ b) with b in H.
    rewrite append_cons in H. cbn in H. rewrite length_append in H. lia.
  - rewrite !append_cons in H. injection H as -> H. f_equal. by apply IH.
Qed.

(** Two users of one store have two files. *)
Lemma user_json_path_inj st u u' :
  _get_user_json_path st u = _get_user_json_path st u' → u = u'.
Proof.
  unfold _get_user_json_path, path_join.
  change (String.prefix "/" ("user_" ++ ?x)) with false. cbv iota.
  assert (Hinj : ∀ pre, pre ++ "user_" ++ u ++ ".json" = pre ++ "user_" ++ u' ++ ".json"
                        → u = u').
  { intros pre H. apply String.app_inj in H. apply String.app_inj in H.
    by apply append_inj_l in H. }
  destruct (String.eqb (storage_dir st) ""); [apply (Hinj "")|].
  destruct (ends_with_slash (storage_dir st)); [apply Hinj|].
  intros H. apply (Hinj (storage_dir st ++ "/")). by rewrite !append_assoc.
Qed.

Lemma for_each_invariant {A S : Type} (P : S → Prop) (body : S → A → option S) l s s' :
  (∀ s a s', P s → body s a = Some s' → P s') →
  P s → for_each body s l = Some s' → P s'.
Proof.
  intros Hbody. revert s. induction l as [|a l IH]; intros s Hs H; cbn in H.
  - by injection H as <-.
  - destruct (body s a) as [s1|] eqn:E; [|done]. cbn in H. eauto.
Qed.

Lemma fold_left_invariant {A S : Type} (P : S → Prop) (body : S → A → S) l s :
  (∀ s a, P s → P (body s a)) → P s → P (fold_left body l s).
Proof.
  intros Hbody. revert s. induction l as [|a l IH]; intros s Hs; cbn; auto.
Qed.

Lemma save_objective_rows_users clk user_id s kv s' :
  save_objective_rows clk user_id s kv = Some s' → tbl_users s'.1 = tbl_users s.1.
Proof.
  unfold save_objective_rows.
  set (s1 := (with_objectives s.1 _, S s.2)).
  set (s2 := match od_study_plan kv.2 with None => s1 | Some _ => _ end).
  set (s3 := match od_topic_progress kv.2 with None => s2 | Some _ => _ end).
  assert (H2 : tbl_users s2.1 = tbl_users s.1).
  { subst s2. by destruct (od_study_plan kv.2). }
  assert (H3 : tbl_users s3.1 = tbl_users s.1).
  { subst s3. destruct (od_topic_progress kv.2) as [tp|]; [|done].
    by apply (fold_left_invariant (fun d => tbl_users d.1 = tbl_users s.1)). }
  destruct (od_quizzes kv.2) as [qz|]; [|by intros [= <-]].
  apply (for_each_invariant (fun d => tbl_users d.1 = tbl_users s.1)); [|done].
  intros s0 a s0' Hs. unfold save_quiz_rows.
  destruct (json_questions _); cbn; [|done].
  destruct (qd_results a.2); by intros [= <-].
Qed.

Lemma save_keeps_no_data st clk u u' data w :
  u' ≠ u →
  no_data_for st u w →
  no_data_for st u (save_user_progress st clk u' data w).2.
Proof.
  intros Hne Hw. pose proof Hw as [Hfile Hdb]. unfold save_user_progress.
  destruct (use_sqlite st).
  - unfold _save_to_sqlite.
    destruct (dbs w !! db_path st) as [db|] eqn:Edb; [|exact Hw].
    pose proof (Hdb db eq_refl) as Hrows.
    set (s1 := match fetchone _ with Some _ => (db, 0) | None => _ end).
    assert (H1 : Forall (fun r => ur_user_id r ≠ u) (tbl_users s1.1)).
    { subst s1. destruct (fetchone _); [done|]. cbn.
      apply Forall_app. split; [done|]. by repeat constructor. }
    destruct (match ud_learning_objectives data with
              | None => Some s1 | Some los => _ end) as [s'|] eqn:Esaved;
      cbn [snd]; [|exact Hw].
    split; [done|]. cbn [dbs]. intros db2. rewrite lookup_insert_eq. intros [= <-].
    destruct (ud_learning_objectives data) as [los|]; [|by injection Esaved as <-].
    revert Esaved.
    apply (for_each_invariant (fun d => Forall (fun r => ur_user_id r ≠ u) (tbl_users d.1)));
      [|done].
    intros s a s0 Hs Hsave. by rewrite (save_objective_rows_users _ _ _ _ _ Hsave).
  - unfold _save_to_json.
    assert (Hpath : _get_user_json_path st u' ≠ _get_user_json_path st u).
    { intros E. by apply user_json_path_inj in E. }
    destruct (can_open_w _ _); [|exact Hw].
    destruct (json_data _); cbn [snd]; (split; [cbn [files]; by rewrite lookup_insert_ne | done]).
Qed.

Lemma init_keeps_no_data default_dir dir sqlite u w :
  no_data_for (mkStore (get_or dir default_dir) sqlite) u w →
  no_data_for (mkStore (get_or dir default_dir) sqlite) u
    (UserProgressStore_init default_dir dir sqlite w).2.
Proof.
  intros [Hfile Hdb]. unfold UserProgressStore_init. cbn [snd].
  destruct sqlite; [|by split].
  unfold _init_sqlite_db. cbn [makedirs dbs storage_dir].
  destruct (dbs w !! _) as [db|] eqn:E.
  - split; [done|]. cbn [makedirs dbs]. intros db'. rewrite E. apply Hdb.
  - split; [done|]. cbn [dbs]. intros db. rewrite lookup_insert_eq. by intros [= <-].
Qed.

Lemma no_data_loads_empty st u w :
  no_data_for st u w → load_user_progress st u w = empty_data.
Proof.
  intros [Hfile Hdb]. unfold load_user_progress.
  destruct (use_sqlite st).
  - unfold _load_from_sqlite.
    destruct (dbs w !! db_path st) as [db|]; [|done].
    specialize (Hdb db eq_refl).
    replace (select _ (tbl_users db)) with (@nil UserRow); [done|].
    symmetry. unfold select. induction Hdb as [|r l Hr _ IH]; [done|].
    cbn. destruct (String.eqb (ur_user_id r) u) eqn:E; [|done].
    by apply String.eqb_eq in E.
  - unfold _load_from_json. by rewrite Hfile.
Qed.

(** C8. A store is opened on an empty world, on either backend, and saves
    any data for any users but [user]. Loading [user] then returns the
    empty dictionary: no exception, no failure value. *)
Theorem load_unknown_user_empty default_dir dir sqlite calls user :
  Forall (fun call => sc_user call ≠ user) calls →
  let st := (UserProgressStore_init default_dir dir sqlite empty_world).1 in
  let w0 := (UserProgressStore_init default_dir dir sqlite empty_world).2 in
  load_user_progress st user (run_saves st calls w0) = empty_data
  ∧ data_is_empty (load_user_progress st user (run_saves st calls w0)) = true.
Proof.
  intros Hcalls st w0.
  assert (H0 : no_data_for st user w0).
  { subst st w0. unfold UserProgressStore_init. cbn [fst snd].
    destruct sqlite; [|by split].
    unfold _init_sqlite_db, makedirs, empty_world. cbn [dbs files].
    rewrite lookup_empty. split; [done|]. cbn [dbs].
    intros db. rewrite lookup_insert_eq. by intros [= <-]. }
  assert (H : no_data_for st user (run_saves st calls w0)).
  { unfold run_saves. revert H0. generalize w0.
    induction Hcalls as [|call calls Hcall _ IH]; intros w Hw; [done|].
    cbn. apply IH. by apply save_keeps_no_data. }
  rewrite (no_data_loads_empty _ _ _ H). done.
Qed.

Lemma load_unknown_user_empty_witness :
  let st := (UserProgressStore_init "/home/u/.ai_tutor" (Some "/data") true empty_world).1 in
  let w0 := (UserProgressStore_init "/home/u/.ai_tutor" (Some "/data") true empty_world).2 in
  let calls :=
    [mkSaveCall Sample.clock "bob"
       (mkUserData None None (Some [("old-1", Sample.old_objective)]) None)] in
  load_user_progress st "alice" (run_saves st calls w0) = empty_data
  ∧ data_is_empty (load_user_progress st "alice" (run_saves st calls w0)) = true.
Proof.
  apply (load_unknown_user_empty "/home/u/.ai_tutor" (Some "/data") true
           [mkSaveCall Sample.clock "bob"
              (mkUserData None None (Some [("old-1", Sample.old_objective)]) None)]
           "alice").
  constructor; [discriminate | constructor].
Defined.

(** The same history on the two backends: [bob] finds his objective again,
    [alice] finds nothing. *)
Example load_after_other_users_saves :
  ∀ sqlite,
    let st := (UserProgressStore_init "/home/u/.ai_tutor" (Some "/data") sqlite empty_world).1 in
    let w0 := (UserProgressStore_init "/home/u/.ai_tutor" (Some "/data") sqlite empty_world).2 in
    let w := run_saves st
               [mkSaveCall Sample.clock "bob"
                  (mkUserData None None (Some [("old-1", Sample.old_objective)]) None)] w0 in
    map fst (get_or (ud_learning_objectives (load_user_progress st "bob" w)) []) = ["old-1"]
    ∧ load_user_progress st "alice" w = empty_data.
Proof. intros [|]; vm_compute; split; reflexivity. Qed.

(** ** [load_progress]: the most recent objective *)

Lemma ltb_asym (a b : string) : String.ltb a b = true → String.ltb b a = false.
Proof.
  unfold String.ltb. rewrite (String.compare_antisym a b).
  by destruct (String.compare b a).
Qed.

Lemma load_topic_frame c kv :
  objective_id (load_topic c kv) = objective_id c
  ∧ learning_objective (load_topic c kv) = learning_objective c
  ∧ study_plan (load_topic c kv) = study_plan c
  ∧ quiz_results (load_topic c kv) = quiz_results c.
Proof. unfold load_topic. by destruct (get_or (pg_completed kv.2) false). Qed.

Lemma load_quiz_entry_frame c kv :
  objective_id (load_quiz_entry c kv) = objective_id c
  ∧ learning_objective (load_quiz_entry c kv) = learning_objective c
  ∧ study_plan (load_quiz_entry c kv) = study_plan c
  ∧ mastery_levels (load_quiz_entry c kv) = mastery_levels c
  ∧ completed_topics (load_quiz_entry c kv) = completed_topics c.
Proof.
  unfold load_quiz_entry. destruct (qd_results kv.2); [|done].
  by destruct (negb _).
Qed.

Lemma load_topics_frame l c :
  objective_id (fold_left load_topic l c) = objective_id c
  ∧ learning_objective (fold_left load_topic l c) = learning_objective c
  ∧ study_plan (fold_left load_topic l c) = study_plan c
  ∧ quiz_results (fold_left load_topic l c) = quiz_results c.
Proof.
  revert c. induction l as [|kv l IH]; intros c; [done|]. cbn.
  destruct (IH (load_topic c kv)) as (-> & -> & -> & ->). apply load_topic_frame.
Qed.

Lemma load_quiz_entries_frame l c :
  objective_id (fold_left load_quiz_entry l c) = objective_id c
  ∧ learning_objective (fold_left load_quiz_entry l c) = learning_objective c
  ∧ study_plan (fold_left load_quiz_entry l c) = study_plan c
  ∧ mastery_levels (fold_left load_quiz_entry l c) = mastery_levels c
  ∧ completed_topics (fold_left load_quiz_entry l c) = completed_topics c.
Proof.
  revert c. induction l as [|kv l IH]; intros c; [done|]. cbn.
  destruct (IH (load_quiz_entry c kv)) as (-> & -> & -> & -> & ->).
  apply load_quiz_entry_frame.
Qed.

(** What [load_progress] does once the most recent objective is known. *)
Lemma load_progress_selected c w st los oid o :
  _progress_store c = Some st →
  ud_learning_objectives (load_user_progress st (user_id c) w) = Some los →
  hd_error (sorted_desc los) = Some (oid, o) →
  load_progress c w =
    let c1 := with_learning_objective (with_objective_id c (Some oid))
                (get_or (od_title o) (Some "")) in
    match match od_study_plan o with
          | None => Some c1
          | Some plan =>
              match plan_of_doc plan with
              | Some p => Some (with_study_plan c1 (Some p))
              | None => None
              end
          end with
    | None => (false, c1)
    | Some c2 =>
        (true,
         fold_left load_quiz_entry (get_or (od_quizzes o) [])
           (fold_left load_topic (get_or (od_topic_progress o) []) c2))
    end.
Proof.
  intros Hst Hlos Hhd. unfold load_progress. rewrite Hst.
  assert (Hne : data_is_empty (load_user_progress st (user_id c) w) = false).
  { unfold data_is_empty. rewrite Hlos.
    by destruct (ud_user_id (load_user_progress st (user_id c) w)),
                (ud_created_at (load_user_progress st (user_id c) w)). }
  rewrite Hne, Hlos. cbn [get_or default from_option id orb].
  destruct los as [|x los]; [done|]. cbn [dict_is_empty].
  rewrite Hhd. reflexivity.
Qed.

(** Whatever becomes of the plan, the session is attached to the selected
    objective. *)
Lemma load_progress_objective_id c w st los oid o :
  _progress_store c = Some st →
  ud_learning_objectives (load_user_progress st (user_id c) w) = Some los →
  hd_error (sorted_desc los) = Some (oid, o) →
  objective_id (load_progress c w).2 = Some oid.
Proof.
  intros Hst Hlos Hhd. rewrite (load_progress_selected c w st los oid o) by done.
  cbv zeta.
  destruct (od_study_plan o) as [plan|]; [destruct (plan_of_doc plan)|]; cbn [snd];
    try done;
    by rewrite (proj1 (load_quiz_entries_frame _ _)), (proj1 (load_topics_frame _ _)).
Qed.

Lemma json_objective_created_at o o' :
  json_objective o = Some o' → od_created_at o' = od_created_at o.
Proof.
  unfold json_objective. destruct (json_field _ _); cbn; [|done]. by intros [= <-].
Qed.


(** ** Dictionaries *)

Section PyDictFacts.
Context {V : Type}.
Implicit Types d : list (string * V).

Lemma pydict_get_set_eq k v d : PyDict.get k (PyDict.set k v d) = Some v.
Proof.
  induction d as [|[k' v'] r IH]; cbn.
  - by rewrite String.eqb_refl.
  - destruct (String.eqb k k') eqn:E; cbn; rewrite E; [done | exact IH].
Qed.

Lemma pydict_get_set_ne k k' v d :
  k ≠ k' → PyDict.get k' (PyDict.set k v d) = PyDict.get k' d.
Proof.
  intros Hne. induction d as [|[k0 v0] r IH]; cbn.
  - destruct (String.eqb k' k) eqn:E; [|done].
    apply String.eqb_eq in E. congruence.
  - destruct (String.eqb k k0) eqn:E; cbn.
    + apply String.eqb_eq in E. subst k0.
      destruct (String.eqb k' k) eqn:E'; [|done].
      apply String.eqb_eq in E'. congruence.
    + by rewrite IH.
Qed.

Lemma pydict_set_keys k v d x :
  x ∈ (PyDict.set k v d).*1 → x = k ∨ x ∈ d.*1.
Proof.
  induction d as [|[k' v'] r IH]; cbn.
  - intros H. apply list_elem_of_singleton in H. by left.
  - destruct (String.eqb k k') eqn:E; cbn; rewrite !elem_of_cons.
    + tauto.
    + intros [->|H]; [by right; left|]. destruct (IH H); [by left | by right; right].
Qed.

Lemma pydict_set_NoDup k v d : NoDup d.*1 → NoDup (PyDict.set k v d).*1.
Proof.
  induction d as [|[k' v'] r IH]; cbn.
  - intros _. apply NoDup_singleton.
  - rewrite NoDup_cons. intros [Hk' Hr].
    destruct (String.eqb k k') eqn:E; cbn; rewrite NoDup_cons; [done|].
    split; [|by apply IH].
    intros [->|H]%pydict_set_keys; [|done].
    by rewrite String.eqb_refl in E.
Qed.

Lemma pydict_get_None k d : k ∉ d.*1 → PyDict.get k d = None.
Proof.
  induction d as [|[k' v'] r IH]; cbn; [done|].
  rewrite not_elem_of_cons. intros [Hne Hr].
  destruct (String.eqb k k') eqn:E; [|by apply IH].
  by apply String.eqb_eq in E.
Qed.

Lemma pydict_set_Forall (P : V → Prop) k v d :
  P v → Forall (fun kv => P kv.2) d → Forall (fun kv => P kv.2) (PyDict.set k v d).
Proof.
  intros Hv. induction 1 as [|[k' v'] r Hx Hr IH]; cbn.
  - by repeat constructor.
  - destruct (String.eqb k k'); constructor; done.
Qed.


Lemma pydict_fold_set_NoDup (f : string → V) (l : list string) d :
  NoDup d.*1 → NoDup (fold_left (fun d t => PyDict.set t (f t) d) l d).*1.
Proof.
  revert d. induction l as [|t l IH]; intros d Hd; [done|].
  cbn. apply IH. by apply pydict_set_NoDup.
Qed.

End PyDictFacts.

Lemma pydict_set_fresh {V : Type} k (v : V) d :
  k ∉ d.*1 → PyDict.set k v d = (d ++ [(k, v)])%list.
Proof.
  induction d as [|[k' v'] r IH]; cbn; [done|].
  rewrite not_elem_of_cons. intros [Hne Hr].
  destruct (String.eqb k k') eqn:E; [by apply String.eqb_eq in E|].
  by rewrite IH.
Qed.

Lemma pydict_fold_pairs_NoDup {V : Type} (l acc : list (string * V)) :
  NoDup ((acc ++ l)%list).*1 →
  fold_left (fun d kv => PyDict.set kv.1 kv.2 d) l acc = (acc ++ l)%list.
Proof.
  revert acc. induction l as [|[k v] l IH]; intros acc Hnd; cbn.
  - by rewrite app_nil_r.
  - rewrite pydict_set_fresh.
    + rewrite IH; [by rewrite <- app_assoc | by rewrite <- app_assoc].
    + rewrite fmap_app in Hnd. apply NoDup_app in Hnd as (_ & Hdis & _).
      intros Hin. apply (Hdis k Hin). left.
Qed.

Lemma pydict_fold_pairs_keys {V : Type} (l acc : list (string * V)) :
  NoDup acc.*1 → NoDup (fold_left (fun d kv => PyDict.set kv.1 kv.2 d) l acc).*1.
Proof.
  revert acc. induction l as [|kv l IH]; intros acc Hnd; cbn; [done|].
  apply IH. by apply pydict_set_NoDup.
Qed.

Lemma str_in_true s l : str_in s l = true ↔ s ∈ l.
Proof.
  unfold str_in. rewrite existsb_exists. split.
  - intros (x & Hx & E). apply String.eqb_eq in E. subst x.
    by apply list_elem_of_In.
  - intros H. exists s. split; [by apply list_elem_of_In | apply String.eqb_refl].
Qed.

(** ** What a successful [save_progress] leaves in the file *)





(** ** Mastery levels across a save and a fresh load *)



(** ** The relational backend: the rows a save writes *)

(** Reduce the projections of a database that is given by its tables. *)
Ltac tables :=
  cbn [tbl_users tbl_learning_objectives tbl_study_plans tbl_topic_progress tbl_quizzes
       tbl_quiz_results with_users with_objectives with_plans with_progress with_quizzes
       with_results].

Lemma filter_keeps_Forall {R : Type} (Q P : R → Prop) `{∀ r, Decision (P r)} (l : list R) :
  Forall Q l → Forall Q (filter P l).
Proof.
  rewrite !Forall_forall. intros H0 x Hx.
  apply list_elem_of_filter in Hx as [_ Hx]. by apply H0.
Qed.

Lemma select_none {R : Type} (cond : R → bool) (l : list R) :
  Forall (fun r => cond r = false) l → select cond l = [].
Proof.
  unfold select. induction 1 as [|r l Hr _ IH]; [done|].
  cbn. by rewrite Hr.
Qed.

Lemma select_all {R : Type} (cond : R → bool) (l : list R) :
  Forall (fun r => cond r = true) l → select cond l = l.
Proof.
  unfold select. induction 1 as [|r l Hr _ IH]; [done|].
  cbn. by rewrite Hr, IH.
Qed.

Lemma select_app {R : Type} (cond : R → bool) (a b : list R) :
  select cond (a ++ b) = (select cond a ++ select cond b)%list.
Proof. apply List.filter_app. Qed.

Lemma filter_no_key {R : Type} (key : R → string) (T : list R) :
  filter (fun r => key r ∉ @nil string) T = T.
Proof.
  induction T as [|r T IH]; [done|].
  rewrite filter_cons_True by apply not_elem_of_nil. by rewrite IH.
Qed.

(** A sequence of [INSERT OR REPLACE] of rows with distinct keys removes
    the rows that have one of these keys and adds the rows, in order. *)
Lemma fold_insert_or_replace {R : Type} (key : R → string) (rows T : list R) :
  NoDup (key <$> rows) →
  fold_left (fun T r => insert_or_replace key r T) rows T
  = (filter (fun r => key r ∉ key <$> rows) T ++ rows)%list.
Proof.
  revert T. induction rows as [|r rs IH]; intros T Hnd.
  - cbn [fold_left fmap list_fmap]. by rewrite filter_no_key, app_nil_r.
  - cbn [fmap list_fmap] in Hnd. apply NoDup_cons in Hnd as [Hr Hnd].
    cbn [fold_left]. rewrite IH by done. unfold insert_or_replace.
    rewrite filter_app, (filter_cons_True _ r []) by exact Hr.
    rewrite filter_nil, list_filter_filter, <- app_assoc. cbn [app].
    f_equal. apply list_filter_iff. intros x.
    cbn [fmap list_fmap]. rewrite not_elem_of_cons. tauto.
Qed.

Lemma select_fold_insert {R : Type} (key : R → string) (cond : R → bool) (rows T : list R) :
  NoDup (key <$> rows) →
  Forall (fun r => cond r = false) T →
  select cond (fold_left (fun T r => insert_or_replace key r T) rows T)
  = select cond rows.
Proof.
  intros Hnd HT. rewrite fold_insert_or_replace by done.
  rewrite select_app, select_none; [done|]. by apply filter_keeps_Forall.
Qed.

Lemma save_progress_rows_fold clk u oid tp db n :
  fold_left (save_progress_row clk u oid) tp (db, n)
  = (with_progress db
       (fold_left (fun T r => insert_or_replace tr_progress_id r T)
          (progress_rows clk n u oid tp) (tbl_topic_progress db)),
     length tp + n).
Proof.
  revert db n. induction tp as [|kv tp IH]; intros db n;
    cbn [fold_left progress_rows length].
  - by destruct db.
  - unfold save_progress_row at 2. cbn [fst snd]. rewrite IH. tables.
    f_equal. lia.
Qed.

Lemma save_quiz_rows_fold clk u oid qz db n s' :
  for_each (save_quiz_rows clk u oid) (db, n) qz = Some s' →
  s' = (with_results
          (with_quizzes db
             (fold_left (fun T r => insert_or_replace qr_quiz_id r T)
                (quiz_rows clk n u oid qz) (tbl_quizzes db)))
          (fold_left (fun T r => insert_or_replace rr_result_id r T)
             (result_rows clk n u qz) (tbl_quiz_results db)),
        quizzes_readings qz + n).
Proof.
  revert db n. induction qz as [|kv qz IH]; intros db n;
    cbn [for_each quiz_rows result_rows quizzes_readings fold_left].
  - intros [= <-]. by destruct db.
  - destruct (save_quiz_rows clk u oid (db, n) kv) as [s1|] eqn:E;
      cbn [mbind option_bind]; [|done].
    unfold save_quiz_rows in E. cbn [fst snd] in E.
    unfold encoded_questions, quiz_readings.
    destruct (json_questions _) as [qs|]; cbn [mbind option_bind] in E; [|done].
    destruct (qd_results kv.2) as [res|]; injection E as <-;
      cbn [get_or default from_option id];
      cbn [Nat.add];
      intros H; apply IH in H; subst s'; cbn [fold_left]; tables; f_equal; lia.
Qed.


Lemma for_each_encodable clk u oid qz s s' :
  for_each (save_quiz_rows clk u oid) s qz = Some s' → Forall encodable qz.
Proof.
  revert s. induction qz as [|kv qz IH]; intros s; cbn [for_each]; [constructor|].
  destruct (save_quiz_rows clk u oid s kv) as [s1|] eqn:E; cbn [mbind option_bind]; [|done].
  intros H. constructor; [|by eapply IH].
  unfold encodable. unfold save_quiz_rows in E.
  destruct (json_questions _); [by eexists | done].
Qed.

Lemma save_objective_rows_written clk u db n kv s' :
  save_objective_rows clk u (db, n) kv = Some s' →
  s' = (objective_written clk u db n kv, objective_readings kv.2 + n).
Proof.
  unfold save_objective_rows, objective_written, objective_readings, plan_readings.
  cbn [fst snd].
  destruct (od_study_plan kv.2) as [plan|], (od_topic_progress kv.2) as [tp|],
    (od_quizzes kv.2) as [qz|];
    cbn [get_or default from_option id fold_left progress_rows quiz_rows result_rows
         length quizzes_readings Nat.add];
    rewrite ?save_progress_rows_fold; tables; intros H;
    try (apply save_quiz_rows_fold in H); try (injection H as <-); subst; tables;
    f_equal; first [reflexivity | lia].
Qed.


Lemma save_objective_rows_encodable clk u s kv s' :
  save_objective_rows clk u s kv = Some s' →
  Forall encodable (get_or (od_quizzes kv.2) []).
Proof.
  unfold save_objective_rows.
  destruct (od_quizzes kv.2) as [qz|]; [|constructor].
  apply for_each_encodable.
Qed.

(** ** Dictionaries built from rows *)

Lemma fold_left_fmap {A B C : Type} (f : C → B → C) (g : A → B) (l : list A) (c : C) :
  fold_left f (g <$> l) c = fold_left (fun c a => f c (g a)) l c.
Proof. revert c. induction l as [|a l IH]; intros c; cbn; [done|]. apply IH. Qed.







Lemma pydict_of_pairs_NoDup {V : Type} (l : list (string * V)) :
  NoDup l.*1 → PyDict.of_pairs l = l.
Proof. intros H. by apply (pydict_fold_pairs_NoDup l []). Qed.





(** ** The most recent objective is the one saved last *)


(** ** A save on the relational backend, and the load that follows *)

Lemma save_to_sqlite_eq st clk u data w db :
  dbs w !! db_path st = Some db →
  _save_to_sqlite st clk u data w
  = match match ud_learning_objectives data with
          | None => Some (user_ensured clk u db)
          | Some los => for_each (save_objective_rows clk u) (user_ensured clk u db) los
          end with
    | Some s' => (true, mkWorld (files w) (<[db_path st := s'.1]> (dbs w)) (dirs w))
    | None => (false, w)
    end.
Proof. intros H. unfold _save_to_sqlite, user_ensured. by rewrite H. Qed.

Lemma user_ensured_tables clk u db :
  tbl_learning_objectives (user_ensured clk u db).1 = tbl_learning_objectives db
  ∧ tbl_study_plans (user_ensured clk u db).1 = tbl_study_plans db
  ∧ tbl_topic_progress (user_ensured clk u db).1 = tbl_topic_progress db
  ∧ tbl_quizzes (user_ensured clk u db).1 = tbl_quizzes db
  ∧ tbl_quiz_results (user_ensured clk u db).1 = tbl_quiz_results db
  ∧ ((user_ensured clk u db).2 ≤ 1)%nat
  ∧ is_Some (fetchone (select (fun r => String.eqb (ur_user_id r) u)
                         (tbl_users (user_ensured clk u db).1))).
Proof.
  unfold user_ensured.
  destruct (fetchone (select _ (tbl_users db))) as [r|] eqn:E; cbn [fst snd]; tables.
  - do 5 (split; [done|]). split; [lia|]. rewrite E. by eexists.
  - do 5 (split; [done|]). split; [lia|].
    rewrite select_app. unfold fetchone in *.
    destruct (select _ (tbl_users db)); [|done].
    cbn. rewrite String.eqb_refl. by eexists.
Qed.

Lemma load_from_sqlite_objectives st u w db :
  dbs w !! db_path st = Some db →
  is_Some (fetchone (select (fun r => String.eqb (ur_user_id r) u) (tbl_users db))) →
  ud_learning_objectives (_load_from_sqlite st u w)
  = Some (PyDict.of_pairs
            (objective_pair db u
               <$> select (fun r => String.eqb (or_user_id r) u)
                     (tbl_learning_objectives db))).
Proof.
  intros Hdb [user Huser]. unfold _load_from_sqlite. rewrite Hdb, Huser.
  cbn [ud_learning_objectives]. f_equal. unfold PyDict.of_pairs.
  by rewrite fold_left_fmap.
Qed.

Lemma load_objective_eq db u obj :
  load_objective db u obj
  = mkObjectiveDoc (Some (or_title obj)) (Some (or_description obj))
      (Some (or_created_at obj)) (Some (or_completed_at obj))
      (plan_doc <$> fetchone (select (fun r => String.eqb (pr_objective_id r)
                                                 (or_objective_id obj))
                                (tbl_study_plans db)))
      (Some (PyDict.of_pairs
               (progress_pair
                  <$> select (fun r => String.eqb (tr_user_id r) u
                                       && String.eqb (tr_objective_id r)
                                            (or_objective_id obj))
                        (tbl_topic_progress db))))
      (Some (PyDict.of_pairs
               (quiz_pair db
                  <$> select (fun r => String.eqb (qr_user_id r) u
                                       && String.eqb (qr_objective_id r)
                                            (or_objective_id obj))
                        (tbl_quizzes db)))).
Proof.
  unfold load_objective, PyDict.of_pairs. rewrite !fold_left_fmap.
  by destruct (fetchone (select _ (tbl_study_plans db))).
Qed.

Lemma progress_pair_rows clk n u oid tp :
  progress_pair <$> progress_rows clk n u oid tp = stored_topics clk n tp.
Proof.
  revert n. induction tp as [|kv tp IH]; intros n; cbn; [done|]. by rewrite IH.
Qed.

Lemma stored_topics_keys clk n tp : (stored_topics clk n tp).*1 = tp.*1.
Proof. revert n. induction tp as [|kv tp IH]; intros n; cbn; [done|]. by rewrite IH. Qed.


Lemma progress_rows_ids clk n u oid tp :
  tr_progress_id <$> progress_rows clk n u oid tp
  = (fun t => u ++ "_" ++ oid ++ "_" ++ t) <$> tp.*1.
Proof.
  revert n. induction tp as [|kv tp IH]; intros n; cbn; [done|]. by rewrite IH.
Qed.


Lemma progress_rows_selected clk n u oid tp :
  select (fun r => String.eqb (tr_user_id r) u && String.eqb (tr_objective_id r) oid)
    (progress_rows clk n u oid tp)
  = progress_rows clk n u oid tp.
Proof.
  apply select_all. revert n. induction tp as [|kv tp IH]; intros n; cbn; constructor.
  - cbn. by rewrite !String.eqb_refl.
  - apply IH.
Qed.



Lemma plans_keyed_select oid (P : list PlanRow) :
  Forall (fun r => pr_plan_id r = pr_objective_id r ++ "_plan") P →
  select (fun r => String.eqb (pr_objective_id r) oid)
    (filter (fun r => pr_plan_id r ≠ oid ++ "_plan") P) = [].
Proof.
  intros H. apply select_none. rewrite Forall_forall in *. intros r Hr.
  apply list_elem_of_filter in Hr as [Hne Hr]. apply String.eqb_neq.
  intros E. apply Hne. rewrite (H r Hr). by rewrite E.
Qed.

(** The plan of the objective that is loaded after it was saved with a
    plan, in a database whose plans are keyed by their objective. *)
Lemma loaded_plan clk u db n oid o plan :
  plans_keyed db →
  od_study_plan o = Some plan →
  od_study_plan
    (load_objective (objective_written clk u db n (oid, o)) u
       (objective_row (iso_reading clk n) u (oid, o)))
  = Some (stored_plan (iso_reading clk (S n)) (iso_reading clk (S (S n))) plan).
Proof.
  intros Hk Hp. rewrite load_objective_eq. cbn [od_study_plan].
  unfold objective_written. tables. cbn [fst snd objective_row or_objective_id].
  rewrite Hp. unfold insert_or_replace. rewrite select_app.
  cbn [plan_row pr_plan_id].
  rewrite plans_keyed_select by exact Hk.
  cbn. by rewrite String.eqb_refl.
Qed.


(** ** What [save_progress] writes, on either backend *)


Lemma topic_progress_data_NoDup c : NoDup (topic_progress_data c).*1.
Proof.
  unfold topic_progress_data.
  apply (pydict_fold_set_NoDup
           (fun t => mkProgressDoc (Some (get_or (mastery_levels c !! t) 0%float))
                       (Some (str_in t (completed_topics c))) None)).
  constructor.
Qed.








(** The same on the flat-file backend, for a level that is a negative
    zero: the file keeps the sign, the database does not. *)
Example mastery_roundtrip_zero :
  (let saved :=
     update_mastery_level Sample.clock Sample.uuid Sample.started "Vectors" (-0)%float true
       Sample.world_before in
   let fresh := TutorContext_init "/home/u/.ai_tutor" "alice" (Some "/data") false saved.2 in
   mastery_levels (load_progress fresh.1 fresh.2).2 !! "Vectors" = Some (-0)%float)
  ∧ (let saved :=
       update_mastery_level Sample.clock Sample.uuid Sample.sql_started "Vectors" (-0)%float
         true Sample.sql_world_before in
     let fresh := TutorContext_init "/home/u/.ai_tutor" "alice" (Some "/data") true saved.2 in
     mastery_levels (load_progress fresh.1 fresh.2).2 !! "Vectors" = Some 0%float).
Proof. split; vm_compute; reflexivity. Qed.


(** ** [save_study_plan] *)

(** ** [save_study_plan] *)




(** ** The plans of a database are keyed by their objective

    The condition [plans_keyed] holds of every database that the store
    makes and writes: of the empty one, and after a save if before. *)

Lemma plans_keyed_empty : plans_keyed empty_db.
Proof. constructor. Qed.

Lemma save_objective_rows_plans_keyed clk u s kv s' :
  plans_keyed s.1 → save_objective_rows clk u s kv = Some s' → plans_keyed s'.1.
Proof.
  intros Hk. unfold save_objective_rows.
  set (s1 := (with_objectives s.1 _, S s.2)).
  set (s2 := match od_study_plan kv.2 with None => s1 | Some _ => _ end).
  set (s3 := match od_topic_progress kv.2 with None => s2 | Some _ => _ end).
  assert (K2 : plans_keyed s2.1).
  { subst s2 s1. destruct (od_study_plan kv.2) as [plan|]; [|done].
    unfold plans_keyed, insert_or_replace. cbn [fst]. tables.
    apply Forall_app. split; [by apply filter_keeps_Forall|].
    by constructor. }
  assert (K3 : plans_keyed s3.1).
  { subst s3. destruct (od_topic_progress kv.2) as [tp|]; [|done].
    apply (fold_left_invariant (fun d => plans_keyed d.1)); [|done].
    intros s0 a H. unfold save_progress_row, plans_keyed. cbn [fst]. tables. exact H. }
  destruct (od_quizzes kv.2) as [qz|]; [|by intros [= <-]].
  apply (for_each_invariant (fun d => plans_keyed d.1)); [|done].
  intros s0 a s0' H. unfold save_quiz_rows.
  destruct (json_questions _) as [qs|]; cbn [mbind option_bind]; [|done].
  destruct (qd_results a.2) as [res|]; intros [= <-]; unfold plans_keyed; cbn [fst];
    tables; exact H.
Qed.

Lemma save_keeps_plans_keyed st clk u data w :
  on_database st w plans_keyed →
  on_database st (save_user_progress st clk u data w).2 plans_keyed.
Proof.
  intros Hk Hsq db'. unfold save_user_progress. rewrite Hsq.
  destruct (dbs w !! db_path st) as [db|] eqn:Hdb.
  - rewrite (save_to_sqlite_eq st clk u data w db Hdb).
    assert (K0 : plans_keyed (user_ensured clk u db).1).
    { destruct (user_ensured_tables clk u db) as (_ & EP & _).
      unfold plans_keyed. rewrite EP. by apply (Hk Hsq db). }
    destruct (ud_learning_objectives data) as [los|].
    + destruct (for_each _ _ los) as [s'|] eqn:E; cbn [snd dbs].
      * rewrite lookup_insert_eq. intros [= <-].
        by apply (for_each_invariant (fun d => plans_keyed d.1) _ _ _ _
                    (save_objective_rows_plans_keyed clk u) K0 E).
      * rewrite Hdb. intros [= <-]. by apply (Hk Hsq).
    + cbn [snd dbs]. rewrite lookup_insert_eq. by intros [= <-].
  - unfold _save_to_sqlite. rewrite Hdb. cbn [snd]. by rewrite Hdb.
Qed.

(** ** Loading a record whose plan is incomplete *)

Lemma plan_of_doc_missing plan :
  pd_topics plan = None ∨ pd_learning_path plan = None
  ∨ pd_estimated_time plan = None ∨ pd_prerequisites plan = None →
  plan_of_doc plan = None.
Proof.
  unfold plan_of_doc.
  intros [->|[->|[->| ->]]];
    destruct (pd_topics plan), (pd_learning_path plan), (pd_estimated_time plan),
             (pd_prerequisites plan); done.
Qed.

(** C4, as the code has it. When the plan of the most recent objective
    lacks one of its four required fields, [load_progress] returns [False]
    with the study plan, the mastery levels, the completed topics and the
    quiz results of the session as they were; the objective id and the
    learning objective have already been set from the record. When the
    session had no plan and the stored title is not empty,
    [complete_learning_objective] then starts from the default plan of four
    topics. *)
Theorem load_progress_incomplete_plan c w st los oid o plan :
  _progress_store c = Some st →
  ud_learning_objectives (load_user_progress st (user_id c) w) = Some los →
  hd_error (sorted_desc los) = Some (oid, o) →
  od_study_plan o = Some plan →
  pd_topics plan = None ∨ pd_learning_path plan = None
  ∨ pd_estimated_time plan = None ∨ pd_prerequisites plan = None →
  let c' := (load_progress c w).2 in
  (load_progress c w).1 = false
  ∧ c' = with_learning_objective (with_objective_id c (Some oid))
           (get_or (od_title o) (Some ""))
  ∧ study_plan c' = study_plan c
  ∧ mastery_levels c' = mastery_levels c
  ∧ completed_topics c' = completed_topics c
  ∧ quiz_results c' = quiz_results c
  ∧ objective_id c' = Some oid
  ∧ learning_objective c' = get_or (od_title o) (Some "")
  ∧ (study_plan c = None →
     truthy (get_or (od_title o) (Some "")) = true →
     ∃ c'', prepare_learning_session c' = Some c''
            ∧ study_plan c'' = Some (create_default_study_plan c').2
            ∧ (topics <$> study_plan c'')
              = Some ["Introduction"; "Key Concepts"; "Applications"; "Advanced Topics"]
            ∧ (learning_path <$> study_plan c'')
              = Some ["Introduction"; "Key Concepts"; "Applications"; "Advanced Topics"]).
Proof.
  intros Hst Hlos Hhd Hplan Hmissing c'. subst c'.
  rewrite (load_progress_selected c w st los oid o Hst Hlos Hhd).
  cbv zeta. rewrite Hplan, (plan_of_doc_missing plan Hmissing). cbn [fst snd].
  repeat (split; [reflexivity|]).
  intros Hnone Htitle. unfold prepare_learning_session.
  cbn [learning_objective with_learning_objective with_objective_id].
  rewrite Htitle. cbn [negb].
  cbn [study_plan with_learning_objective with_objective_id]. rewrite Hnone.
  eexists. split; [reflexivity|]. done.
Qed.

Lemma load_progress_incomplete_plan_witness :
  let c' := (load_progress Sample.fresh.1 Sample.world_broken).2 in
  (load_progress Sample.fresh.1 Sample.world_broken).1 = false
  ∧ c' = with_learning_objective (with_objective_id Sample.fresh.1 (Some "obj-7"))
           (get_or (od_title Sample.broken_objective) (Some ""))
  ∧ study_plan c' = study_plan Sample.fresh.1
  ∧ mastery_levels c' = mastery_levels Sample.fresh.1
  ∧ completed_topics c' = completed_topics Sample.fresh.1
  ∧ quiz_results c' = quiz_results Sample.fresh.1
  ∧ objective_id c' = Some "obj-7"
  ∧ learning_objective c' = get_or (od_title Sample.broken_objective) (Some "")
  ∧ (study_plan Sample.fresh.1 = None →
     truthy (get_or (od_title Sample.broken_objective) (Some "")) = true →
     ∃ c'', prepare_learning_session c' = Some c''
            ∧ study_plan c'' = Some (create_default_study_plan c').2
            ∧ (topics <$> study_plan c'')
              = Some ["Introduction"; "Key Concepts"; "Applications"; "Advanced Topics"]
            ∧ (learning_path <$> study_plan c'')
              = Some ["Introduction"; "Key Concepts"; "Applications"; "Advanced Topics"]).
Proof.
  apply (load_progress_incomplete_plan Sample.fresh.1 Sample.world_broken Sample.store
           [("obj-7", Sample.broken_objective)] "obj-7" Sample.broken_objective
           (mkPlanDoc (Some ["Limits"; "Derivatives"]) (Some ["Limits"; "Derivatives"])
              None (Some (Some ∅)) None None)).
  - reflexivity.
  - vm_compute. reflexivity.
  - reflexivity.
  - reflexivity.
  - right. right. left. reflexivity.
Defined.

(** C4 as stated fails: the plan of the stored objective has no
    [estimated_time], the load reports failure, and the session is no
    longer as it was: it has the objective id and the learning objective of
    the record. *)
Lemma load_progress_counterexample :
  (load_progress Sample.fresh.1 Sample.world_broken).1 = false
  ∧ (load_progress Sample.fresh.1 Sample.world_broken).2 ≠ Sample.fresh.1
  ∧ objective_id Sample.fresh.1 = None
  ∧ objective_id (load_progress Sample.fresh.1 Sample.world_broken).2 = Some "obj-7"
  ∧ learning_objective Sample.fresh.1 = None
  ∧ learning_objective (load_progress Sample.fresh.1 Sample.world_broken).2 = Some "Calculus".
Proof.
  split; [vm_compute; reflexivity|]. split.
  - intros E. apply (f_equal objective_id) in E. vm_compute in E. discriminate.
  - vm_compute. repeat split; reflexivity.
Qed.

(** ** Two objectives on the relational backend *)

Lemma objective_written_eq clk u db n oid o :
  objective_written clk u db n (oid, o)
  = mkDb (tbl_users db)
      (fold_left (fun T r => insert_or_replace or_objective_id r T)
         [objective_row (iso_reading clk n) u (oid, o)] (tbl_learning_objectives db))
      (fold_left (fun T r => insert_or_replace pr_plan_id r T)
         (plan_rows clk n oid o) (tbl_study_plans db))
      (fold_left (fun T r => insert_or_replace tr_progress_id r T)
         (progress_rows clk (plan_readings o + S n) u oid (get_or (od_topic_progress o) []))
         (tbl_topic_progress db))
      (fold_left (fun T r => insert_or_replace qr_quiz_id r T)
         (quiz_rows clk (length (get_or (od_topic_progress o) []) + (plan_readings o + S n))
            u oid (get_or (od_quizzes o) []))
         (tbl_quizzes db))
      (fold_left (fun T r => insert_or_replace rr_result_id r T)
         (result_rows clk (length (get_or (od_topic_progress o) []) + (plan_readings o + S n))
            u (get_or (od_quizzes o) []))
         (tbl_quiz_results db)).
Proof.
  unfold objective_written, plan_rows. cbn [fst snd].
  by destruct (od_study_plan o).
Qed.

(** What a selection finds after the rows of two objectives were written
    to a table that had no row for it. *)
Lemma select_written {R : Type} (key : R → string) (cond : R → bool)
    (rows_a rows_b T : list R) :
  NoDup (key <$> (rows_a ++ rows_b)%list) →
  Forall (fun r => cond r = false) T →
  select cond
    (fold_left (fun T r => insert_or_replace key r T) rows_b
       (fold_left (fun T r => insert_or_replace key r T) rows_a T))
  = (select cond rows_a ++ select cond rows_b)%list.
Proof.
  intros Hnd HT. rewrite <- fold_left_app, select_fold_insert by done.
  apply select_app.
Qed.

Lemma progress_rows_other clk n u oid oid' tp :
  oid ≠ oid' →
  select (fun r => String.eqb (tr_user_id r) u && String.eqb (tr_objective_id r) oid')
    (progress_rows clk n u oid tp) = [].
Proof.
  intros Hne. apply select_none.
  revert n. induction tp as [|kv tp IH]; intros n; cbn; constructor; [|apply IH].
  cbn. rewrite (proj2 (String.eqb_neq oid oid')) by done. apply andb_false_r.
Qed.

Lemma quiz_rows_ids clk n u oid qz : qr_quiz_id <$> quiz_rows clk n u oid qz = qz.*1.
Proof. revert n. induction qz as [|kv qz IH]; intros n; cbn; [done|]. by rewrite IH. Qed.

Lemma quiz_rows_selected clk n u oid qz :
  select (fun r => String.eqb (qr_user_id r) u && String.eqb (qr_objective_id r) oid)
    (quiz_rows clk n u oid qz)
  = quiz_rows clk n u oid qz.
Proof.
  apply select_all. revert n. induction qz as [|kv qz IH]; intros n; cbn; constructor.
  - cbn. by rewrite !String.eqb_refl.
  - apply IH.
Qed.

Lemma quiz_rows_other clk n u oid oid' qz :
  oid ≠ oid' →
  select (fun r => String.eqb (qr_user_id r) u && String.eqb (qr_objective_id r) oid')
    (quiz_rows clk n u oid qz) = [].
Proof.
  intros Hne. apply select_none.
  revert n. induction qz as [|kv qz IH]; intros n; cbn; constructor; [|apply IH].
  cbn. rewrite (proj2 (String.eqb_neq oid oid')) by done. apply andb_false_r.
Qed.

Lemma plan_rows_selected clk n oid o :
  select (fun r => String.eqb (pr_objective_id r) oid) (plan_rows clk n oid o)
  = plan_rows clk n oid o.
Proof.
  unfold plan_rows. destruct (od_study_plan o); [|done]. cbn. by rewrite String.eqb_refl.
Qed.

Lemma plan_rows_other clk n oid oid' o :
  oid ≠ oid' →
  select (fun r => String.eqb (pr_objective_id r) oid') (plan_rows clk n oid o) = [].
Proof.
  intros Hne. unfold plan_rows. destruct (od_study_plan o); [|done]. cbn.
  by rewrite (proj2 (String.eqb_neq oid oid')).
Qed.

Lemma plan_rows_NoDup clk n n' a b o1 o2 :
  a ≠ b → NoDup (pr_plan_id <$> (plan_rows clk n a o1 ++ plan_rows clk n' b o2)%list).
Proof.
  intros Hne. unfold plan_rows.
  destruct (od_study_plan o1), (od_study_plan o2); cbn; repeat constructor;
    try apply not_elem_of_nil.
  rewrite list_elem_of_singleton. intros E. by apply append_inj_l in E.
Qed.

(** The rows of [quiz_results] written for the quizzes of an objective. *)
Lemma result_rows_in clk n u qz r :
  r ∈ result_rows clk n u qz →
  rr_quiz_id r ∈ qz.*1 ∧ rr_result_id r = (rr_quiz_id r ++ "_result")%string.
Proof.
  revert n. induction qz as [|kv qz IH]; intros n; cbn [result_rows].
  - intros H. by apply elem_of_nil in H.
  - cbn [fmap list_fmap]. destruct (qd_results kv.2) as [res|].
    + intros [->|H]%elem_of_cons; [cbn; split; [left | done]|].
      destruct (IH _ H). split; [by right | done].
    + intros H. destruct (IH _ H). split; [by right | done].
Qed.

Lemma result_rows_none clk n u qz k :
  k ∉ qz.*1 →
  select (fun r => String.eqb (rr_quiz_id r) k) (result_rows clk n u qz) = [].
Proof.
  intros Hk. apply select_none, Forall_forall. intros r Hr.
  apply String.eqb_neq. intros E. apply Hk. rewrite <- E.
  by apply (result_rows_in clk n u qz r).
Qed.

Lemma result_rows_NoDup clk n u qz :
  NoDup qz.*1 → NoDup (rr_result_id <$> result_rows clk n u qz).
Proof.
  revert n. induction qz as [|kv qz IH]; intros n; cbn [result_rows fmap list_fmap];
    [constructor|].
  rewrite NoDup_cons. intros [Hk Hnd].
  destruct (qd_results kv.2) as [res|]; [|by apply IH].
  cbn [fmap list_fmap]. apply NoDup_cons. split; [|by apply IH].
  intros Hin. apply list_elem_of_fmap in Hin as (r & Hr & Hin).
  apply result_rows_in in Hin as [Hin Hid]. cbn in Hr. rewrite Hid in Hr.
  apply append_inj_l in Hr. apply Hk. by rewrite Hr.
Qed.

Lemma result_rows_app_NoDup clk n n' u qz qz' :
  NoDup (qz.*1 ++ qz'.*1)%list →
  NoDup (rr_result_id <$> (result_rows clk n u qz ++ result_rows clk n' u qz')%list).
Proof.
  intros H. apply NoDup_app in H as (H1 & Hdis & H2).
  rewrite fmap_app. apply NoDup_app. split; [by apply result_rows_NoDup|].
  split; [|by apply result_rows_NoDup].
  intros x Hx Hx'.
  apply list_elem_of_fmap in Hx as (r & -> & Hr).
  apply list_elem_of_fmap in Hx' as (r' & E & Hr').
  apply result_rows_in in Hr as [Hr Hid]. apply result_rows_in in Hr' as [Hr' Hid'].
  rewrite Hid, Hid' in E. apply append_inj_l in E.
  apply (Hdis (rr_quiz_id r)); [done | by rewrite E].
Qed.

Lemma result_rows_app clk n u pre rest :
  result_rows clk n u (pre ++ rest)%list
  = (result_rows clk n u pre ++ result_rows clk (quizzes_readings pre + n) u rest)%list.
Proof.
  revert n. induction pre as [|kv pre IH]; intros n; cbn [app result_rows quizzes_readings];
    [done|].
  replace (quiz_readings kv.2 + quizzes_readings pre + n)
    with (quizzes_readings pre + (quiz_readings kv.2 + n)) by lia.
  destruct (qd_results kv.2); rewrite IH; done.
Qed.

Lemma result_rows_selected clk n u pre kv suf :
  kv.1 ∉ pre.*1 → kv.1 ∉ suf.*1 →
  select (fun r => String.eqb (rr_quiz_id r) kv.1) (result_rows clk n u (pre ++ kv :: suf)%list)
  = match qd_results kv.2 with
    | Some res => [result_row (iso_reading clk (S (quizzes_readings pre + n))) u kv.1 res]
    | None => []
    end.
Proof.
  intros Hpre Hsuf. rewrite result_rows_app, select_app, result_rows_none by done.
  cbn [app result_rows].
  destruct (qd_results kv.2) as [res|].
  - cbn [select List.filter result_row rr_quiz_id]. rewrite String.eqb_refl.
    fold (select (fun r => String.eqb (rr_quiz_id r) kv.1)
            (result_rows clk (quiz_readings kv.2 + (quizzes_readings pre + n)) u suf)).
    by rewrite result_rows_none.
  - by rewrite result_rows_none.
Qed.

(** The quizzes that are loaded from the rows written for the quizzes of
    an objective, when each quiz finds its own result. *)
Lemma quiz_pairs_stored db clk u oid qz n :
  (∀ pre kv suf, qz = (pre ++ kv :: suf)%list →
     select (fun r => String.eqb (rr_quiz_id r) kv.1) (tbl_quiz_results db)
     = match qd_results kv.2 with
       | Some res => [result_row (iso_reading clk (S (quizzes_readings pre + n))) u kv.1 res]
       | None => []
       end) →
  quiz_pair db <$> quiz_rows clk n u oid qz = stored_quizzes clk n qz.
Proof.
  revert n. induction qz as [|kv qz IH]; intros n H; [done|].
  cbn [quiz_rows stored_quizzes fmap list_fmap]. f_equal.
  - unfold quiz_pair, load_quiz, stored_quiz.
    cbn [quiz_row qr_quiz_id qr_topic qr_questions qr_created_at].
    rewrite (H [] kv qz eq_refl). cbn [quizzes_readings Nat.add].
    by destruct (qd_results kv.2).
  - apply IH. intros pre kv' suf E. rewrite (H (kv :: pre) kv' suf) by by rewrite E.
    cbn [quizzes_readings].
    by replace (quiz_readings kv.2 + quizzes_readings pre + n)
         with (quizzes_readings pre + (quiz_readings kv.2 + n)) by lia.
Qed.

Lemma stored_quizzes_keys clk n qz : (stored_quizzes clk n qz).*1 = qz.*1.
Proof. revert n. induction qz as [|kv qz IH]; intros n; cbn; [done|]. by rewrite IH. Qed.

(** The objective that is loaded from the row of an objective, in a
    database in which the selections find the rows written for it and no
    others. *)
Lemma load_objective_stored clk u db n oid o :
  select (fun r => String.eqb (pr_objective_id r) oid) (tbl_study_plans db)
  = plan_rows clk n oid o →
  select (fun r => String.eqb (tr_user_id r) u && String.eqb (tr_objective_id r) oid)
    (tbl_topic_progress db)
  = progress_rows clk (plan_readings o + S n) u oid (get_or (od_topic_progress o) []) →
  select (fun r => String.eqb (qr_user_id r) u && String.eqb (qr_objective_id r) oid)
    (tbl_quizzes db)
  = quiz_rows clk (length (get_or (od_topic_progress o) []) + (plan_readings o + S n))
      u oid (get_or (od_quizzes o) []) →
  (∀ pre kv suf, get_or (od_quizzes o) [] = (pre ++ kv :: suf)%list →
     select (fun r => String.eqb (rr_quiz_id r) kv.1) (tbl_quiz_results db)
     = match qd_results kv.2 with
       | Some res =>
           [result_row
              (iso_reading clk
                 (S (quizzes_readings pre
                     + (length (get_or (od_topic_progress o) []) + (plan_readings o + S n)))))
              u kv.1 res]
       | None => []
       end) →
  NoDup (get_or (od_topic_progress o) []).*1 →
  NoDup (get_or (od_quizzes o) []).*1 →
  load_objective db u (objective_row (iso_reading clk n) u (oid, o))
  = stored_objective clk n o.
Proof.
  intros Hplan Hprog Hquiz Hres Hnd1 Hnd2.
  rewrite load_objective_eq. unfold stored_objective.
  cbn [objective_row or_objective_id or_title or_description or_created_at
       or_completed_at fst snd].
  rewrite Hplan, Hprog, Hquiz, progress_pair_rows.
  rewrite (quiz_pairs_stored db clk u oid _ _ Hres).
  rewrite !pydict_of_pairs_NoDup
    by (by rewrite ?stored_topics_keys, ?stored_quizzes_keys).
  f_equal. unfold plan_rows. by destruct (od_study_plan o).
Qed.

(** The keys of the rows that a save of two objectives writes. *)
Lemma progress_ids_two clk n n' u a o1 b o2 :
  tr_progress_id
    <$> (progress_rows clk n u a (get_or (od_topic_progress o1) [])
         ++ progress_rows clk n' u b (get_or (od_topic_progress o2) []))%list
  = progress_ids u [(a, o1); (b, o2)].
Proof.
  rewrite fmap_app, !progress_rows_ids. unfold progress_ids. cbn.
  by rewrite app_nil_r.
Qed.

Lemma quiz_ids_two clk n n' u a o1 b o2 :
  qr_quiz_id
    <$> (quiz_rows clk n u a (get_or (od_quizzes o1) [])
         ++ quiz_rows clk n' u b (get_or (od_quizzes o2) []))%list
  = quiz_ids [(a, o1); (b, o2)].
Proof.
  rewrite fmap_app, !quiz_rows_ids. unfold quiz_ids. cbn. by rewrite app_nil_r.
Qed.

Lemma quiz_ids_two_eq a o1 b o2 :
  quiz_ids [(a, o1); (b, o2)]
  = ((get_or (od_quizzes o1) []).*1 ++ (get_or (od_quizzes o2) []).*1)%list.
Proof. unfold quiz_ids. cbn. by rewrite app_nil_r. Qed.

Lemma split_keys_NoDup {V : Type} (l pre suf : list (string * V)) kv :
  NoDup l.*1 → l = (pre ++ kv :: suf)%list → (kv.1 ∉ pre.*1) ∧ (kv.1 ∉ suf.*1).
Proof.
  intros H ->. rewrite fmap_app, fmap_cons in H.
  apply NoDup_app in H as (_ & Hpre & H). apply NoDup_cons in H as [Hsuf _].
  split; [|done]. intros Hin. apply (Hpre _ Hin). by left.
Qed.

(** The database after the rows of two objectives [a] and [b] of the user
    were written, the second from the reading at which the first ended:
    the user has the two objectives, in this order, and each is loaded as
    [stored_objective] describes. *)
Lemma twice_written_loads clk u db n a o1 b o2 :
  a ≠ b →
  no_rows_for u [a; b] (quiz_ids [(a, o1); (b, o2)]) db →
  NoDup (progress_ids u [(a, o1); (b, o2)]) →
  NoDup (quiz_ids [(a, o1); (b, o2)]) →
  let db2 := objective_written clk u (objective_written clk u db n (a, o1))
               (objective_readings o1 + n) (b, o2) in
  select (fun r => String.eqb (or_user_id r) u) (tbl_learning_objectives db2)
  = [objective_row (iso_reading clk n) u (a, o1);
     objective_row (iso_reading clk (objective_readings o1 + n)) u (b, o2)]
  ∧ load_objective db2 u (objective_row (iso_reading clk n) u (a, o1))
    = stored_objective clk n o1
  ∧ load_objective db2 u (objective_row (iso_reading clk (objective_readings o1 + n)) u (b, o2))
    = stored_objective clk (objective_readings o1 + n) o2.
Proof.
  intros Hne (HO & HP & HT & HQ & HR) Hpid Hqid db2.
  set (n1 := objective_readings o1 + n) in *.
  assert (Hba : b ≠ a) by (intros E; by apply Hne).
  assert (Hqz := Hqid). rewrite quiz_ids_two_eq in Hqz.
  apply NoDup_app in Hqz as (Hq1 & Hq12 & Hq2).
  assert (Htp := Hpid). unfold progress_ids in Htp. cbn in Htp. rewrite app_nil_r in Htp.
  apply NoDup_app in Htp as (Ht1 & _ & Ht2).
  apply NoDup_fmap_1 in Ht1, Ht2.
  assert (Hobj : tbl_learning_objectives db2
    = fold_left (fun T r => insert_or_replace or_objective_id r T)
        [objective_row (iso_reading clk n1) u (b, o2)]
        (fold_left (fun T r => insert_or_replace or_objective_id r T)
           [objective_row (iso_reading clk n) u (a, o1)] (tbl_learning_objectives db)))
    by (subst db2; by rewrite !objective_written_eq).
  assert (Hplans : tbl_study_plans db2
    = fold_left (fun T r => insert_or_replace pr_plan_id r T) (plan_rows clk n1 b o2)
        (fold_left (fun T r => insert_or_replace pr_plan_id r T) (plan_rows clk n a o1)
           (tbl_study_plans db)))
    by (subst db2; by rewrite !objective_written_eq).
  assert (Hprog : tbl_topic_progress db2
    = fold_left (fun T r => insert_or_replace tr_progress_id r T)
        (progress_rows clk (plan_readings o2 + S n1) u b (get_or (od_topic_progress o2) []))
        (fold_left (fun T r => insert_or_replace tr_progress_id r T)
           (progress_rows clk (plan_readings o1 + S n) u a (get_or (od_topic_progress o1) []))
           (tbl_topic_progress db)))
    by (subst db2; by rewrite !objective_written_eq).
  assert (Hquiz : tbl_quizzes db2
    = fold_left (fun T r => insert_or_replace qr_quiz_id r T)
        (quiz_rows clk (length (get_or (od_topic_progress o2) []) + (plan_readings o2 + S n1))
           u b (get_or (od_quizzes o2) []))
        (fold_left (fun T r => insert_or_replace qr_quiz_id r T)
           (quiz_rows clk (length (get_or (od_topic_progress o1) []) + (plan_readings o1 + S n))
              u a (get_or (od_quizzes o1) []))
           (tbl_quizzes db)))
    by (subst db2; by rewrite !objective_written_eq).
  assert (Hres : tbl_quiz_results db2
    = fold_left (fun T r => insert_or_replace rr_result_id r T)
        (result_rows clk (length (get_or (od_topic_progress o2) []) + (plan_readings o2 + S n1))
           u (get_or (od_quizzes o2) []))
        (fold_left (fun T r => insert_or_replace rr_result_id r T)
           (result_rows clk (length (get_or (od_topic_progress o1) []) + (plan_readings o1 + S n))
              u (get_or (od_quizzes o1) []))
           (tbl_quiz_results db)))
    by (subst db2; by rewrite !objective_written_eq).
  clearbody db2 n1.
  assert (HP' : ∀ oid, oid ∈ [a; b] →
            Forall (fun r => String.eqb (pr_objective_id r) oid = false) (tbl_study_plans db)).
  { intros oid Hin. eapply Forall_impl; [exact HP|]. intros r Hr.
    apply String.eqb_neq. intros E. apply Hr. by rewrite E. }
  assert (HT' : ∀ oid,
            Forall (fun r => String.eqb (tr_user_id r) u && String.eqb (tr_objective_id r) oid
                             = false) (tbl_topic_progress db)).
  { intros oid. eapply Forall_impl; [exact HT|]. intros r Hr.
    by rewrite (proj2 (String.eqb_neq _ _) Hr). }
  assert (HQ' : ∀ oid,
            Forall (fun r => String.eqb (qr_user_id r) u && String.eqb (qr_objective_id r) oid
                             = false) (tbl_quizzes db)).
  { intros oid. eapply Forall_impl; [exact HQ|]. intros r Hr.
    by rewrite (proj2 (String.eqb_neq _ _) Hr). }
  assert (HR' : ∀ k, k ∈ quiz_ids [(a, o1); (b, o2)] →
            Forall (fun r => String.eqb (rr_quiz_id r) k = false) (tbl_quiz_results db)).
  { intros k Hin. eapply Forall_impl; [exact HR|]. intros r Hr.
    apply String.eqb_neq. intros E. apply Hr. by rewrite E. }
  split; [|split].
  - rewrite Hobj, select_written.
    + cbn. by rewrite !String.eqb_refl.
    + cbn. apply NoDup_cons. split; [by rewrite list_elem_of_singleton|].
      apply NoDup_singleton.
    + eapply Forall_impl; [exact HO|]. intros r Hr. by apply String.eqb_neq.
  - apply load_objective_stored; try done.
    + rewrite Hplans, select_written;
        [| by apply plan_rows_NoDup | apply HP'; by left].
      by rewrite plan_rows_selected, plan_rows_other, app_nil_r.
    + rewrite Hprog, select_written; [| by rewrite progress_ids_two | apply HT'].
      by rewrite progress_rows_selected, progress_rows_other, app_nil_r.
    + rewrite Hquiz, select_written; [| by rewrite quiz_ids_two | apply HQ'].
      by rewrite quiz_rows_selected, quiz_rows_other, app_nil_r.
    + intros pre kv suf E.
      destruct (split_keys_NoDup _ pre suf kv Hq1 E) as [Hpre Hsuf].
      assert (Hin : kv.1 ∈ (get_or (od_quizzes o1) []).*1).
      { rewrite E, fmap_app, fmap_cons. apply elem_of_app. right. by left. }
      rewrite Hres, select_written.
      * rewrite E, result_rows_selected by done.
        rewrite result_rows_none; [by rewrite app_nil_r|].
        intros Hin'. exact (Hq12 kv.1 Hin Hin').
      * apply result_rows_app_NoDup. by rewrite <- (quiz_ids_two_eq a o1 b o2).
      * apply HR'. rewrite quiz_ids_two_eq. apply elem_of_app. by left.
  - apply load_objective_stored; try done.
    + rewrite Hplans, select_written;
        [| by apply plan_rows_NoDup | apply HP'; right; by left].
      by rewrite plan_rows_selected, plan_rows_other.
    + rewrite Hprog, select_written; [| by rewrite progress_ids_two | apply HT'].
      by rewrite progress_rows_selected, progress_rows_other.
    + rewrite Hquiz, select_written; [| by rewrite quiz_ids_two | apply HQ'].
      by rewrite quiz_rows_selected, quiz_rows_other.
    + intros pre kv suf E.
      destruct (split_keys_NoDup _ pre suf kv Hq2 E) as [Hpre Hsuf].
      assert (Hin : kv.1 ∈ (get_or (od_quizzes o2) []).*1).
      { rewrite E, fmap_app, fmap_cons. apply elem_of_app. right. by left. }
      rewrite Hres, select_written.
      * rewrite E, result_rows_selected by done.
        rewrite result_rows_none; [done|].
        intros Hin'. exact (Hq12 kv.1 Hin' Hin).
      * apply result_rows_app_NoDup. by rewrite <- (quiz_ids_two_eq a o1 b o2).
      * apply HR'. rewrite quiz_ids_two_eq. apply elem_of_app. by right.
Qed.

(** On the relational backend, a record of two objectives saved to a
    database that has no row for them. *)
Lemma two_objectives_sqlite st clk u data w db a o1 b o2 :
  use_sqlite st = true →
  dbs w !! db_path st = Some db →
  ud_learning_objectives data = Some [(a, o1); (b, o2)] →
  a ≠ b →
  no_rows_for u [a; b] (quiz_ids [(a, o1); (b, o2)]) db →
  NoDup (progress_ids u [(a, o1); (b, o2)]) →
  NoDup (quiz_ids [(a, o1); (b, o2)]) →
  (save_user_progress st clk u data w).1 = true →
  ud_learning_objectives (load_user_progress st u (save_user_progress st clk u data w).2)
  = Some [(a, stored_objective clk (user_ensured clk u db).2 o1);
          (b, stored_objective clk (objective_readings o1 + (user_ensured clk u db).2) o2)].
Proof.
  intros Hsq Hdb Hlos Hne Hrows Hpid Hqid.
  unfold save_user_progress, load_user_progress. rewrite Hsq.
  rewrite (save_to_sqlite_eq st clk u data w db Hdb), Hlos.
  destruct (user_ensured_tables clk u db) as (EO & EP & ET & EQ & ER & _ & Huser).
  destruct (user_ensured clk u db) as [db0 n] eqn:E0. cbn [fst snd] in *.
  cbn [for_each].
  destruct (save_objective_rows clk u (db0, n) (a, o1)) as [s1|] eqn:E1;
    cbn [mbind option_bind]; [|done].
  apply save_objective_rows_written in E1. subst s1. cbn [snd].
  destruct (save_objective_rows clk u _ (b, o2)) as [s2|] eqn:E2;
    cbn [mbind option_bind]; [|done].
  apply save_objective_rows_written in E2. subst s2. cbn [fst snd]. intros _.
  assert (Hrows0 : no_rows_for u [a; b] (quiz_ids [(a, o1); (b, o2)]) db0).
  { unfold no_rows_for in *. by rewrite EO, EP, ET, EQ, ER. }
  destruct (twice_written_loads clk u db0 n a o1 b o2 Hne Hrows0 Hpid Hqid)
    as (Hsel & Ha & Hb).
  set (db2 := objective_written clk u (objective_written clk u db0 n (a, o1))
                (objective_readings o1 + n) (b, o2)) in *.
  rewrite (load_from_sqlite_objectives st u _ db2).
  - rewrite Hsel. cbn [fmap list_fmap]. unfold objective_pair.
    rewrite Ha, Hb. cbn [objective_row or_objective_id fst].
    rewrite pydict_of_pairs_NoDup; [done|].
    cbn. apply NoDup_cons. split; [by rewrite list_elem_of_singleton|].
    apply NoDup_singleton.
  - cbn [dbs]. by rewrite lookup_insert_eq.
  - subst db2. unfold objective_written. tables. exact Huser.
Qed.

(** ** Two objectives, on either backend *)

Lemma json_two_objectives d id1 o1 id2 o2 text :
  ud_learning_objectives d = Some [(id1, o1); (id2, o2)] →
  json_data d = Some text →
  ∃ o1' o2',
    json_objective o1 = Some o1' ∧ json_objective o2 = Some o2'
    ∧ ud_learning_objectives text = Some [(id1, o1'); (id2, o2')].
Proof.
  intros Hlos Hjson. unfold json_data in Hjson. rewrite Hlos in Hjson.
  cbn in Hjson.
  destruct (json_objective o1) as [o1'|]; cbn in Hjson; [|done].
  destruct (json_objective o2) as [o2'|]; cbn in Hjson; [|done].
  injection Hjson as <-. by exists o1', o2'.
Qed.

(** C6, as the code has it. A record with two learning objectives [a] and
    [b] is saved for a user, and the save succeeds. On the flat-file
    backend, loading the user returns the two objectives, each as JSON
    gives it back. On the relational backend the save adds to what the
    database has; when the database holds no objective, topic or quiz of
    the user, no plan of [a] or [b] and no result of their quizzes, the
    two objectives share no quiz id and no key [user_objective_topic], and
    their levels and scores are numbers, loading the user returns the two
    objectives, each with every key, a key it was saved without having the
    default of the save: for a timestamp, the reading of the clock at
    which its row was written. On
    both backends [load_progress] attaches a session of the user to [b]
    when the [created_at] that was loaded for [b] is later than the one
    loaded for [a], and to [a] otherwise. *)
Theorem two_objectives_roundtrip st clk u data w a o1 b o2 :
  ud_learning_objectives data = Some [(a, o1); (b, o2)] →
  a ≠ b →
  (save_user_progress st clk u data w).1 = true →
  on_database st w (fun db =>
    no_rows_for u [a; b] (quiz_ids [(a, o1); (b, o2)]) db
    ∧ NoDup (progress_ids u [(a, o1); (b, o2)])
    ∧ NoDup (quiz_ids [(a, o1); (b, o2)])
    ∧ reals_storable o1 ∧ reals_storable o2) →
  ∃ o1' o2',
    ud_learning_objectives (load_user_progress st u (save_user_progress st clk u data w).2)
    = Some [(a, o1'); (b, o2')]
    ∧ (if use_sqlite st
       then ∃ db, dbs w !! db_path st = Some db
                  ∧ o1' = stored_objective clk (user_ensured clk u db).2 o1
                  ∧ o2' = stored_objective clk
                            (objective_readings o1 + (user_ensured clk u db).2) o2
       else json_objective o1 = Some o1' ∧ json_objective o2 = Some o2')
    ∧ ∀ c, _progress_store c = Some st → user_id c = u →
        objective_id (load_progress c (save_user_progress st clk u data w).2).2
        = Some (if String.ltb (created_key (a, o1')) (created_key (b, o2')) then b else a).
Proof.
  intros Hlos Hne Hsave Hfresh.
  assert (∃ o1' o2',
            ud_learning_objectives
              (load_user_progress st u (save_user_progress st clk u data w).2)
            = Some [(a, o1'); (b, o2')]
            ∧ (if use_sqlite st
               then ∃ db, dbs w !! db_path st = Some db
                          ∧ o1' = stored_objective clk (user_ensured clk u db).2 o1
                          ∧ o2' = stored_objective clk
                                    (objective_readings o1 + (user_ensured clk u db).2) o2
               else json_objective o1 = Some o1' ∧ json_objective o2 = Some o2'))
    as (o1' & o2' & Hload & Hcontent).
  { destruct (use_sqlite st) eqn:Hsq.
    - destruct (dbs w !! db_path st) as [db|] eqn:Hdb.
      + destruct (Hfresh Hsq db Hdb) as (Hrows & Hpid & Hqid & _).
        eexists _, _. split.
        * by apply (two_objectives_sqlite st clk u data w db a o1 b o2).
        * by exists db.
      + exfalso. revert Hsave. unfold save_user_progress, _save_to_sqlite.
        by rewrite Hsq, Hdb.
    - destruct (load_after_save_json st clk u data w Hsq Hsave) as (text & Htext & Hl).
      eapply json_two_objectives in Htext as (o1' & o2' & Ho1 & Ho2 & Htxt);
        [|exact Hlos].
      exists o1', o2'. by rewrite Hl. }
  exists o1', o2'. split; [done|]. split; [done|].
  intros c Hst <-.
  destruct (String.ltb (created_key (a, o1')) (created_key (b, o2'))) eqn:Hlt.
  - eapply load_progress_objective_id; [done | exact Hload |]. cbn. by rewrite Hlt.
  - eapply load_progress_objective_id; [done | exact Hload |]. cbn. by rewrite Hlt.
Qed.

Lemma two_objectives_roundtrip_witness :
  ∃ o1' o2',
    ud_learning_objectives
      (load_user_progress Sample.sql_store "alice"
         (save_user_progress Sample.sql_store Sample.clock "alice" Sample.quizzed_record
            Sample.sql_world).2)
    = Some [("obj-7", o1'); ("new-2", o2')]
    ∧ (if use_sqlite Sample.sql_store
       then ∃ db, dbs Sample.sql_world !! db_path Sample.sql_store = Some db
                  ∧ o1' = stored_objective Sample.clock
                            (user_ensured Sample.clock "alice" db).2 Sample.quizzed_objective
                  ∧ o2' = stored_objective Sample.clock
                            (objective_readings Sample.quizzed_objective
                             + (user_ensured Sample.clock "alice" db).2)
                            Sample.new_objective
       else json_objective Sample.quizzed_objective = Some o1'
            ∧ json_objective Sample.new_objective = Some o2')
    ∧ ∀ c, _progress_store c = Some Sample.sql_store → user_id c = "alice" →
        objective_id
          (load_progress c
             (save_user_progress Sample.sql_store Sample.clock "alice" Sample.quizzed_record
                Sample.sql_world).2).2
        = Some (if String.ltb (created_key ("obj-7", o1')) (created_key ("new-2", o2'))
                then "new-2" else "obj-7").
Proof.
  apply (two_objectives_roundtrip Sample.sql_store Sample.clock "alice" Sample.quizzed_record
           Sample.sql_world "obj-7" Sample.quizzed_objective "new-2" Sample.new_objective).
  - reflexivity.
  - discriminate.
  - reflexivity.
  - intros _ db Hdb. vm_compute in Hdb. injection Hdb as <-.
    split; [|split; [|split; [|split]]].
    + unfold no_rows_for. simpl. repeat split; constructor.
    + vm_compute. apply NoDup_singleton.
    + vm_compute. apply NoDup_singleton.
    + split; simpl.
      * constructor; [reflexivity | constructor].
      * constructor; [|constructor]. simpl. intros r Hr. injection Hr as <-. reflexivity.
    + split; simpl; constructor.
Defined.

(** What comes back for that record. The objective that was saved without
    a timestamp is filed by the relational backend at the instant of the
    save, and a session is attached to it; the flat-file backend gives it
    back without one, and a session is attached to the other. *)
Example two_objectives_loaded :
  (let w := (save_user_progress Sample.sql_store Sample.clock "alice" Sample.quizzed_record
               Sample.sql_world).2 in
   ud_learning_objectives (load_user_progress Sample.sql_store "alice" w)
   = Some [("obj-7",
            mkObjectiveDoc (Some (Some "Calculus")) (Some (Some "Calculus"))
              (Some "2025-03-01T10:00:00.001002") (Some None)
              (Some (mkPlanDoc (Some ["Limits"]) (Some ["Limits"]) (Some (Some ∅))
                       (Some (Some ∅)) (Some "2025-03-01T10:00:00.001003")
                       (Some "2025-03-01T10:00:00.001004")))
              (Some [("Limits",
                      mkProgressDoc (Some 0.9%float) (Some true)
                        (Some "2025-03-01T10:00:00.001005"))])
              (Some [("alice_Limits_quiz",
                      mkQuizDoc (Some "Limits") (Some (PlainQuestions [])) None
                        (Some "2025-03-01T10:00:00.001006")
                        (Some (mkResultsDoc (Some [(KStr "0", "B")]) (Some 0.9%float)
                                 (Some []) (Some "2025-03-01T10:00:00.001007"))))]));
           ("new-2",
            mkObjectiveDoc (Some (Some "Linear algebra")) (Some (Some "Linear algebra"))
              (Some "2025-02-20T18:05:00") (Some None)
              (Some (mkPlanDoc (Some []) (Some []) (Some (Some ∅)) (Some (Some ∅))
                       (Some "2025-03-01T10:00:00.001009")
                       (Some "2025-03-01T10:00:00.001010")))
              (Some []) (Some []))]
   ∧ objective_id (load_progress Sample.sql_fresh.1 w).2 = Some "obj-7")
  ∧ (let w := (save_user_progress Sample.store Sample.clock "alice" Sample.quizzed_record
                 Sample.fresh.2).2 in
     objective_id (load_progress Sample.fresh.1 w).2 = Some "new-2").
Proof. vm_compute. repeat split; reflexivity. Qed.

(** C6 as stated fails on the relational backend, in two ways. A save adds
    to what the database has: when it holds another objective of the user
    with a later [created_at], loading returns three objectives and a
    session is attached to that one, which is not in the record saved. And
    the key of a quiz is its id alone: when the two objectives of the
    record have a quiz of the same id, the row of the first is replaced by
    that of the second, and the first objective comes back without its
    quiz. *)
Lemma two_objectives_counterexample :
  (let saved :=
     save_user_progress Sample.sql_store Sample.clock "alice"
       (mkUserData None None
          (Some [("new-2", Sample.new_objective); ("obj-7", Sample.broken_objective)]) None)
       Sample.sql_world_same_second in
   saved.1 = true
   ∧ (get_or (ud_learning_objectives (load_user_progress Sample.sql_store "alice" saved.2))
        []).*1
     = ["old-1"; "new-2"; "obj-7"]
   ∧ objective_id (load_progress Sample.sql_fresh.1 saved.2).2 = Some "old-1")
  ∧ (let saved :=
       save_user_progress Sample.sql_store Sample.clock "alice"
         (mkUserData None None
            (Some [("obj-7", Sample.quizzed_objective); ("obj-8", Sample.quizzed_objective)])
            None)
         Sample.sql_world in
     saved.1 = true
     ∧ od_quizzes Sample.quizzed_objective ≠ Some []
     ∧ ∃ o1' o2',
         ud_learning_objectives (load_user_progress Sample.sql_store "alice" saved.2)
         = Some [("obj-7", o1'); ("obj-8", o2')]
         ∧ od_quizzes o1' = Some []).
Proof.
  split.
  - vm_compute. repeat split; reflexivity.
  - split; [vm_compute; reflexivity|]. split; [discriminate|].
    eexists _, _. split; [vm_compute; reflexivity|]. reflexivity.
Qed.

(** A session of [alice] started on the record of [Sample.two_objectives]
    is attached to the later objective, in whichever order the record
    lists the two, on the two backends. *)
Example load_selects_later_objective :
  ∀ sqlite,
    let st := (UserProgressStore_init "/home/u/.ai_tutor" (Some "/data") sqlite empty_world).1 in
    let w0 := (UserProgressStore_init "/home/u/.ai_tutor" (Some "/data") sqlite empty_world).2 in
    let c0 := (TutorContext_init "/home/u/.ai_tutor" "alice" (Some "/data") sqlite w0).1 in
    objective_id
      (load_progress c0
         (save_user_progress st Sample.clock "alice" Sample.two_objectives w0).2).2
    = Some "new-2"
    ∧ objective_id
        (load_progress c0
           (save_user_progress st Sample.clock "alice"
              (mkUserData None None
                 (Some [("old-1", Sample.old_objective); ("new-2", Sample.new_objective)])
                 None)
              w0).2).2
      = Some "new-2".
Proof. intros [|]; vm_compute; split; reflexivity. Qed.

(** * Further properties of the code *)

(** ** The handoff chain: shape of the result, and termination *)

Section ChainFacts.

Set Warnings "-clear-no-such-hyp".

Variable run :
  Agent → string → TutorContext → nat → World → option (RunResult * TutorContext * World).
Variable planner_prompt : option string → StudyPlan → string → string.
Variable clk : Clock.
Variable max_turns : nat.

Lemma chain_loop_returned fuel s s' :
  chain_loop run fuel max_turns s = Returned s' →
  chain_reaches run max_turns s s' ∧ chain_step run max_turns s' = Exit s'.
Proof.
  revert s. induction fuel as [|fuel IH]; intros s; [done|]. cbn.
  destruct (chain_step run max_turns s) as [s1|s1|] eqn:Hstep; [| |done].
  - intros H. destruct (IH _ H) as [Hreach Hexit]. split; [|done].
    clear IH H Hexit. induction Hreach as [|s2 s3 _ IH' Hs]; [|by econstructor].
    eapply reaches_next; [apply reaches_here | done].
  - intros [= <-].
    assert (s1 = s) as ->.
    { revert Hstep. unfold chain_step.
      destruct (handoff_info (current_result s)); [|by intros [= <-]].
      case_bool_decide; [by intros [= <-]|].
      by destruct (run _ _ _ _ _) as [[[? ?] ?]|]. }
    split; [apply reaches_here | done].
Qed.

(** The chain has returned. Its results are the initial result and one
    result for each agent run, no agent identity was run twice, and the
    last result either asks for no handoff or asks for an agent that was
    already run. *)
Theorem chain_return_shape fuel initial c w s :
  process_agent_handoff_chain run fuel initial max_turns c w = Returned s →
  initial_result (all_results s) = initial
  ∧ length (handoff_results (all_results s)) = length (agents_run s)
  ∧ NoDup (agent_id <$> agents_run s)
  ∧ current_result s = List.last (handoff_results (all_results s)) initial
  ∧ (handoff_info (current_result s) = None
     ∨ ∃ h, handoff_info (current_result s) = Some h
            ∧ agent_id (target_agent h) ∈ (agent_id <$> agents_run s)).
Proof.
  unfold process_agent_handoff_chain. intros H.
  apply chain_loop_returned in H as [Hreach Hexit].
  destruct (chain_reaches_invariant run max_turns initial c w s Hreach)
    as (Hinit & Hseen & Hlen & Hnd).
  split; [done|]. split; [done|]. split; [done|]. split.
  - clear Hexit Hinit Hseen Hlen Hnd.
    induction Hreach as [|s' s'' _ _ Hstep]; [done|].
    apply chain_step_continue_inv in Hstep as (h & next & c' & w' & _ & _ & _ & ->).
    cbn. by rewrite List.last_last.
  - revert Hexit. unfold chain_step.
    destruct (handoff_info (current_result s)) as [h|]; [|by left].
    case_bool_decide as Hin.
    + intros _. right. exists h. split; [done|]. by apply Hseen.
    + by destruct (run _ _ _ _ _) as [[[? ?] ?]|].
Qed.

(** The handoffs the runner's results ask for stay within the identities
    of [U]. *)
Definition targets_within (U : gset nat) : Prop :=
  ∀ a input c n w r c' w' h,
    run a input c n w = Some (r, c', w') →
    handoff_info r = Some h →
    agent_id (target_agent h) ∈ U.

Lemma chain_loop_fuel (U : gset nat) fuel s :
  targets_within U →
  (∀ h, handoff_info (current_result s) = Some h → agent_id (target_agent h) ∈ U) →
  size (U ∖ agent_ids_seen s) < fuel →
  chain_loop run fuel max_turns s ≠ OutOfFuel.
Proof.
  intros HU. revert s. induction fuel as [|fuel IH]; intros s Hcur Hsize; [lia|].
  cbn. destruct (chain_step run max_turns s) as [s'|s'|] eqn:Hstep; [|done|done].
  apply chain_step_continue_inv in Hstep
    as (h & next & c' & w' & Hh & Hfresh & Hrun & ->).
  apply IH; cbn.
  - intros h' Hh'. by eapply HU.
  - pose proof (Hcur h Hh) as HinU.
    assert (U ∖ ({[agent_id (target_agent h)]} ∪ agent_ids_seen s)
            ⊂ U ∖ agent_ids_seen s) as Hsub.
    { apply strict_spec_alt. split; [set_solver|].
      intros E. assert (agent_id (target_agent h) ∈ U ∖ agent_ids_seen s) as Hin
        by set_solver.
      rewrite <- E in Hin. set_solver. }
    apply subset_size in Hsub. lia.
Qed.

(** When all the agents that can be handed off to have their identities in
    a finite set [U], the chain stops: with fuel for one more turn of the
    loop than [U] has elements, it returns or a run raises. *)
Theorem chain_terminates (U : gset nat) initial c w :
  targets_within U →
  (∀ h, handoff_info initial = Some h → agent_id (target_agent h) ∈ U) →
  process_agent_handoff_chain run (S (size U)) initial max_turns c w ≠ OutOfFuel.
Proof.
  intros HU Hinit. unfold process_agent_handoff_chain.
  apply (chain_loop_fuel U); [done | done |].
  cbn. assert (U ∖ ∅ ⊆ U) as Hsub by set_solver.
  apply subseteq_size in Hsub. lia.
Qed.

(** Whenever [complete_learning_objective] returns, its flag [completed] is
    true exactly when the text of the initial result or of one of the
    handoff results has the marker [LEARNING_COMPLETE]. *)
Theorem completed_iff_marker fuel sys w r c' w' :
  complete_learning_objective run planner_prompt clk fuel sys max_turns w
  = Finished r c' w' →
  (lr_completed r = true
   ↔ ∃ x, x ∈ initial_result (lr_final_results r) :: handoff_results (lr_final_results r)
          ∧ contains completion_marker (result_repr x) = true).
Proof.
  unfold complete_learning_objective.
  destruct (prepare_learning_session (context sys)) as [c0|]; [|done].
  destruct (study_plan c0) as [plan|]; [|done].
  destruct (planner_with_tools sys) as [planner|]; [|done].
  destruct (run planner _ c0 max_turns w) as [[[initial c1] w1]|]; [|done].
  destruct (process_agent_handoff_chain run fuel initial max_turns c1 w1) as [s| |];
    [|done|done].
  pose proof (marker_in_all_results (all_results s)) as Hflag.
  remember (contains completion_marker (str_all_results (all_results s))) as flag.
  intros [= <- <- <-]. cbn [lr_completed lr_final_results].
  rewrite Hflag, existsb_exists.
  split; intros (x & Hx & Hm); exists x; (split; [by apply list_elem_of_In | done]).
Qed.

End ChainFacts.

Lemma chain_return_shape_witness :
  ∃ s,
    process_agent_handoff_chain Sample.run_cycle 5 Sample.planner_result 30
      Sample.started Sample.world_before = Returned s
    ∧ initial_result (all_results s) = Sample.planner_result
    ∧ length (handoff_results (all_results s)) = length (agents_run s)
    ∧ NoDup (agent_id <$> agents_run s)
    ∧ current_result s = List.last (handoff_results (all_results s)) Sample.planner_result
    ∧ (handoff_info (current_result s) = None
       ∨ ∃ h, handoff_info (current_result s) = Some h
              ∧ agent_id (target_agent h) ∈ (agent_id <$> agents_run s)).
Proof.
  eexists. split; [reflexivity|].
  apply (chain_return_shape Sample.run_cycle 30 5 Sample.planner_result Sample.started
           Sample.world_before).
  reflexivity.
Defined.

Lemma chain_terminates_witness :
  process_agent_handoff_chain Sample.run_cycle (S (size ({[1; 2]} : gset nat)))
    Sample.planner_result 30 Sample.started Sample.world_before ≠ OutOfFuel.
Proof.
  apply (chain_terminates Sample.run_cycle 30 {[1; 2]} Sample.planner_result
           Sample.started Sample.world_before).
  - intros a input c n w r c' w' h Hrun Hh. unfold Sample.run_cycle in Hrun.
    destruct (Nat.eqb (agent_id a) 1); injection Hrun as <- _ _;
      injection Hh as <-; cbn; set_solver.
  - intros h Hh. injection Hh as <-. cbn. set_solver.
Defined.

Lemma completed_iff_marker_witness :
  ∃ r c' w',
    complete_learning_objective Sample.run_cycle Sample.prompt Sample.clock 5
      Sample.system 30 Sample.world_before = Finished r c' w'
    ∧ (lr_completed r = true
       ↔ ∃ x, x ∈ initial_result (lr_final_results r)
                    :: handoff_results (lr_final_results r)
              ∧ contains completion_marker (result_repr x) = true).
Proof.
  eexists _, _, _. split; [reflexivity|].
  eapply (completed_iff_marker Sample.run_cycle Sample.prompt Sample.clock 30 5
            Sample.system Sample.world_before).
  reflexivity.
Defined.

(** ** Preparing the learning session *)


(** ** One file per user *)



(** ** The most recent objective, for any number of objectives *)

Lemma leb_trans (a b c : string) :
  String.leb a b = true → String.leb b c = true → String.leb a c = true.
Proof.
  intros H1 H2.
  assert (String.le a c) as H.
  { transitivity b; [by apply Is_true_true_2 | by apply Is_true_true_2]. }
  by apply Is_true_true_1.
Qed.

Lemma ltb_leb (a b : string) : String.ltb a b = true → String.leb a b = true.
Proof. unfold String.ltb, String.leb. by destruct (String.compare a b). Qed.

Lemma not_ltb_leb (a b : string) : String.ltb a b = false → String.leb b a = true.
Proof.
  unfold String.ltb, String.leb. rewrite (String.compare_antisym a b).
  by destruct (String.compare b a).
Qed.

Lemma leb_refl (a : string) : String.leb a a = true.
Proof.
  unfold String.leb. destruct (String.compare a a) eqn:E; try done.
  pose proof (String.compare_antisym a a) as H. rewrite E in H. discriminate.
Qed.

(** The head of the sorted list is an element with the greatest key, and
    the sorted list has the elements of the list. *)
Lemma sorted_desc_head l :
  match sorted_desc l with
  | [] => l = []
  | m :: _ =>
      m ∈ l ∧ ∀ y, y ∈ l → String.leb (created_key y) (created_key m) = true
  end.
Proof.
  induction l as [|x l IH]; [done|]. cbn [sorted_desc foldr].
  fold (sorted_desc l). destruct (sorted_desc l) as [|m r].
  - subst l. cbn. split; [left|]. intros y Hy.
    apply list_elem_of_singleton in Hy. subst y. apply leb_refl.
  - destruct IH as [Hm Hmax]. cbn [insert_desc].
    destruct (String.ltb (created_key x) (created_key m)) eqn:E.
    + split; [by right|]. intros y [->|Hy]%elem_of_cons; [by apply ltb_leb | auto].
    + split; [left|]. intros y [->|Hy]%elem_of_cons; [apply leb_refl|].
      eapply leb_trans; [by apply Hmax | by apply not_ltb_leb].
Qed.

(** [load_progress] on a record with any number of objectives attaches the
    session to an objective of the record than which none is more recent:
    its [created_at] is greater than or equal to that of every objective,
    as strings, an objective without [created_at] counting as the empty
    string. *)
Theorem load_progress_most_recent c w st los :
  _progress_store c = Some st →
  ud_learning_objectives (load_user_progress st (user_id c) w) = Some los →
  los ≠ [] →
  ∃ oid o,
    (oid, o) ∈ los
    ∧ objective_id (load_progress c w).2 = Some oid
    ∧ ∀ kv, kv ∈ los → String.leb (created_key kv) (created_key (oid, o)) = true.
Proof.
  intros Hst Hlos Hne.
  pose proof (sorted_desc_head los) as Hhead.
  destruct (sorted_desc los) as [|[oid o] r] eqn:Hsorted; [done|].
  destruct Hhead as [Hin Hmax].
  exists oid, o. split; [done|]. split; [|done].
  eapply load_progress_objective_id; [done | done |]. by rewrite Hsorted.
Qed.

Lemma load_progress_most_recent_witness :
  ∃ oid o,
    (oid, o) ∈ [("old-1", Sample.old_objective); ("obj-7", Sample.broken_objective);
                ("new-2", Sample.new_objective)]
    ∧ objective_id
        (load_progress Sample.fresh.1
           (save_user_progress Sample.store Sample.clock "alice"
              (mkUserData None None
                 (Some [("old-1", Sample.old_objective); ("obj-7", Sample.broken_objective);
                        ("new-2", Sample.new_objective)]) None)
              Sample.fresh.2).2).2 = Some oid
    ∧ ∀ kv,
        kv ∈ [("old-1", Sample.old_objective); ("obj-7", Sample.broken_objective);
              ("new-2", Sample.new_objective)] →
        String.leb (created_key kv) (created_key (oid, o)) = true.
Proof.
  apply (load_progress_most_recent Sample.fresh.1 _ Sample.store).
  - reflexivity.
  - vm_compute. reflexivity.
  - discriminate.
Defined.

(** ** What [update_mastery_level] does to the session *)

Lemma save_progress_session clk uuid4 c w :
  (save_progress clk uuid4 c w).1.2 = c
  ∨ ∃ oid, (save_progress clk uuid4 c w).1.2 = with_objective_id c (Some oid).
Proof.
  unfold save_progress. destruct (_progress_store c) as [st|]; [|by left].
  destruct (objective_id_to_save uuid4 c) as [oid|]; [|by left].
  destruct (save_user_progress _ _ _ _ _). right. by exists oid.
Qed.

(** Whether or not the save succeeds, [update_mastery_level] sets the
    level of the topic and of no other topic; the list of completed topics
    gains the topic when [completed] is true and loses nothing; a list
    without repetition stays without repetition; the plan, the learning
    objective and the quizzes of the session are untouched. *)
Theorem update_mastery_level_session clk uuid4 c topic x completed w :
  let c' := (update_mastery_level clk uuid4 c topic x completed w).1 in
  mastery_levels c' = <[topic := x]> (mastery_levels c)
  ∧ (∀ t, t ∈ completed_topics c'
          ↔ t ∈ completed_topics c ∨ (completed = true ∧ t = topic))
  ∧ (NoDup (completed_topics c) → NoDup (completed_topics c'))
  ∧ study_plan c' = study_plan c
  ∧ learning_objective c' = learning_objective c
  ∧ quiz_results c' = quiz_results c.
Proof.
  unfold update_mastery_level.
  set (c_a := with_mastery_levels c (<[topic:=x]> (mastery_levels c))).
  set (c_b := if completed && negb (str_in topic (completed_topics c_a))
              then with_completed_topics c_a (completed_topics c_a ++ [topic])
              else c_a).
  assert (Hb : mastery_levels c_b = <[topic := x]> (mastery_levels c)
               ∧ (∀ t, t ∈ completed_topics c_b
                       ↔ t ∈ completed_topics c ∨ (completed = true ∧ t = topic))
               ∧ (NoDup (completed_topics c) → NoDup (completed_topics c_b))
               ∧ study_plan c_b = study_plan c
               ∧ learning_objective c_b = learning_objective c
               ∧ quiz_results c_b = quiz_results c).
  { subst c_b c_a. cbn [completed_topics with_mastery_levels].
    destruct completed; cbn [andb].
    - destruct (str_in topic (completed_topics c)) eqn:E; cbn [negb].
      + apply str_in_true in E. cbn. split; [done|]. split; [|done].
        intros t. split; [by left|]. intros [?|[_ ->]]; done.
      + assert (topic ∉ completed_topics c) as Hnot.
        { intros Hin. apply str_in_true in Hin. congruence. }
        cbn. split; [done|]. split; [|split; [|done]].
        * intros t. rewrite elem_of_app, list_elem_of_singleton. naive_solver.
        * intros Hnd. apply NoDup_app. split; [done|]. split; [|apply NoDup_singleton].
          intros t Ht Ht'. apply list_elem_of_singleton in Ht'. by subst t.
    - cbn. split; [done|]. split; [|done]. intros t. naive_solver. }
  destruct (save_progress clk uuid4 c_b w) as [[ok c'] w'] eqn:Hs.
  cbn [fst].
  destruct (save_progress_session clk uuid4 c_b w) as [E|[oid E]];
    rewrite Hs in E; cbn in E; subst c'; exact Hb.
Qed.

(** ** A session across a save and a fresh load *)

Lemma pydict_get_elem {V : Type} k (v : V) d : PyDict.get k d = Some v → (k, v) ∈ d.
Proof.
  induction d as [|[k' v'] r IH]; cbn; [done|].
  destruct (String.eqb k k') eqn:E.
  - apply String.eqb_eq in E. subst k'. intros [= ->]. left.
  - intros H. right. by apply IH.
Qed.








(** ** The relational backend keeps its primary keys unique *)

Lemma insert_or_replace_NoDup {R : Type} (key : R → string) (row : R) (T : list R) :
  NoDup (key <$> T) → NoDup (key <$> insert_or_replace key row T).
Proof.
  intros Hnd. unfold insert_or_replace. rewrite fmap_app. apply NoDup_app.
  split; [|split].
  - induction T as [|r T IH]; [constructor|].
    cbn in Hnd. apply NoDup_cons in Hnd as [Hr HT].
    rewrite filter_cons. destruct (decide (key r ≠ key row)); [|auto].
    cbn. apply NoDup_cons. split; [|auto].
    intros Hin. apply Hr. apply list_elem_of_fmap in Hin as (r' & -> & Hin).
    apply list_elem_of_filter in Hin as [_ Hin].
    apply list_elem_of_fmap. by exists r'.
  - intros k Hk Hk'. apply list_elem_of_singleton in Hk'. subst k.
    apply list_elem_of_fmap in Hk as (r' & Hkey & Hin).
    apply list_elem_of_filter in Hin as [Hne _]. congruence.
  - apply NoDup_singleton.
Qed.

Lemma save_progress_row_keys clk u oid s kv :
  keys_unique s.1 → keys_unique (save_progress_row clk u oid s kv).1.
Proof.
  intros (H1 & H2 & H3 & H4 & H5 & H6). unfold save_progress_row, keys_unique.
  cbn [fst]. tables.
  do 3 (split; [done|]). split; [|done].
  by apply insert_or_replace_NoDup.
Qed.

Lemma save_quiz_rows_keys clk u oid s kv s' :
  keys_unique s.1 → save_quiz_rows clk u oid s kv = Some s' → keys_unique s'.1.
Proof.
  intros (H1 & H2 & H3 & H4 & H5 & H6). unfold save_quiz_rows.
  destruct (json_questions _) as [qs|]; cbn [mbind option_bind]; [|done].
  destruct (qd_results kv.2) as [res|]; intros [= <-]; unfold keys_unique; cbn [fst]; tables.
  - do 4 (split; [done|]). split; by apply insert_or_replace_NoDup.
  - do 4 (split; [done|]). split; [by apply insert_or_replace_NoDup | done].
Qed.

Lemma save_objective_rows_keys clk u s kv s' :
  keys_unique s.1 → save_objective_rows clk u s kv = Some s' → keys_unique s'.1.
Proof.
  intros Hk. unfold save_objective_rows.
  set (s1 := (with_objectives s.1 _, S s.2)).
  set (s2 := match od_study_plan kv.2 with None => s1 | Some _ => _ end).
  set (s3 := match od_topic_progress kv.2 with None => s2 | Some _ => _ end).
  assert (K1 : keys_unique s1.1).
  { destruct Hk as (H1 & H2 & H3 & H4 & H5 & H6). subst s1. unfold keys_unique.
    cbn [fst]. tables.
    split; [done|]. split; [by apply insert_or_replace_NoDup | done]. }
  assert (K2 : keys_unique s2.1).
  { subst s2. destruct (od_study_plan kv.2); [|done].
    destruct K1 as (H1 & H2 & H3 & H4 & H5 & H6). unfold keys_unique. cbn [fst]. tables.
    do 2 (split; [done|]). split; [by apply insert_or_replace_NoDup | done]. }
  assert (K3 : keys_unique s3.1).
  { subst s3. destruct (od_topic_progress kv.2) as [tp|]; [|done].
    apply (fold_left_invariant (fun d => keys_unique d.1)); [|done].
    intros s0 a. apply save_progress_row_keys. }
  destruct (od_quizzes kv.2) as [qz|]; [|by intros [= <-]].
  apply (for_each_invariant (fun d => keys_unique d.1)); [|done].
  intros s0 a s0' Hs. by apply save_quiz_rows_keys.
Qed.

(** A save on the relational backend, successful or not, leaves the
    primary keys of the six tables unique: a row that is saved again
    replaces the row it had, and a user has one row of [users]. *)
Theorem sqlite_keys_unique st clk u data w db :
  use_sqlite st = true →
  dbs w !! db_path st = Some db →
  keys_unique db →
  ∃ db', dbs (save_user_progress st clk u data w).2 !! db_path st = Some db'
         ∧ keys_unique db'
         ∧ ((save_user_progress st clk u data w).1 = true →
            ∃ row, List.filter (fun r => String.eqb (ur_user_id r) u) (tbl_users db') = [row]).
Proof.
  intros Hsq Hdb Hk. unfold save_user_progress. rewrite Hsq.
  unfold _save_to_sqlite. rewrite Hdb.
  set (s1 := match fetchone _ with Some _ => (db, 0) | None => _ end).
  assert (K1 : keys_unique s1.1
               ∧ ∃ row, List.filter (fun r => String.eqb (ur_user_id r) u) (tbl_users s1.1)
                        = [row]).
  { subst s1. unfold select, fetchone.
    destruct Hk as (H1 & H2 & H3 & H4 & H5 & H6).
    destruct (List.filter _ (tbl_users db)) as [|row rows] eqn:Hsel; cbn [head].
    - split.
      + unfold keys_unique. cbn [fst]. tables. split; [|done].
        rewrite fmap_app. apply NoDup_app. split; [done|].
        split; [|apply NoDup_singleton].
        intros k Hin Hk'. apply list_elem_of_singleton in Hk'. cbn in Hk'. subst k.
        apply list_elem_of_fmap in Hin as (r & Hr & Hin).
        assert (In r (List.filter (fun r => String.eqb (ur_user_id r) u) (tbl_users db)))
          as Hf.
        { apply List.filter_In. split; [by apply list_elem_of_In|].
          rewrite <- Hr. apply String.eqb_refl. }
        rewrite Hsel in Hf. done.
      + exists (mkUserRow u (iso_reading clk 0)). cbn [fst]. tables.
        rewrite List.filter_app, Hsel. cbn.
        by rewrite String.eqb_refl.
    - split; [done|]. exists row. cbn [fst]. rewrite Hsel. f_equal.
      destruct rows as [|row' rows]; [done|]. exfalso.
      assert (In row (List.filter (fun r => String.eqb (ur_user_id r) u) (tbl_users db))
              ∧ In row' (List.filter (fun r => String.eqb (ur_user_id r) u) (tbl_users db)))
        as [Hr Hr'].
      { rewrite Hsel. split; [by left | by right; left]. }
      apply List.filter_In in Hr as [_ Hr]. apply List.filter_In in Hr' as [_ Hr'].
      apply String.eqb_eq in Hr, Hr'.
      assert (NoDup (ur_user_id <$> List.filter (fun r => String.eqb (ur_user_id r) u)
                                      (tbl_users db))) as Hnd.
      { clear Hsel. induction (tbl_users db) as [|r T IH]; [constructor|].
        cbn in H1. apply NoDup_cons in H1 as [Hr0 HT]. cbn.
        destruct (String.eqb (ur_user_id r) u); [|auto]. cbn. apply NoDup_cons.
        split; [|auto]. intros Hin. apply Hr0.
        apply list_elem_of_fmap in Hin as (r' & -> & Hin).
        apply list_elem_of_In, List.filter_In in Hin as [Hin _].
        apply list_elem_of_fmap. exists r'. split; [done | by apply list_elem_of_In]. }
      rewrite Hsel in Hnd. cbn in Hnd. apply NoDup_cons in Hnd as [Hnot _].
      apply Hnot. rewrite Hr, <- Hr'. left. }
  destruct K1 as [K1 Hrow].
  destruct (match ud_learning_objectives data with
            | None => Some s1 | Some los => _ end) as [s'|] eqn:Esaved; cbn [fst snd].
  - exists s'.1. cbn [dbs]. rewrite lookup_insert_eq. split; [done|].
    assert (keys_unique s'.1 ∧ tbl_users s'.1 = tbl_users s1.1) as [K' Hu].
    { destruct (ud_learning_objectives data) as [los|]; [|by injection Esaved as <-].
      revert Esaved.
      apply (for_each_invariant (fun d => keys_unique d.1 ∧ tbl_users d.1 = tbl_users s1.1));
        [|done].
      intros s a s0 [Hs Hus] Hsave. split; [by eapply save_objective_rows_keys|].
      by rewrite (save_objective_rows_users _ _ _ _ _ Hsave). }
    split; [done|]. intros _. by rewrite Hu.
  - exists db. split; [done|]. split; [done|]. done.
Qed.

Lemma sqlite_keys_unique_witness :
  ∃ db',
    dbs (save_user_progress Sample.sql_store Sample.clock "alice" Sample.two_objectives
           Sample.sql_world).2 !! db_path Sample.sql_store = Some db'
    ∧ keys_unique db'
    ∧ ((save_user_progress Sample.sql_store Sample.clock "alice" Sample.two_objectives
          Sample.sql_world).1 = true →
       ∃ row, List.filter (fun r => String.eqb (ur_user_id r) "alice") (tbl_users db')
              = [row]).
Proof.
  apply (sqlite_keys_unique Sample.sql_store Sample.clock "alice" Sample.two_objectives
           Sample.sql_world empty_db).
  - reflexivity.
  - vm_compute. reflexivity.
  - unfold keys_unique. simpl. repeat split; constructor.
Defined.

(** ** A document read from a file can be written back *)

Lemma json_answers_idempotent l : json_answers (json_answers l) = json_answers l.
Proof.
  unfold json_answers.
  set (d := PyDict.of_pairs (map (fun kv => (json_key kv.1, kv.2)) l)).
  assert (Hd : NoDup d.*1).
  { subst d. unfold PyDict.of_pairs. apply pydict_fold_pairs_keys. constructor. }
  replace (map (fun kv : AnswerKey * string => (json_key kv.1, kv.2))
             (map (fun kv : string * string => (KStr kv.1, kv.2)) d)) with d.
  - unfold PyDict.of_pairs at 1. by rewrite (pydict_fold_pairs_NoDup d []).
  - rewrite map_map. cbn. clear Hd. induction d as [|[k v] d IH]; [done|].
    cbn. by rewrite <- IH.
Qed.

Lemma json_questions_idempotent q q' :
  json_questions q = Some q' → json_questions q' = Some q'.
Proof. destruct q as [[|? ?]|qs]; cbn; intros [= <-]; done. Qed.

Lemma json_field_idempotent {A : Type} (f : A → option A) (o o' : option A) :
  (∀ a a', f a = Some a' → f a' = Some a') →
  json_field f o = Some o' → json_field f o' = Some o'.
Proof.
  intros Hf. destruct o as [a|]; cbn; [|by intros [= <-]].
  destruct (f a) as [a'|] eqn:E; cbn; [|done].
  intros [= <-]. cbn. by rewrite (Hf _ _ E).
Qed.

Lemma json_values_idempotent {A : Type} (f : A → option A) (d d' : list (string * A)) :
  (∀ a a', f a = Some a' → f a' = Some a') →
  json_values f d = Some d' → json_values f d' = Some d'.
Proof.
  intros Hf. unfold json_values. rewrite !mapM_Some.
  induction 1 as [|[k a] [k' a'] d d' Hx _ IH]; [constructor|].
  constructor; [|done]. cbn in *.
  destruct (f a) as [a0|] eqn:E; [|done]. cbn in Hx. injection Hx as <- <-.
  by rewrite (Hf _ _ E).
Qed.

Lemma json_quiz_idempotent q q' : json_quiz q = Some q' → json_quiz q' = Some q'.
Proof.
  unfold json_quiz.
  destruct (json_field json_questions (qd_questions q)) as [qs|] eqn:Eq; cbn; [|done].
  destruct (json_field json_results (qd_results q)) as [rs|] eqn:Er; cbn; [|done].
  intros [= <-]. cbn.
  rewrite (json_field_idempotent json_questions _ _ json_questions_idempotent Eq). cbn.
  assert (Hres : ∀ a a', json_results a = Some a' → json_results a' = Some a').
  { intros a a'. unfold json_results. intros [= <-]. cbn. f_equal. f_equal.
    destruct (rd_answers a); cbn; [|done]. by rewrite json_answers_idempotent. }
  by rewrite (json_field_idempotent json_results _ _ Hres Er).
Qed.

Lemma json_objective_idempotent o o' :
  json_objective o = Some o' → json_objective o' = Some o'.
Proof.
  unfold json_objective.
  destruct (json_field (json_values json_quiz) (od_quizzes o)) as [qz|] eqn:E; cbn; [|done].
  intros [= <-]. cbn.
  assert (Hv : ∀ a a', json_values json_quiz a = Some a' →
                       json_values json_quiz a' = Some a').
  { intros a a'. apply json_values_idempotent, json_quiz_idempotent. }
  by rewrite (json_field_idempotent _ _ _ Hv E).
Qed.

Lemma json_data_idempotent d t : json_data d = Some t → json_data t = Some t.
Proof.
  unfold json_data.
  destruct (json_field (json_values json_objective) (ud_learning_objectives d))
    as [los|] eqn:E; cbn; [|done].
  intros [= <-]. cbn.
  assert (Hv : ∀ a a', json_values json_objective a = Some a' →
                       json_values json_objective a' = Some a').
  { intros a a'. apply json_values_idempotent, json_objective_idempotent. }
  by rewrite (json_field_idempotent _ _ _ Hv E).
Qed.

(** On the flat-file backend, the record that is loaded after a successful
    save can always be saved again, and the file then holds that record
    itself, with the instant of the new save as [last_updated]: what JSON
    changes in a document (integer keys, question objects) it changes
    once. *)
Theorem loaded_record_saves_back st clk clk' u data w :
  use_sqlite st = false →
  (save_user_progress st clk u data w).1 = true →
  let w1 := (save_user_progress st clk u data w).2 in
  let d := load_user_progress st u w1 in
  (save_user_progress st clk' u d w1).1 = true
  ∧ load_user_progress st u (save_user_progress st clk' u d w1).2
    = set_last_updated d (iso_now clk').
Proof.
  intros Hjs Hok w1 d.
  destruct (load_after_save_json st clk u data w Hjs Hok) as (text & Htext & Hload).
  pose proof (save_json_opens st clk u data w Hjs Hok) as Hopen.
  subst d. fold w1 in Hload, Hopen. rewrite Hload. clearbody w1.
  assert (Hjson : json_data (set_last_updated text (iso_now clk'))
                  = Some (set_last_updated text (iso_now clk'))).
  { apply json_data_idempotent in Htext. revert Htext. unfold json_data. cbn.
    destruct (json_field _ _) as [los|]; cbn; [|done]. intros [= E].
    f_equal. destruct text. cbn in *. by injection E as ->. }
  unfold save_user_progress, load_user_progress. rewrite Hjs.
  unfold _save_to_json, _load_from_json. rewrite Hopen, Hjson. cbn [fst snd files].
  by rewrite lookup_insert_eq.
Qed.

Lemma loaded_record_saves_back_witness :
  let w1 :=
    (save_user_progress Sample.store Sample.clock "alice" Sample.two_objectives
       Sample.fresh.2).2 in
  let d := load_user_progress Sample.store "alice" w1 in
  (save_user_progress Sample.store Sample.clock "alice" d w1).1 = true
  ∧ load_user_progress Sample.store "alice"
      (save_user_progress Sample.store Sample.clock "alice" d w1).2
    = set_last_updated d (iso_now Sample.clock).
Proof.
  apply (loaded_record_saves_back Sample.store Sample.clock Sample.clock "alice"
           Sample.two_objectives Sample.fresh.2).
  - reflexivity.
  - reflexivity.
Defined.

(** ** Rewriting one objective of a stored record *)

Lemma json_values_fixed {A : Type} (f : A → option A) (d : list (string * A)) :
  json_values f d = Some d ↔ Forall (fun kv => f kv.2 = Some kv.2) d.
Proof.
  unfold json_values. rewrite mapM_Some.
  induction d as [|[k a] d IH].
  - split; constructor.
  - rewrite Forall2_cons, Forall_cons, IH. cbn.
    destruct (f a) as [a'|]; cbn; [|naive_solver].
    split; intros [H ?]; (split; [|done]); congruence.
Qed.

Lemma json_values_get {A : Type} (f : A → option A) (d : list (string * A)) k a :
  json_values f d = Some d → PyDict.get k d = Some a → f a = Some a.
Proof.
  rewrite json_values_fixed, Forall_forall. intros H Hget.
  apply pydict_get_elem in Hget. by apply (H (k, a)).
Qed.

Lemma json_values_set {A : Type} (f : A → option A) (d : list (string * A)) k a :
  json_values f d = Some d → f a = Some a →
  json_values f (PyDict.set k a d) = Some (PyDict.set k a d).
Proof.
  rewrite !json_values_fixed. intros H Ha.
  by apply (pydict_set_Forall (fun v => f v = Some v)).
Qed.

Lemma json_normal_objectives d los :
  json_data d = Some d →
  ud_learning_objectives d = Some los →
  json_values json_objective los = Some los.
Proof.
  unfold json_data. intros H Hlos. rewrite Hlos in H. cbn in H.
  destruct (json_values json_objective los) as [los'|]; cbn in H; [|done].
  injection H as H. rewrite <- H in Hlos. cbn in Hlos. congruence.
Qed.

(** On the flat-file backend, a record in JSON form in which one objective
    is replaced by an objective in JSON form is saved successfully, and is
    what the next load returns, with the instant of the save. *)
Lemma save_replaced_objective st clk u w d los oid o' :
  use_sqlite st = false →
  can_open_w w (_get_user_json_path st u) = true →
  json_data d = Some d →
  ud_learning_objectives d = Some los →
  json_objective o' = Some o' →
  let data := mkUserData (ud_user_id d) (ud_created_at d)
                (Some (PyDict.set oid o' los)) (ud_last_updated d) in
  (save_user_progress st clk u data w).1 = true
  ∧ load_user_progress st u (save_user_progress st clk u data w).2
    = set_last_updated data (iso_now clk).
Proof.
  intros Hjs Hopen Hd Hlos Ho' data.
  assert (Hjson : json_data (set_last_updated data (iso_now clk))
                  = Some (set_last_updated data (iso_now clk))).
  { unfold json_data. subst data. cbn.
    rewrite (json_values_set json_objective los oid o'
               (json_normal_objectives d los Hd Hlos) Ho'). done. }
  unfold save_user_progress, load_user_progress. rewrite Hjs.
  unfold _save_to_json, _load_from_json. rewrite Hopen, Hjson. cbn [fst snd files].
  by rewrite lookup_insert_eq.
Qed.

Lemma json_objective_set_topic_progress o tp :
  json_objective o = Some o →
  json_objective (set_topic_progress o tp) = Some (set_topic_progress o tp).
Proof.
  unfold json_objective. cbn.
  destruct (json_field _ (od_quizzes o)) as [qz|]; cbn; [|done].
  intros [= E]. apply (f_equal od_quizzes) in E. cbn in E.
  unfold set_topic_progress. by rewrite E.
Qed.

(** [update_topic_mastery] on the flat-file backend. For an objective that
    the user's record does not have (in particular for an unknown user) it
    returns [False] and writes nothing. For an objective of a record in
    JSON form it returns [True], and the record then has the same
    objectives in the same order; the objective has the new level, flag and
    instant for the topic; its other topics and all the other objectives
    are as they were. *)
Theorem update_topic_mastery_record st clk u oid topic x completed w :
  use_sqlite st = false →
  let d := load_user_progress st u w in
  let los := get_or (ud_learning_objectives d) [] in
  let r := update_topic_mastery st clk u oid topic x completed w in
  let los' := get_or (ud_learning_objectives (load_user_progress st u r.2)) [] in
  (PyDict.get oid los = None → r = (false, w))
  ∧ (json_data d = Some d →
     ∀ o, PyDict.get oid los = Some o →
       r.1 = true
       ∧ los'.*1 = los.*1
       ∧ (∀ other, other ≠ oid → PyDict.get other los' = PyDict.get other los)
       ∧ ∃ o',
           PyDict.get oid los' = Some o'
           ∧ PyDict.get topic (get_or (od_topic_progress o') [])
             = Some (mkProgressDoc (Some x) (Some completed) (Some (iso_now clk)))
           ∧ (∀ t, t ≠ topic →
                PyDict.get t (get_or (od_topic_progress o') [])
                = PyDict.get t (get_or (od_topic_progress o) []))
           ∧ od_title o' = od_title o
           ∧ od_study_plan o' = od_study_plan o
           ∧ od_quizzes o' = od_quizzes o
           ∧ od_created_at o' = od_created_at o).
Proof.
  intros Hjs d los r los'. subst r los'. unfold update_topic_mastery.
  fold d. fold los. split.
  - by intros ->.
  - intros Hd o Hget. rewrite Hget.
    destruct (ud_learning_objectives d) as [l|] eqn:Hlos; [|done].
    assert (los = l) as El by done.
    set (o' := set_topic_progress o _).
    assert (Ho : json_objective o = Some o).
    { eapply (json_values_get json_objective l oid o); [|by rewrite <- El].
      by eapply json_normal_objectives. }
    pose proof (json_objective_set_topic_progress o
                  (PyDict.set topic
                     (mkProgressDoc (Some x) (Some completed) (Some (iso_now clk)))
                     (get_or (od_topic_progress o) [])) Ho) as Ho'.
    destruct (save_replaced_objective st (later 1 clk) u w d l oid o' Hjs
                (loaded_file_opens st u w l Hjs Hlos) Hd Hlos Ho')
      as [Hok Hload].
    rewrite El. split; [exact Hok|]. rewrite Hload.
    cbn [ud_learning_objectives set_last_updated get_or default from_option id].
    split; [|split].
    + clear -Hget El. rewrite El in Hget. clear El.
      induction l as [|[k v] l IH]; [done|]. cbn in *.
      destruct (String.eqb oid k) eqn:E; cbn; [done|]. f_equal. auto.
    + intros other Hne. by apply pydict_get_set_ne.
    + exists o'. split; [apply pydict_get_set_eq|].
      subst o'. cbn [od_topic_progress set_topic_progress get_or default from_option id].
      split; [apply pydict_get_set_eq|]. split; [|done].
      intros t Hne. by apply pydict_get_set_ne.
Qed.

Lemma update_topic_mastery_record_witness :
  let d := load_user_progress Sample.store "alice" Sample.world_before in
  let los := get_or (ud_learning_objectives d) [] in
  let r :=
    update_topic_mastery Sample.store Sample.clock "alice" "old-1" "Angles" 0.6%float true
      Sample.world_before in
  let los' := get_or (ud_learning_objectives (load_user_progress Sample.store "alice" r.2)) [] in
  (PyDict.get "old-1" los = None → r = (false, Sample.world_before))
  ∧ (json_data d = Some d →
     ∀ o, PyDict.get "old-1" los = Some o →
       r.1 = true
       ∧ los'.*1 = los.*1
       ∧ (∀ other, other ≠ "old-1" → PyDict.get other los' = PyDict.get other los)
       ∧ ∃ o',
           PyDict.get "old-1" los' = Some o'
           ∧ PyDict.get "Angles" (get_or (od_topic_progress o') [])
             = Some (mkProgressDoc (Some 0.6%float) (Some true)
                       (Some (iso_now Sample.clock)))
           ∧ (∀ t, t ≠ "Angles" →
                PyDict.get t (get_or (od_topic_progress o') [])
                = PyDict.get t (get_or (od_topic_progress o) []))
           ∧ od_title o' = od_title o
           ∧ od_study_plan o' = od_study_plan o
           ∧ od_quizzes o' = od_quizzes o
           ∧ od_created_at o' = od_created_at o).
Proof.
  apply (update_topic_mastery_record Sample.store Sample.clock "alice" "old-1" "Angles"
           0.6%float true Sample.world_before).
  reflexivity.
Defined.

(** The record of [alice] is in JSON form and has the objective [old-1]:
    the update above succeeds, and the objective keeps its title. *)
Example update_topic_mastery_sample :
  json_data (load_user_progress Sample.store "alice" Sample.world_before)
  = Some (load_user_progress Sample.store "alice" Sample.world_before)
  ∧ (update_topic_mastery Sample.store Sample.clock "alice" "old-1" "Angles" 0.6%float true
       Sample.world_before).1 = true
  ∧ (update_topic_mastery Sample.store Sample.clock "alice" "missing" "Angles" 0.6%float
       true Sample.world_before) = (false, Sample.world_before).
Proof. repeat split; vm_compute; reflexivity. Qed.

(** ** Marking the objective complete *)

Lemma json_objective_set_completed_at o t :
  json_objective o = Some o →
  json_objective (set_completed_at o t) = Some (set_completed_at o t).
Proof.
  unfold json_objective. cbn.
  destruct (json_field _ (od_quizzes o)) as [qz|]; cbn; [|done].
  intros [= E]. apply (f_equal od_quizzes) in E. cbn in E.
  unfold set_completed_at. by rewrite E.
Qed.

(** [mark_learning_complete] on the flat-file backend, for a session with
    an objective id. When the user's record does not have that objective,
    nothing is written. When the record, in JSON form, has it, the record
    afterwards has the same objectives in the same order, that objective
    with [completed_at] set to the instant of the call and nothing else
    changed, and the other objectives as they were. *)
Theorem mark_learning_complete_record clk c w st oid :
  _progress_store c = Some st →
  use_sqlite st = false →
  objective_id c = Some oid →
  oid ≠ "" →
  let d := load_user_progress st (user_id c) w in
  let los := get_or (ud_learning_objectives d) [] in
  let w' := mark_learning_complete clk c w in
  let los' := get_or (ud_learning_objectives (load_user_progress st (user_id c) w')) [] in
  (PyDict.get oid los = None → w' = w)
  ∧ (json_data d = Some d →
     ∀ o, PyDict.get oid los = Some o →
       los'.*1 = los.*1
       ∧ (∀ other, other ≠ oid → PyDict.get other los' = PyDict.get other los)
       ∧ PyDict.get oid los' = Some (set_completed_at o (strftime_now clk))).
Proof.
  intros Hst Hjs Hoid Hne d los w' los'. subst w' los'.
  unfold mark_learning_complete. rewrite Hoid, Hst.
  cbn [truthy]. rewrite (proj2 (String.eqb_neq oid "") Hne). cbn [negb].
  fold d. split.
  - subst los. destruct (ud_learning_objectives d) as [l|]; [|done].
    cbn. by intros ->.
  - intros Hd o Hget. subst los.
    destruct (ud_learning_objectives d) as [l|] eqn:Hlos; [|done].
    cbn [get_or default from_option id] in Hget. rewrite Hget.
    assert (Ho : json_objective o = Some o).
    { eapply (json_values_get json_objective l oid o); [|done].
      by eapply json_normal_objectives. }
    pose proof (json_objective_set_completed_at o (strftime_now clk) Ho) as Ho'.
    destruct (save_replaced_objective st clk (user_id c) w d l oid _ Hjs
                (loaded_file_opens st (user_id c) w l Hjs Hlos) Hd Hlos Ho')
      as [_ Hload].
    rewrite Hload.
    cbn [ud_learning_objectives set_last_updated get_or default from_option id].
    split; [|split].
    + clear -Hget. induction l as [|[k v] l IH]; [done|]. cbn in *.
      destruct (String.eqb oid k) eqn:E; cbn; [done|]. f_equal. auto.
    + intros other Hother. by apply pydict_get_set_ne.
    + apply pydict_get_set_eq.
Qed.

Lemma mark_learning_complete_record_witness :
  let c := with_objective_id Sample.fresh.1 (Some "old-1") in
  let d := load_user_progress Sample.store (user_id c) Sample.world_before in
  let los := get_or (ud_learning_objectives d) [] in
  let w' := mark_learning_complete Sample.clock c Sample.world_before in
  let los' :=
    get_or (ud_learning_objectives (load_user_progress Sample.store (user_id c) w')) [] in
  (PyDict.get "old-1" los = None → w' = Sample.world_before)
  ∧ (json_data d = Some d →
     ∀ o, PyDict.get "old-1" los = Some o →
       los'.*1 = los.*1
       ∧ (∀ other, other ≠ "old-1" → PyDict.get other los' = PyDict.get other los)
       ∧ PyDict.get "old-1" los' = Some (set_completed_at o (strftime_now Sample.clock))).
Proof.
  apply (mark_learning_complete_record Sample.clock
           (with_objective_id Sample.fresh.1 (Some "old-1")) Sample.world_before
           Sample.store "old-1").
  - reflexivity.
  - reflexivity.
  - reflexivity.
  - discriminate.
Defined.

(** ** The learning history *)


(** The history of [alice], whose record has one objective without topics
    or quizzes. *)
Example learning_history_sample :
  get_user_learning_history (fold_right PrimFloat.add 0%float) Sample.store "alice"
    Sample.world_before
  = [mkHistoryEntry "old-1" (Some "Geometry") (Some "2025-01-15T09:30:00") None
       0 0 0%float 0 0%float].
Proof. vm_compute. reflexivity. Qed.

(** ** A session for a user the store does not know *)

Lemma load_progress_nothing c w st :
  _progress_store c = Some st →
  load_user_progress st (user_id c) w = empty_data →
  load_progress c w = (false, c).
Proof. intros Hst Hload. unfold load_progress. by rewrite Hst, Hload. Qed.

Lemma run_saves_no_data st u calls w :
  Forall (fun call => sc_user call ≠ u) calls →
  no_data_for st u w → no_data_for st u (run_saves st calls w).
Proof.
  unfold run_saves. intros Hcalls. revert w.
  induction Hcalls as [|call calls Hcall _ IH]; intros w Hw; [done|].
  cbn. apply IH. by apply save_keeps_no_data.
Qed.

(** A store is opened on an empty world, on either backend, and saves any
    data for users other than [u]. A session then opened for [u] on the
    same directory finds nothing to load: [load_progress] returns [False]
    and the session is as it was built, without objective, plan, levels or
    completed topics. *)
Theorem new_user_session_empty default_dir dir sqlite calls u :
  Forall (fun call => sc_user call ≠ u) calls →
  let st := (UserProgressStore_init default_dir dir sqlite empty_world).1 in
  let w := run_saves st calls (UserProgressStore_init default_dir dir sqlite empty_world).2 in
  let session := TutorContext_init default_dir u dir sqlite w in
  load_progress session.1 session.2 = (false, session.1)
  ∧ objective_id session.1 = None
  ∧ study_plan session.1 = None
  ∧ mastery_levels session.1 = ∅
  ∧ completed_topics session.1 = [].
Proof.
  intros Hcalls st w session.
  assert (H0 : no_data_for st u (UserProgressStore_init default_dir dir sqlite empty_world).2).
  { subst st. unfold UserProgressStore_init. cbn [fst snd].
    destruct sqlite; [|by split].
    unfold _init_sqlite_db, makedirs, empty_world. cbn [dbs files].
    rewrite lookup_empty. split; [done|]. cbn [dbs].
    intros db. rewrite lookup_insert_eq. by intros [= <-]. }
  pose proof (run_saves_no_data st u calls _ Hcalls H0) as Hw. fold w in Hw.
  subst session. unfold TutorContext_init.
  destruct (UserProgressStore_init default_dir dir sqlite w) as [st' w'] eqn:Hinit.
  cbn [fst snd].
  assert (st' = st ∧ no_data_for st u w') as [-> Hw'].
  { pose proof (init_keeps_no_data default_dir dir sqlite u w Hw) as H.
    rewrite Hinit in H. split; [|exact H].
    revert Hinit. unfold UserProgressStore_init. by intros [= <- _]. }
  split; [|done].
  apply (load_progress_nothing _ _ st); [done|]. cbn [user_id].
  by apply no_data_loads_empty.
Qed.

Lemma new_user_session_empty_witness :
  let st := (UserProgressStore_init "/home/u/.ai_tutor" (Some "/data") true empty_world).1 in
  let w :=
    run_saves st
      [mkSaveCall Sample.clock "bob" Sample.two_objectives]
      (UserProgressStore_init "/home/u/.ai_tutor" (Some "/data") true empty_world).2 in
  let session := TutorContext_init "/home/u/.ai_tutor" "alice" (Some "/data") true w in
  load_progress session.1 session.2 = (false, session.1)
  ∧ objective_id session.1 = None
  ∧ study_plan session.1 = None
  ∧ mastery_levels session.1 = ∅
  ∧ completed_topics session.1 = [].
Proof.
  apply (new_user_session_empty "/home/u/.ai_tutor" (Some "/data") true
           [mkSaveCall Sample.clock "bob" Sample.two_objectives] "alice").
  constructor; [discriminate | constructor].
Defined.
